(** * The klusterlet manifest works of a managed cluster

    A shallow embedding of the manifest-work controller
    (package [manifestwork]: [deleteAddonsAndWorks], [deleteManifestWorks],
    [createKlusterletCRDsManifestWork], [createKlusterletManifestWork]) and of
    the self-managed-cluster controller (package [selfmanagedcluster]:
    [Reconcile]) of the managedcluster-import-controller.

    Go functions that talk to the hub are state transformers on an abstract
    hub state; the packages [helpers] and [constants] and the client are
    interfaces (type classes), as they are for the controllers themselves. *)

From Stdlib Require Import ZArith Ascii.
From stdpp Require Import base option list gmap strings.
From Equations.Prop Require Import Equations Logic.

Local Open Scope Z_scope.
Local Open Scope nat_scope.

(** ** Go strings *)

Module strings.

(** [strings.HasPrefix(s, prefix)] *)
Definition HasPrefix (s prefix : string) : bool := String.prefix prefix s.

(** The bytes of [s] from position [n] on: the Go slice [s[n:]]. *)
Fixpoint from (n : nat) (s : string) : string :=
  match n, s with
  | 0, _ => s
  | S _, EmptyString => EmptyString
  | S n', String _ s' => from n' s'
  end.

(** The first [n] bytes of [s]: the Go slice [s[:n]]. *)
Fixpoint upto (n : nat) (s : string) : string :=
  match n, s with
  | 0, _ => EmptyString
  | S _, EmptyString => EmptyString
  | S n', String c s' => String c (upto n' s')
  end.

(** [strings.HasSuffix(s, suffix)]:
    [len(s) >= len(suffix) && s[len(s)-len(suffix):] == suffix] *)
Definition HasSuffix (s suffix : string) : bool :=
  (String.length suffix <=? String.length s)
  && bool_decide (from (String.length s - String.length suffix) s = suffix).

(** [strings.Index(s, sep)], with [None] for Go's [-1]. *)
Fixpoint Index (s sep : string) : option nat :=
  if String.prefix sep s then Some 0
  else match s with
       | EmptyString => None
       | String _ s' => S <$> Index s' sep
       end.

(** [strings.Split(s, sep)] for a separator of at least one byte, [c] being
    its first byte and [sep'] the rest: the loop of [genSplit], which cuts
    [s] at the first [sep] and goes on with what follows it. *)
Equations? genSplit (s : string) (c : ascii) (sep' : string) : list string
  by wf (String.length s) lt :=
  genSplit s c sep' with inspect (Index s (String c sep')) := {
    | exist _ None _ => [s];
    | exist _ (Some m) _ =>
        upto m s :: genSplit (from (m + S (String.length sep')) s) c sep' }.
Proof.
  assert (Hfrom : ∀ n t, String.length (from n t) ≤ String.length t).
  { intros n; induction n as [|n IH]; intros [|a t]; simpl; try lia.
    specialize (IH t); lia. }
  destruct s as [|a s]; [discriminate|].
  replace (m + S (String.length sep')) with (S (m + String.length sep')) by lia.
  simpl. specialize (Hfrom (m + String.length sep') s). lia.
Qed.

(** [strings.Split(s, sep)]. With an empty separator Go explodes [s] into
    its UTF-8 sequences; they are single bytes here. *)
Definition Split (s sep : string) : list string :=
  match sep with
  | EmptyString =>
      (fix explode (t : string) : list string :=
         match t with
         | EmptyString => []
         | String a t' => String a EmptyString :: explode t'
         end) s
  | String c sep' => genSplit s c sep'
  end.

(** [strings.Join(elems, sep)] *)
Fixpoint Join (elems : list string) (sep : string) : string :=
  match elems with
  | [] => EmptyString
  | [e] => e
  | e :: rest => e +:+ sep +:+ Join rest sep
  end.

(** ASCII lower case of one byte. *)
Definition toLower (a : ascii) : ascii :=
  let n := Ascii.nat_of_ascii a in
  if (65 <=? n) && (n <=? 90) then Ascii.ascii_of_nat (n + 32) else a.

(** [strings.EqualFold(s, t)] on ASCII strings: equality up to the case of
    letters. (Unicode folding adds the Kelvin sign for [k] and the long s
    for [s] only, neither of which is a letter of ["true"].) *)
Fixpoint EqualFold (s t : string) : bool :=
  match s, t with
  | EmptyString, EmptyString => true
  | String a s', String b t' =>
      bool_decide (toLower a = toLower b) && EqualFold s' t'
  | _, _ => false
  end.

End strings.

(** ** Errors, results and panics *)

(** A Go [error] value that is not [nil]. A nilable [error] is an
    [option error]. *)
#[warnings="-register-all"]
Inductive error : Type :=
| StatusNotFound (msg : string)   (* an API status error with reason NotFound *)
| StatusFailure (msg : string)    (* any other error *)
| Aggregate (errs : list error).  (* the aggregate of a non-empty list *)

Module errors.
(** [errors.IsNotFound(err)] of k8s.io/apimachinery *)
Definition IsNotFound (err : error) : bool :=
  match err with StatusNotFound _ => true | _ => false end.
End errors.

(** [err.Error()] *)
Fixpoint Error (err : error) : string :=
  match err with
  | StatusNotFound msg => msg
  | StatusFailure msg => msg
  | Aggregate errs => "[" +:+ strings.Join (map Error errs) ", " +:+ "]"
  end.

(** The aggregate of a slice of errors: [nil] for the empty slice. This is
    [NewMultiLineAggregate] of library-go and [NewAggregate] of apimachinery
    on a slice without [nil] entries, which is all the controllers build. *)
Definition NewAggregate (errs : list error) : option error :=
  match errs with
  | [] => None
  | _ :: _ => Some (Aggregate errs)
  end.

Module operatorhelpers.
Definition NewMultiLineAggregate := NewAggregate.
End operatorhelpers.

Module utilerrors.
Definition NewAggregate := NewAggregate.
End utilerrors.

(** The two results [(x, err)] of a Go call that yields a value or an error. *)
Inductive result (A : Type) : Type :=
| Ok (a : A)
| Failed (err : error).
Arguments Ok {A} a.
Arguments Failed {A} err.

(** How a Go function without an error result ends: it returns its value, or
    it panics. *)
Inductive outcome (A : Type) : Type :=
| Returns (a : A)
| Panics (err : error).
Arguments Returns {A} a.
Arguments Panics {A} err.

(** ** API objects *)

Module metav1.
Inductive ConditionStatus := ConditionTrue | ConditionFalse | ConditionUnknown.

Record Condition := {
  Type_ : string;
  Status : ConditionStatus;
  Message : string;
  Reason : string;
}.
End metav1.

Module workv1.
Inductive DeletePropagationPolicyType :=
| DeletePropagationPolicyTypeForeground
| DeletePropagationPolicyTypeOrphan.

Record DeleteOption := { PropagationPolicy : DeletePropagationPolicyType }.

(** [Manifest{RawExtension: runtime.RawExtension{Raw: ...}}] *)
Record Manifest := { Raw : string }.

Record ManifestWork := {
  Name : string;
  Namespace : string;
  Labels : gmap string string;
  Annotations : gmap string string;
  Manifests : list Manifest;              (* Spec.Workload.Manifests *)
  DeleteOption_ : option DeleteOption;    (* Spec.DeleteOption, a pointer *)
}.
End workv1.

Module clusterv1.
(** The verdict on whether the cluster can be reached, which the hub
    computes from the observed status of the cluster. *)
Inductive Reachability := Available | Unavailable.

Record ManagedCluster := {
  Name : string;
  Labels : gmap string string;
  DeletionTimestamp : option Z;     (* seconds; [None] is the zero time *)
  KubernetesVersion : string;       (* Status.Version.Kubernetes *)
  Reach : Reachability;
}.
End clusterv1.

Module corev1.
Record Secret := {
  Name : string;
  Namespace : string;
  Data : gmap string string;
}.
End corev1.

Module time.
(** [time.Duration] counts nanoseconds. *)
Definition Second : Z := 1000000000.
End time.

Module reconcile.
Record Result := { Requeue : bool; RequeueAfter : Z }.
(** [reconcile.Result{}] *)
Definition zero : Result := {| Requeue := false; RequeueAfter := 0 |}.
End reconcile.

(** ** Package [constants] *)

Module constants.
(** The package is not among the sources: the controllers are read against
    any table of its values. *)
Class Table := {
  KlusterletSuffix : string;
  KlusterletCRDsSuffix : string;
  HostedKlusterletManifestworkSuffix : string;
  HostedManagedKubeconfigManifestworkSuffix : string;
  KlusterletWorksLabel : string;
  ImportSecretNameSuffix : string;
  ImportSecretCRDSV1YamlKey : string;
  ImportSecretCRDSV1beta1YamlKey : string;
  ImportSecretImportYamlKey : string;
  AutoImportSecretName : string;
  SelfManagedLabel : string;
  YamlSperator : string;
  PostponeDeletionAnnotation : string;
}.
End constants.

(** ** Package [yaml] (github.com/ghodss/yaml) *)

Module yaml.
Class Converter := { YAMLToJSON : string → result string }.
End yaml.

(** [fmt.Sprintf("%s-%s", a, b)] *)
Definition Sprintf_s_s (a b : string) : string := a +:+ "-" +:+ b.

(** ** The two klusterlet manifest works *)

Section manifestwork_builders.
Context `{constants.Table} `{yaml.Converter}.
(** [helpers.IsAPIExtensionV1Supported] and [helpers.SplitYamls] *)
Variable IsAPIExtensionV1Supported : string → bool.
Variable SplitYamls : string → list string.

(** [importSecret.Data[key]]: the zero value (no bytes) for a missing key *)
Definition secretData (importSecret : corev1.Secret) (key : string) : string :=
  default EmptyString (corev1.Data importSecret !! key).

(** The key of the definitions document in the secret: the first lines of
    [createKlusterletCRDsManifestWork]. *)
Definition crdsKey (managedCluster : clusterv1.ManagedCluster) : string :=
  if bool_decide (clusterv1.KubernetesVersion managedCluster ≠ EmptyString)
     && negb (IsAPIExtensionV1Supported (clusterv1.KubernetesVersion managedCluster))
  then
    (* crd v1 is not supported, put v1beta1 to manifest work *)
    constants.ImportSecretCRDSV1beta1YamlKey
  else constants.ImportSecretCRDSV1YamlKey.

Definition createKlusterletCRDsManifestWork
    (managedCluster : clusterv1.ManagedCluster) (importSecret : corev1.Secret)
    : outcome workv1.ManifestWork :=
  let crdYaml := secretData importSecret (crdsKey managedCluster) in
  match yaml.YAMLToJSON crdYaml with
  | Failed err => Panics err
  | Ok jsonData =>
      Returns
        {| workv1.Name :=
             Sprintf_s_s (clusterv1.Name managedCluster) constants.KlusterletCRDsSuffix;
           workv1.Namespace := clusterv1.Name managedCluster;
           workv1.Labels := {[ constants.KlusterletWorksLabel := "true" ]};
           workv1.Annotations := ∅;
           workv1.Manifests := [ {| workv1.Raw := jsonData |} ];
           workv1.DeleteOption_ := None |}
  end.

(** The loop of [createKlusterletManifestWork] over the split documents,
    [manifests] being the slice built so far. *)
Fixpoint appendManifests (yamls : list string) (manifests : list workv1.Manifest)
    : outcome (list workv1.Manifest) :=
  match yamls with
  | [] => Returns manifests
  | yamlData :: rest =>
      match yaml.YAMLToJSON yamlData with
      | Failed err => Panics err
      | Ok jsonData => appendManifests rest (manifests ++ [ {| workv1.Raw := jsonData |} ])
      end
  end.

Definition createKlusterletManifestWork
    (managedCluster : clusterv1.ManagedCluster) (importSecret : corev1.Secret)
    : outcome workv1.ManifestWork :=
  let importYaml := secretData importSecret constants.ImportSecretImportYamlKey in
  match appendManifests (SplitYamls importYaml) [] with
  | Panics err => Panics err
  | Returns manifests =>
      Returns
        {| workv1.Name :=
             Sprintf_s_s (clusterv1.Name managedCluster) constants.KlusterletSuffix;
           workv1.Namespace := clusterv1.Name managedCluster;
           workv1.Labels := {[ constants.KlusterletWorksLabel := "true" ]};
           workv1.Annotations := ∅;
           workv1.Manifests := manifests;
           workv1.DeleteOption_ :=
             Some {| workv1.PropagationPolicy := workv1.DeletePropagationPolicyTypeOrphan |} |}
  end.

End manifestwork_builders.

(** ** Calls to the hub

    A Go function that reads or writes the hub is a function from the state
    of the hub to its results and the state it leaves. *)

Definition Hub (W : Type) (A : Type) : Type := W → A * W.

#[global] Instance Hub_ret {W} : MRet (Hub W) := λ A a w, (a, w).
#[global] Instance Hub_bind {W} : MBind (Hub W) :=
  λ A B f m w, let '(a, w') := m w in f a w'.

(** Reading and changing the state of the hub. *)
Definition gets {W A : Type} (f : W → A) : Hub W A := λ w, (f w, w).
Definition modify {W : Type} (f : W → W) : Hub W unit := λ w, ((), f w).

(** ** Package [helpers] and the clients of the [ClientHolder] *)

Module helpers.
Class Calls (W : Type) := {
  IsClusterUnavailable : clusterv1.ManagedCluster → bool;
  DeleteManagedClusterAddons : clusterv1.ManagedCluster → Hub W (option error);
  ForceDeleteAllManifestWorks : list workv1.ManifestWork → Hub W (option error);
  DeleteManifestWorkWithSelector :
    clusterv1.ManagedCluster → list workv1.ManifestWork →
    (string → workv1.ManifestWork → bool) → Hub W (option error);
  NoManagedClusterAddons : string → Hub W (bool * option error);
  NoPendingManifestWorks :
    string → (string → workv1.ManifestWork → bool) → Hub W (bool * option error);
  (* namespace, name *)
  ForceDeleteManifestWork : string → string → Hub W (option error);
  DeleteManifestWork : string → string → Hub W (option error);
  ImportManagedClusterFromSecret : corev1.Secret → Hub W (option error);
  UpdateManagedClusterStatus : string → metav1.Condition → Hub W (option error);
}.
End helpers.

Module client.
Record ListOptions := {
  Namespace : string;
  LabelSelector : gmap string string;   (* [labels.SelectorFromSet] *)
}.

(** [RuntimeClient.Get] and [List] and [KubeClient.CoreV1().Secrets(ns).Get],
    one entry per kind of object the controllers ask for. *)
Class Client (W : Type) := {
  GetManagedCluster : string → Hub W (result clusterv1.ManagedCluster);
  GetManifestWork : string → string → Hub W (result workv1.ManifestWork);
  GetSecret : string → string → Hub W (result corev1.Secret);
  ListManifestWorks : ListOptions → Hub W (result (list workv1.ManifestWork));
}.
End client.

(** ** Package [manifestwork]: deleting the manifest works *)

Module manifestwork.
Section manifestwork.
Context `{constants.Table} {W : Type} `{helpers.Calls W} `{client.Client W}.

(** The selector of the works [deleteManifestWorks] leaves to others: the
    klusterlet works, the Hosted mode works and the addon works. *)
Definition ignoreKlusterletAndAddons
    (clusterName : string) (manifestWork : workv1.ManifestWork) : bool :=
  let manifestWorkName := workv1.Name manifestWork in
  if bool_decide (manifestWorkName = Sprintf_s_s clusterName constants.KlusterletSuffix)
  then true
  else if bool_decide (manifestWorkName = Sprintf_s_s clusterName constants.KlusterletCRDsSuffix)
  then true
  else if bool_decide (manifestWorkName =
                       Sprintf_s_s clusterName constants.HostedKlusterletManifestworkSuffix)
  then true
  else if bool_decide (manifestWorkName =
                       Sprintf_s_s clusterName constants.HostedManagedKubeconfigManifestworkSuffix)
  then true
  else if strings.HasPrefix manifestWorkName
            (workv1.Namespace manifestWork +:+ "-klusterlet-addon")
  then true
  else if strings.HasPrefix manifestWorkName "addon-"
          && strings.HasSuffix (workv1.Name manifestWork) "-deploy"
  then true
  else if strings.HasPrefix manifestWorkName "addon-"
          && strings.HasSuffix (workv1.Name manifestWork) "-pre-delete"
  then true
  else false.

Definition ignoreKlusterlet
    (clusterName : string) (manifestWork : workv1.ManifestWork) : bool :=
  bool_decide (workv1.Name manifestWork = Sprintf_s_s clusterName constants.KlusterletSuffix)
  || bool_decide (workv1.Name manifestWork =
                  Sprintf_s_s clusterName constants.KlusterletCRDsSuffix).

Definition deleteManifestWorks
    (cluster : clusterv1.ManagedCluster) (works : list workv1.ManifestWork)
    : Hub W (reconcile.Result * option error) :=
  if bool_decide (length works = 0) then mret (reconcile.zero, None)
  else if helpers.IsClusterUnavailable cluster then
    (* the managed cluster is offline, force delete all manifest works *)
    err ← helpers.ForceDeleteAllManifestWorks works;
    mret (reconcile.zero, err)
  else
    err ← helpers.DeleteManifestWorkWithSelector cluster works ignoreKlusterletAndAddons;
    match err with
    | Some _ => mret (reconcile.zero, err)
    | None =>
    '(noAddons, err) ← helpers.NoManagedClusterAddons (clusterv1.Name cluster);
    match err with
    | Some _ => mret (reconcile.zero, err)
    | None =>
    if negb noAddons then
      (* wait for addons deletion *)
      mret ({| reconcile.Requeue := false;
               reconcile.RequeueAfter := 10 * time.Second |}, None)
    else
    '(noPendingManifestWorks, err) ←
      helpers.NoPendingManifestWorks (clusterv1.Name cluster) ignoreKlusterlet;
    match err with
    | Some _ => mret (reconcile.zero, err)
    | None =>
    if negb noPendingManifestWorks then
      (* still have other works, do nothing *)
      mret (reconcile.zero, None)
    else
    (* only have klusterlet manifest works, delete klusterlet manifest works *)
    let klusterletName := Sprintf_s_s (clusterv1.Name cluster) constants.KlusterletSuffix in
    got ← client.GetManifestWork (clusterv1.Name cluster) klusterletName;
    match got with
    | Failed err =>
        if errors.IsNotFound err then
          (* the klusterlet work could be deleted, ensure the klusterlet crds
             work is deleted *)
          err ← helpers.ForceDeleteManifestWork (clusterv1.Name cluster)
                  (Sprintf_s_s (clusterv1.Name cluster) constants.KlusterletCRDsSuffix);
          mret (reconcile.zero, err)
        else mret (reconcile.zero, Some err)
    | Ok klusterletWork =>
        err ← helpers.DeleteManifestWork
                (workv1.Namespace klusterletWork) (workv1.Name klusterletWork);
        mret (reconcile.zero, err)
    end
    end
    end
    end.

Definition deleteAddonsAndWorks
    (cluster : clusterv1.ManagedCluster) (works : list workv1.ManifestWork)
    : Hub W (reconcile.Result * option error) :=
  let errs : list error := [] in
  err ← helpers.DeleteManagedClusterAddons cluster;
  (* continue to delete manifestworks *)
  let errs := match err with Some e => errs ++ [e] | None => errs end in
  (* the managed cluster is deleting, delete its manifestworks *)
  '(result, err) ← deleteManifestWorks cluster works;
  let errs := match err with Some e => errs ++ [e] | None => errs end in
  mret (result, operatorhelpers.NewMultiLineAggregate errs).

End manifestwork.
End manifestwork.

(** ** The classification of the spec

    The classes of bundles of §4.2 of the spec, after its words and the naming
    convention of its §6: the definitions bundle and the install bundle by
    their names, the addon bundles by the three addon naming conventions, and
    [Other] for everything else. The controller has no such function; it is
    here to state what the spec says of the classes. *)

Inductive BundleClass := DefinitionsBundle | InstallBundle | AddonBundle | Other.

Section classification.
Context `{constants.Table}.

Definition addonNamed (bundle : workv1.ManifestWork) : bool :=
  strings.HasPrefix (workv1.Name bundle) (workv1.Namespace bundle +:+ "-klusterlet-addon")
  || strings.HasPrefix (workv1.Name bundle) "addon-"
     && strings.HasSuffix (workv1.Name bundle) "-deploy"
  || strings.HasPrefix (workv1.Name bundle) "addon-"
     && strings.HasSuffix (workv1.Name bundle) "-pre-delete".

Definition classify (target : string) (bundle : workv1.ManifestWork) : BundleClass :=
  if bool_decide (workv1.Name bundle = Sprintf_s_s target constants.KlusterletCRDsSuffix)
  then DefinitionsBundle
  else if bool_decide (workv1.Name bundle = Sprintf_s_s target constants.KlusterletSuffix)
  then InstallBundle
  else if addonNamed bundle then AddonBundle
  else Other.

(** The works of the Hosted mode, which the spec does not tell from the
    other [Other] bundles. *)
Definition hostedNamed (target : string) (bundle : workv1.ManifestWork) : bool :=
  bool_decide (workv1.Name bundle =
               Sprintf_s_s target constants.HostedKlusterletManifestworkSuffix)
  || bool_decide (workv1.Name bundle =
                  Sprintf_s_s target constants.HostedManagedKubeconfigManifestworkSuffix).
End classification.

(** ** Package [selfmanagedcluster] *)

Module selfmanagedcluster.
Section selfmanagedcluster.
Context `{constants.Table} {W : Type} `{helpers.Calls W} `{client.Client W}.

(** [Reconcile] on the request for the cluster [name] ([request.Name]) *)
Definition Reconcile (name : string) : Hub W (reconcile.Result * option error) :=
  got ← client.GetManagedCluster name;
  match got with
  | Failed err =>
      if errors.IsNotFound err then
        (* the managed cluster could have been deleted, do nothing *)
        mret (reconcile.zero, None)
      else mret (reconcile.zero, Some err)
  | Ok managedCluster =>
  match clusterv1.Labels managedCluster !! constants.SelfManagedLabel with
  | None => mret (reconcile.zero, None)
  | Some selfManaged =>
  if negb (strings.EqualFold selfManaged "true") then mret (reconcile.zero, None)
  else
  (* if there is an auto import secret in the managed cluster namespace, we
     will use the auto import secret to import the cluster *)
  got ← client.GetSecret name constants.AutoImportSecretName;
  match got with
  | Ok _ => mret (reconcile.zero, None)
  | Failed err =>
  if negb (errors.IsNotFound err) then mret (reconcile.zero, Some err)
  else
  let importSecretName := Sprintf_s_s name constants.ImportSecretNameSuffix in
  got ← client.GetSecret name importSecretName;
  match got with
  | Failed err =>
      if errors.IsNotFound err then
        (* the import secret could have been deleted, do nothing *)
        mret (reconcile.zero, None)
      else mret (reconcile.zero, Some err)
  | Ok importSecret =>
  (* ensure the klusterlet manifest works exist *)
  let listOpts :=
    {| client.Namespace := name;
       client.LabelSelector := {[ constants.KlusterletWorksLabel := "true" ]} |} in
  listed ← client.ListManifestWorks listOpts;
  match listed with
  | Failed err => mret (reconcile.zero, Some err)
  | Ok manifestWorks =>
  if bool_decide (length manifestWorks ≠ 2) then mret (reconcile.zero, None)
  else
  let importCondition :=
    {| metav1.Type_ := "ManagedClusterImportSucceeded";
       metav1.Status := metav1.ConditionTrue;
       metav1.Message := "Import succeeded";
       metav1.Reason := "ManagedClusterImported" |} in
  let errs : list error := [] in
  err ← helpers.ImportManagedClusterFromSecret importSecret;
  let '(errs, importCondition) :=
    match err with
    | Some e =>
        (errs ++ [e],
         {| metav1.Type_ := metav1.Type_ importCondition;
            metav1.Status := metav1.ConditionFalse;
            metav1.Message := "Unable to import " +:+ name +:+ ": " +:+ Error e;
            metav1.Reason := "ManagedClusterNotImported" |})
    | None => (errs, importCondition)
    end in
  err ← helpers.UpdateManagedClusterStatus name importCondition;
  let errs := match err with Some e => errs ++ [e] | None => errs end in
  mret (reconcile.zero, utilerrors.NewAggregate errs)
  end
  end
  end
  end
  end.

End selfmanagedcluster.
End selfmanagedcluster.

(** ** The hub

    The objects the hub stores, the requests it has been sent, and the
    helpers of package [helpers] as operations on them. *)

Module hub.

(** The requests the controllers and their helpers send to the hub. *)
Module request.
Inductive Request : Type :=
| GetManagedCluster (name : string)
| GetSecret (namespace name : string)
| GetManifestWork (namespace name : string)
| ListManifestWorks (namespace : string)
| ListManagedClusterAddons (namespace : string)
| DeleteManagedClusterAddons (namespace : string)
| DeleteManifestWork (namespace name : string)
| ForceDeleteManifestWork (namespace name : string)
| ImportManagedCluster (namespace : string)
| UpdateManagedClusterStatus (name : string) (condition : metav1.Condition).
End request.
Abbreviation Request := request.Request.

(** Modelled from the spec: the bundle store, the addon retirer and the
    secret source of §6, which the sources only call. Objects are stored by
    namespace and name; [refuses] tells which requests the hub fails, with
    the message of the failure (§4.3: any operation against the store may
    fail transiently); [requests] are the requests sent so far, the oldest
    first. *)
Record World : Type := {
  clusters : gmap string clusterv1.ManagedCluster;
  secrets : gmap (string * string) corev1.Secret;
  works : gmap (string * string) workv1.ManifestWork;
  addons : gset (string * string);
  now : Z;
  refuses : Request → option string;
  requests : list Request;
}.

Definition sent (r : Request) (w : World) : World :=
  {| clusters := clusters w; secrets := secrets w; works := works w;
     addons := addons w; now := now w; refuses := refuses w;
     requests := requests w ++ [r] |}.

Definition withoutWork (namespace name : string) (w : World) : World :=
  {| clusters := clusters w; secrets := secrets w;
     works := delete (namespace, name) (works w);
     addons := addons w; now := now w; refuses := refuses w;
     requests := requests w |}.

(** A work as the hub answers it: under the namespace and the name it is
    stored by. *)
Definition stored (key : string * string) (work : workv1.ManifestWork)
    : workv1.ManifestWork :=
  {| workv1.Name := key.2; workv1.Namespace := key.1;
     workv1.Labels := workv1.Labels work;
     workv1.Annotations := workv1.Annotations work;
     workv1.Manifests := workv1.Manifests work;
     workv1.DeleteOption_ := workv1.DeleteOption_ work |}.

(** The manifest works stored in a namespace. *)
Definition worksIn (namespace : string) (w : World) : list workv1.ManifestWork :=
  (λ kv, stored kv.1 kv.2) <$> filter (λ kv, kv.1.1 = namespace) (map_to_list (works w)).

(** Sending [r]: the failure the hub answers with, if any. *)
Definition send (r : Request) : Hub World (option error) :=
  refusal ← gets (λ w, refuses w r);
  _ ← modify (sent r);
  mret (StatusFailure <$> refusal).

Definition found {A : Type} (kind : string) (o : option A) : result A :=
  match o with
  | Some a => Ok a
  | None => Failed (StatusNotFound (kind +:+ " not found"))
  end.

(** Modelled from the spec: the [get] of the bundle store (§6), which
    answers the stored bundle or NotFound. *)
Definition GetManifestWork (namespace name : string)
    : Hub World (result workv1.ManifestWork) :=
  refused ← send (request.GetManifestWork namespace name);
  match refused with
  | Some err => mret (Failed err)
  | None =>
      gets (λ w, found "manifestwork"
                   (stored (namespace, name) <$> works w !! (namespace, name)))
  end.

(** Modelled from the spec: the [list] of the bundle store with its
    label-selector filtering (§6). *)
Definition ListManifestWorks (opts : client.ListOptions)
    : Hub World (result (list workv1.ManifestWork)) :=
  refused ← send (request.ListManifestWorks (client.Namespace opts));
  match refused with
  | Some err => mret (Failed err)
  | None =>
      gets (λ w, Ok (filter
                       (λ mw, map_Forall (λ k v, workv1.Labels mw !! k = Some v)
                                         (client.LabelSelector opts))
                       (worksIn (client.Namespace opts) w)))
  end.

(** Modelled from the spec: the secret payload source of §6. *)
Definition GetSecret (namespace name : string) : Hub World (result corev1.Secret) :=
  refused ← send (request.GetSecret namespace name);
  match refused with
  | Some err => mret (Failed err)
  | None => gets (λ w, found "secret" (secrets w !! (namespace, name)))
  end.

(** Modelled from the spec: the target and its reachability verdict (§3). *)
Definition GetManagedCluster (name : string)
    : Hub World (result clusterv1.ManagedCluster) :=
  refused ← send (request.GetManagedCluster name);
  match refused with
  | Some err => mret (Failed err)
  | None => gets (λ w, found "managedcluster" (clusters w !! name))
  end.

(** Modelled from the spec: [helpers.IsClusterUnavailable], the
    reachability oracle of §6, which reads the verdict computed outside. *)
Definition IsClusterUnavailable (cluster : clusterv1.ManagedCluster) : bool :=
  match clusterv1.Reach cluster with
  | clusterv1.Unavailable => true
  | clusterv1.Available => false
  end.

(** Modelled from the spec: [helpers.DeleteManagedClusterAddons], the
    [retireAll] of the addon retirer (§6). It asks for the addons of the
    cluster to be removed; they are gone once their own controllers have
    finished, which is what state 3 of §4.3 waits for. *)
Definition DeleteManagedClusterAddons (cluster : clusterv1.ManagedCluster)
    : Hub World (option error) :=
  send (request.DeleteManagedClusterAddons (clusterv1.Name cluster)).

(** Modelled from the spec: [helpers.NoManagedClusterAddons], the
    [noneRemaining] of the addon retirer (§6). *)
Definition NoManagedClusterAddons (clusterName : string)
    : Hub World (bool * option error) :=
  refused ← send (request.ListManagedClusterAddons clusterName);
  match refused with
  | Some err => mret (false, Some err)
  | None =>
      noAddons ← gets (λ w, bool_decide (set_Forall (λ k, k.1 ≠ clusterName) (addons w)));
      mret (noAddons, None)
  end.

(** Modelled from the spec: [helpers.DeleteManifestWork], the [delete] of
    the bundle store (§6); a bundle that is already absent is a success
    (§7). *)
Definition DeleteManifestWork (namespace name : string) : Hub World (option error) :=
  refused ← send (request.DeleteManifestWork namespace name);
  match refused with
  | Some err => mret (Some err)
  | None => _ ← modify (withoutWork namespace name); mret None
  end.

(** Modelled from the spec: [helpers.ForceDeleteManifestWork], the
    unconditional delete of one bundle (§4.4). *)
Definition ForceDeleteManifestWork (namespace name : string) : Hub World (option error) :=
  refused ← send (request.ForceDeleteManifestWork namespace name);
  match refused with
  | Some err => mret (Some err)
  | None => _ ← modify (withoutWork namespace name); mret None
  end.

Fixpoint forceDeleteEach (manifestWorks : list workv1.ManifestWork) (errs : list error)
    : Hub World (list error) :=
  match manifestWorks with
  | [] => mret errs
  | item :: rest =>
      err ← ForceDeleteManifestWork (workv1.Namespace item) (workv1.Name item);
      forceDeleteEach rest (match err with Some e => errs ++ [e] | None => errs end)
  end.

(** Modelled from the spec: [helpers.ForceDeleteAllManifestWorks], the
    force path of §4.4: a best-effort delete of every bundle it is given,
    whatever its classification, collecting all errors rather than stopping
    at the first, and reporting them as one aggregate (§7). *)
Definition ForceDeleteAllManifestWorks (manifestWorks : list workv1.ManifestWork)
    : Hub World (option error) :=
  errs ← forceDeleteEach manifestWorks [];
  mret (NewAggregate errs).

(** Ten minutes, in seconds. *)
Definition manifestWorkPostponeDeleteTime : Z := 600.

Section with_constants.
Context `{constants.Table}.

(** A work with the postpone-delete annotation is kept until ten minutes
    after the cluster was deleted (step 1 of the comment of
    [deleteManifestWorks]). *)
Definition postponed (cluster : clusterv1.ManagedCluster)
    (manifestWork : workv1.ManifestWork) (w : World) : bool :=
  match workv1.Annotations manifestWork !! constants.PostponeDeletionAnnotation with
  | None => false
  | Some _ =>
      match clusterv1.DeletionTimestamp cluster with
      | None => false
      | Some deleted =>
          bool_decide (now w - deleted < manifestWorkPostponeDeleteTime)%Z
      end
  end.

Fixpoint deleteEachWithSelector (cluster : clusterv1.ManagedCluster)
    (works : list workv1.ManifestWork)
    (selector : string → workv1.ManifestWork → bool) (errs : list error)
    : Hub World (list error) :=
  match works with
  | [] => mret errs
  | manifestWork :: rest =>
      if selector (clusterv1.Name cluster) manifestWork then
        deleteEachWithSelector cluster rest selector errs
      else
        wait ← gets (postponed cluster manifestWork);
        if (wait : bool) then deleteEachWithSelector cluster rest selector errs
        else
          err ← DeleteManifestWork (workv1.Namespace manifestWork)
                  (workv1.Name manifestWork);
          deleteEachWithSelector cluster rest selector
            (match err with Some e => errs ++ [e] | None => errs end)
  end.

(** Modelled from the spec: [helpers.DeleteManifestWorkWithSelector], the
    batch delete of §7, whose per-bundle failures are reported as one
    aggregate. Which works it deletes is fixed by its caller in the
    sources: the selector it is given is [ignoreKlusterletAndAddons], and
    the comments of [deleteManifestWorks] read "delete the manifest works
    that do not include klusterlet works and klusterlet addon works" and
    "delete the manifest work with the postpone-delete annotation until 10
    min after the cluster is deleted"; so the works the selector holds
    for are skipped, and so are the postponed ones. *)
Definition DeleteManifestWorkWithSelector (cluster : clusterv1.ManagedCluster)
    (works : list workv1.ManifestWork)
    (selector : string → workv1.ManifestWork → bool) : Hub World (option error) :=
  errs ← deleteEachWithSelector cluster works selector [];
  mret (NewAggregate errs).

(** Modelled from the spec: [helpers.NoPendingManifestWorks], the
    convergence waiter of §2: it lists the bundles of the cluster and
    tells whether all of them are ones the selector sets aside. *)
Definition NoPendingManifestWorks (clusterName : string)
    (ignoredSelector : string → workv1.ManifestWork → bool)
    : Hub World (bool * option error) :=
  refused ← send (request.ListManifestWorks clusterName);
  match refused with
  | Some err => mret (false, Some err)
  | None =>
      noPending ← gets (λ w, forallb (ignoredSelector clusterName) (worksIn clusterName w));
      mret (noPending, None)
  end.

(** The manifest works of a namespace that carry the klusterlet-works
    label. *)
Definition klusterletWorksIn (namespace : string) (w : World) : list workv1.ManifestWork :=
  filter (λ item, workv1.Labels item !! constants.KlusterletWorksLabel = Some "true")
         (worksIn namespace w).

(** Modelled from the spec: [helpers.SplitYamls], which cuts the
    concatenated install document at the document separator (§4.1). *)
Definition SplitYamls (yamls : string) : list string :=
  strings.Split yamls constants.YamlSperator.

(** Modelled from the spec: [helpers.ImportManagedClusterFromSecret], one
    of the flows above the core (§1), of which only the request is kept. *)
Definition ImportManagedClusterFromSecret (importSecret : corev1.Secret)
    : Hub World (option error) :=
  send (request.ImportManagedCluster (corev1.Namespace importSecret)).

(** Modelled from the spec: [helpers.UpdateManagedClusterStatus], the
    status reporting above the core (§1), of which only the request is
    kept. *)
Definition UpdateManagedClusterStatus (name : string) (condition : metav1.Condition)
    : Hub World (option error) :=
  send (request.UpdateManagedClusterStatus name condition).

#[global] Instance calls : helpers.Calls World := {|
  helpers.IsClusterUnavailable := IsClusterUnavailable;
  helpers.DeleteManagedClusterAddons := DeleteManagedClusterAddons;
  helpers.ForceDeleteAllManifestWorks := ForceDeleteAllManifestWorks;
  helpers.DeleteManifestWorkWithSelector := DeleteManifestWorkWithSelector;
  helpers.NoManagedClusterAddons := NoManagedClusterAddons;
  helpers.NoPendingManifestWorks := NoPendingManifestWorks;
  helpers.ForceDeleteManifestWork := ForceDeleteManifestWork;
  helpers.DeleteManifestWork := DeleteManifestWork;
  helpers.ImportManagedClusterFromSecret := ImportManagedClusterFromSecret;
  helpers.UpdateManagedClusterStatus := UpdateManagedClusterStatus;
|}.
End with_constants.

#[global] Instance api : client.Client World := {|
  client.GetManagedCluster := GetManagedCluster;
  client.GetManifestWork := GetManifestWork;
  client.GetSecret := GetSecret;
  client.ListManifestWorks := ListManifestWorks;
|}.

(** What a run of deletions leaves of the hub: the requests [new] have been
    added, works may have gone, none has come, and nothing else changed. *)
Record deletes (w w' : World) (new : list Request) : Prop := {
  deletes_requests : requests w' = requests w ++ new;
  deletes_refuses : refuses w' = refuses w;
  deletes_now : now w' = now w;
  deletes_addons : addons w' = addons w;
  deletes_gone : ∀ k, works w !! k = None → works w' !! k = None;
}.

End hub.

(** ** A table of constants and a converter to run the controllers on *)

Definition newline : string := String "010" EmptyString.

(** Modelled from the spec: the values of package [constants]. The two role
    suffixes are those of the naming convention of §6 ([<target>-klusterlet]
    and [<target>-crds]). The spec leaves the other values open; they are
    given the names the project uses, for the examples only: every theorem
    below holds for all tables. *)
Definition knownConstants : constants.Table := {|
  constants.KlusterletSuffix := "klusterlet";
  constants.KlusterletCRDsSuffix := "crds";
  constants.HostedKlusterletManifestworkSuffix := "hosted-klusterlet";
  constants.HostedManagedKubeconfigManifestworkSuffix := "hosted-kubeconfig";
  constants.KlusterletWorksLabel := "import.open-cluster-management.io/klusterlet-works";
  constants.ImportSecretNameSuffix := "import";
  constants.ImportSecretCRDSV1YamlKey := "crdsv1.yaml";
  constants.ImportSecretCRDSV1beta1YamlKey := "crdsv1beta1.yaml";
  constants.ImportSecretImportYamlKey := "import.yaml";
  constants.AutoImportSecretName := "auto-import-secret";
  constants.SelfManagedLabel := "local-cluster";
  constants.YamlSperator := newline +:+ "---" +:+ newline;
  constants.PostponeDeletionAnnotation := "import.open-cluster-management.io/postpone-delete";
|}.

Module oneline.

Definition lower (a : ascii) : bool :=
  let n := Ascii.nat_of_ascii a in (97 <=? n) && (n <=? 122).
Definition upper (a : ascii) : bool :=
  let n := Ascii.nat_of_ascii a in (65 <=? n) && (n <=? 90).

Fixpoint all (p : ascii → bool) (s : string) : bool :=
  match s with
  | EmptyString => true
  | String a s' => p a && all p s'
  end.

(** A key: lower-case letters, at least one. *)
Definition key (s : string) : bool :=
  match s with EmptyString => false | _ => all lower s end.

(** A value that YAML reads as a string: a capital letter followed by
    lower-case letters, and none of the words it reads as a boolean or as
    null. *)
Definition word (s : string) : bool :=
  match s with
  | EmptyString => false
  | String a s' =>
      upper a && all lower s'
      && bool_decide (s ∉ ["Y"; "N"; "Yes"; "No"; "On"; "Off"; "True"; "False"; "Null"])
  end.

Definition quoted (s : string) : string :=
  String "034" (s +:+ String "034" EmptyString).

(** [yaml.YAMLToJSON] on the documents [key: Word] of one line and on the
    empty document; on these it answers what the library answers. Any
    other document is refused, among them the malformed ones. *)
Definition YAMLToJSON (y : string) : result string :=
  match y with
  | EmptyString => Ok "null"
  | _ =>
      match strings.Index y ": " with
      | Some m =>
          let k := strings.upto m y in
          let v := strings.from (m + 2) y in
          if key k && word v
          then Ok ("{" +:+ quoted k +:+ ":" +:+ quoted v +:+ "}")
          else Failed (StatusFailure "yaml: document not of the form key: Word")
      | None => Failed (StatusFailure "yaml: document not of the form key: Word")
      end
  end.

Definition converter : yaml.Converter := {| yaml.YAMLToJSON := YAMLToJSON |}.

End oneline.

(** ** Examples to run the controllers on *)

Module example.

Definition work (namespace name : string) : workv1.ManifestWork :=
  {| workv1.Name := name; workv1.Namespace := namespace;
     workv1.Labels := ∅; workv1.Annotations := ∅;
     workv1.Manifests := []; workv1.DeleteOption_ := None |}.

(** A work with the klusterlet-works label of [knownConstants]. *)
Definition klusterletWork (namespace name : string) : workv1.ManifestWork :=
  {| workv1.Name := name; workv1.Namespace := namespace;
     workv1.Labels := {[ "import.open-cluster-management.io/klusterlet-works" := "true" ]};
     workv1.Annotations := ∅;
     workv1.Manifests := []; workv1.DeleteOption_ := None |}.

(** A cluster that is being deleted. *)
Definition cluster (name : string) (reach : clusterv1.Reachability)
    : clusterv1.ManagedCluster :=
  {| clusterv1.Name := name; clusterv1.Labels := ∅;
     clusterv1.DeletionTimestamp := Some 0%Z;
     clusterv1.KubernetesVersion := EmptyString; clusterv1.Reach := reach |}.

(** A hub that stores the given works, has no addon and refuses nothing. *)
Definition hubOf (works : list workv1.ManifestWork) : hub.World :=
  {| hub.clusters := ∅; hub.secrets := ∅;
     hub.works :=
       list_to_map (map (λ item, ((workv1.Namespace item, workv1.Name item), item)) works);
     hub.addons := ∅; hub.now := 100%Z;
     hub.refuses := λ _, None; hub.requests := [] |}.

(** The same hub with an addon of the cluster [t1] still there. *)
Definition hubWithAddon (works : list workv1.ManifestWork) : hub.World :=
  {| hub.clusters := ∅; hub.secrets := ∅;
     hub.works := hub.works (hubOf works);
     hub.addons := {[ ("t1", "work-manager") ]}; hub.now := 100%Z;
     hub.refuses := λ _, None; hub.requests := [] |}.

(** The same hub, refusing to delete the addons. *)
Definition hubRefusingAddons (works : list workv1.ManifestWork) : hub.World :=
  {| hub.clusters := ∅; hub.secrets := ∅;
     hub.works := hub.works (hubOf works);
     hub.addons := ∅; hub.now := 100%Z;
     hub.refuses := λ r, match r with
                         | hub.request.DeleteManagedClusterAddons _ => Some "addons: refused"
                         | _ => None
                         end;
     hub.requests := [] |}.

(** A secret with an install document under the key of [knownConstants]. *)
Definition importSecret (importYaml crdsYaml : string) : corev1.Secret :=
  {| corev1.Name := "t1-import"; corev1.Namespace := "t1";
     corev1.Data := {[ "import.yaml" := importYaml; "crdsv1.yaml" := crdsYaml ]} |}.

(** The works of the examples. *)
Definition fourWorks : list workv1.ManifestWork :=
  [work "t1" "t1-crds"; work "t1" "t1-klusterlet";
   work "t1" "t1-klusterlet-addon-search"; work "t1" "foo-other"].
Definition otherWorks : list workv1.ManifestWork :=
  [work "t1" "foo-other"; work "t1" "t1-hosted-klusterlet"].
Definition twoWorks : list workv1.ManifestWork :=
  [work "t1" "foo-other"; work "t1" "t1-klusterlet"].

(** A self managed cluster and its import secret. *)
Definition selfManagedCluster : clusterv1.ManagedCluster :=
  {| clusterv1.Name := "local-cluster";
     clusterv1.Labels := {[ "local-cluster" := "True" ]};
     clusterv1.DeletionTimestamp := None;
     clusterv1.KubernetesVersion := EmptyString;
     clusterv1.Reach := clusterv1.Available |}.
Definition selfManagedSecret : corev1.Secret :=
  {| corev1.Name := "local-cluster-import"; corev1.Namespace := "local-cluster";
     corev1.Data := ∅ |}.

(** The hub of a self managed cluster with its import secret and its two
    klusterlet works. *)
Definition selfManagedHub : hub.World :=
  {| hub.clusters := {[ "local-cluster" := selfManagedCluster ]};
     hub.secrets := {[ ("local-cluster", "local-cluster-import") := selfManagedSecret ]};
     hub.works :=
       hub.works (hubOf [klusterletWork "local-cluster" "local-cluster-crds";
                         klusterletWork "local-cluster" "local-cluster-klusterlet"]);
     hub.addons := ∅; hub.now := 100%Z;
     hub.refuses := λ _, None; hub.requests := [] |}.

(** The same hub with one klusterlet work only, and an import secret that
    the hub fails to read. *)
Definition selfManagedHubFailing : hub.World :=
  {| hub.clusters := hub.clusters selfManagedHub;
     hub.secrets := hub.secrets selfManagedHub;
     hub.works := hub.works (hubOf [klusterletWork "local-cluster" "local-cluster-crds"]);
     hub.addons := ∅; hub.now := 100%Z;
     hub.refuses := λ r, match r with
                         | hub.request.GetSecret _ "local-cluster-import" =>
                             Some "secrets: internal error"
                         | _ => None
                         end;
     hub.requests := [] |}.

End example.

(** ** Package [manifestwork]: [Reconcile] *)

Module manifestworkcontroller.

(** What [Reconcile] takes from packages [helpers] and [constants] besides
    what the deletion of the works takes. *)
Class Env (W : Type) := {
  KlusterletDeployModeDefault : string;
  DetermineKlusterletMode : clusterv1.ManagedCluster → string;
  (* the cluster and the number of its manifest works *)
  AssertManifestWorkFinalizer : clusterv1.ManagedCluster → nat → Hub W (option error);
  ValidateImportSecret : corev1.Secret → option error;
  (* the cluster and the objects to apply *)
  ApplyResources : clusterv1.ManagedCluster → list workv1.ManifestWork → Hub W (option error);
  IsAPIExtensionV1Supported : string → bool;
  SplitYamls : string → list string;
}.

Section reconciler.
Context {table : constants.Table} {converter : yaml.Converter} {W : Type}
        {calls : helpers.Calls W} {api : client.Client W} {env : Env W}.

(** [Reconcile] on the request for the cluster [managedClusterName]. It ends
    as the builders of the two works end: it panics when one of them does. *)
Definition Reconcile (managedClusterName : string)
    : Hub W (outcome (reconcile.Result * option error)) :=
  got ← client.GetManagedCluster managedClusterName;
  match got with
  | Failed err =>
      if errors.IsNotFound err then
        (* the managed cluster could have been deleted, do nothing *)
        mret (Returns (reconcile.zero, None))
      else mret (Returns (reconcile.zero, Some err))
  | Ok managedCluster =>
  if bool_decide (DetermineKlusterletMode managedCluster ≠ KlusterletDeployModeDefault)
  then mret (Returns (reconcile.zero, None))
  else
  let listOpts := {| client.Namespace := managedClusterName; client.LabelSelector := ∅ |} in
  listed ← client.ListManifestWorks listOpts;
  match listed with
  | Failed err => mret (Returns (reconcile.zero, Some err))
  | Ok manifestWorks =>
  err ← AssertManifestWorkFinalizer managedCluster (length manifestWorks);
  match err with
  | Some _ => mret (Returns (reconcile.zero, err))
  | None =>
  match clusterv1.DeletionTimestamp managedCluster with
  | Some _ =>
      (* the managed cluster is deleting, delete its addons and manifestworks *)
      r ← manifestwork.deleteAddonsAndWorks managedCluster manifestWorks;
      mret (Returns r)
  | None =>
  (* apply klusterlet manifest works from import secret *)
  let importSecretName := Sprintf_s_s managedClusterName constants.ImportSecretNameSuffix in
  got ← client.GetSecret managedClusterName importSecretName;
  match got with
  | Failed err =>
      if errors.IsNotFound err then mret (Returns (reconcile.zero, None))
      else mret (Returns (reconcile.zero, Some err))
  | Ok importSecret =>
  match ValidateImportSecret importSecret with
  | Some err => mret (Returns (reconcile.zero, Some err))
  | None =>
  match createKlusterletCRDsManifestWork IsAPIExtensionV1Supported
          managedCluster importSecret with
  | Panics err => mret (Panics err)
  | Returns crdsWork =>
  match createKlusterletManifestWork SplitYamls managedCluster importSecret with
  | Panics err => mret (Panics err)
  | Returns klusterletWork =>
  err ← ApplyResources managedCluster [crdsWork; klusterletWork];
  match err with
  | Some _ => mret (Returns (reconcile.zero, err))
  | None => mret (Returns (reconcile.zero, None))
  end
  end
  end
  end
  end
  end
  end
  end
  end.

End reconciler.
End manifestworkcontroller.

(** ** Package [clusterdeployment] *)

Module types.
Record NamespacedName := { Namespace : string; Name : string }.
End types.

Module hivev1.
Record ClusterDeployment := {
  Name : string;
  Namespace : string;
  ClusterName : string;      (* Spec.ClusterName *)
}.
End hivev1.

Module clusterregistryv1alpha1.
Record Cluster := {
  APIVersion : string;       (* TypeMeta *)
  Kind : string;
  Name : string;             (* ObjectMeta *)
  Namespace : string;
  Controller : option string;   (* the owner reference with Controller set, by name *)
}.
End clusterregistryv1alpha1.

Module clusterdeployment.

(** The client, [controllerutil.SetControllerReference] with the scheme, and
    [clusterregistryv1alpha1.SchemeGroupVersion.String()]. Setting the
    reference gives the object back with the reference, or an error. *)
Class Env (W : Type) := {
  SchemeGroupVersion : string;
  SetControllerReference :
    hivev1.ClusterDeployment → clusterregistryv1alpha1.Cluster →
    result clusterregistryv1alpha1.Cluster;
  Get : types.NamespacedName → Hub W (result clusterregistryv1alpha1.Cluster);
  Create : clusterregistryv1alpha1.Cluster → Hub W (option error);
}.

Section clusterdeployment.
Context {W : Type} {env : Env W}.

Definition clusterRegistryNsN (clusterDeployment : hivev1.ClusterDeployment)
    : types.NamespacedName :=
  {| types.Name := hivev1.ClusterName clusterDeployment;
     types.Namespace := hivev1.ClusterName clusterDeployment |}.

Definition getClusterRegistryCluster (clusterDeployment : hivev1.ClusterDeployment)
    : Hub W (result clusterregistryv1alpha1.Cluster) :=
  let crNsN := clusterRegistryNsN clusterDeployment in
  got ← Get crNsN;
  match got with
  | Failed err => mret (Failed err)
  | Ok cr => mret (Ok cr)
  end.

Definition newClusterRegistryCluster (clusterDeployment : hivev1.ClusterDeployment)
    : clusterregistryv1alpha1.Cluster :=
  let crNsN := clusterRegistryNsN clusterDeployment in
  {| clusterregistryv1alpha1.APIVersion := SchemeGroupVersion;
     clusterregistryv1alpha1.Kind := "Cluster";
     clusterregistryv1alpha1.Name := types.Name crNsN;
     clusterregistryv1alpha1.Namespace := types.Namespace crNsN;
     clusterregistryv1alpha1.Controller := None |}.

Definition createClusterRegistryCluster (clusterDeployment : hivev1.ClusterDeployment)
    : Hub W (result clusterregistryv1alpha1.Cluster) :=
  let cr := newClusterRegistryCluster clusterDeployment in
  match SetControllerReference clusterDeployment cr with
  | Failed err => mret (Failed err)
  | Ok cr =>
      err ← Create cr;
      match err with
      | Some err => mret (Failed err)
      | None => mret (Ok cr)
      end
  end.

End clusterdeployment.
End clusterdeployment.

(** ** The helpers of the tests of package [helpers] *)

(** [reflect.DeepEqual] on two slices of strings, [None] being the [nil]
    slice: both are [nil], or neither is and they have the same elements. *)
Definition DeepEqual (a b : option (list string)) : bool :=
  match a, b with
  | None, None => true
  | Some a, Some b => bool_decide (a = b)
  | _, _ => false
  end.

(** [len(s)] of a slice that may be [nil] *)
Definition len (s : option (list string)) : nat :=
  match s with None => 0 | Some l => length l end.

(** [assertFinalizers(t, obj, finalizers)], [actual] being the finalizers of
    [obj]: whether it reports an error to [t]. *)
Definition assertFinalizers (actual finalizers : option (list string)) : bool :=
  if bool_decide (len actual = 0) && bool_decide (len finalizers = 0) then false
  else if negb (DeepEqual actual finalizers) then true
  else false.

(** ** Stores to run [Reconcile] and package [clusterdeployment] on *)

Module sample.

Definition withWork (work : workv1.ManifestWork) (w : hub.World) : hub.World :=
  {| hub.clusters := hub.clusters w; hub.secrets := hub.secrets w;
     hub.works := <[ (workv1.Namespace work, workv1.Name work) := work ]> (hub.works w);
     hub.addons := hub.addons w; hub.now := hub.now w; hub.refuses := hub.refuses w;
     hub.requests := hub.requests w |}.

(** For the examples only: helpers of [Reconcile] on the hub, for which every
    cluster is in the mode [mode], the finalizer needs no change, every
    secret is valid, and applying the works stores them. The theorems on
    [Reconcile] are for all helpers. *)
Definition env (mode : string) : manifestworkcontroller.Env hub.World := {|
  manifestworkcontroller.KlusterletDeployModeDefault := "Default";
  manifestworkcontroller.DetermineKlusterletMode := λ _, mode;
  manifestworkcontroller.AssertManifestWorkFinalizer := λ _ _, mret None;
  manifestworkcontroller.ValidateImportSecret := λ _, None;
  manifestworkcontroller.ApplyResources :=
    λ _ works, _ ← modify (λ w, foldl (λ w work, withWork work w) w works); mret None;
  manifestworkcontroller.IsAPIExtensionV1Supported := λ _, true;
  manifestworkcontroller.SplitYamls := hub.SplitYamls (H := knownConstants);
|}.

(** A cluster that is not being deleted, and the hub that stores it with its
    import secret. *)
Definition liveCluster : clusterv1.ManagedCluster :=
  {| clusterv1.Name := "t1"; clusterv1.Labels := ∅;
     clusterv1.DeletionTimestamp := None;
     clusterv1.KubernetesVersion := EmptyString;
     clusterv1.Reach := clusterv1.Available |}.

Definition hubWith (cluster : clusterv1.ManagedCluster) (importSecret : corev1.Secret)
    (addons : gset (string * string)) : hub.World :=
  {| hub.clusters := {[ "t1" := cluster ]};
     hub.secrets := {[ ("t1", "t1-import") := importSecret ]};
     hub.works := hub.works (example.hubOf example.fourWorks);
     hub.addons := addons; hub.now := 100%Z;
     hub.refuses := λ _, None; hub.requests := [] |}.

(** An import secret with two install documents, one whose install document
    is malformed, and one that holds the empty document under a key. *)
Definition secret : corev1.Secret :=
  example.importSecret
    (strings.Join ["kind: Namespace"; "kind: Klusterlet"]
       (constants.YamlSperator (Table := knownConstants)))
    "kind: Crd".
Definition badSecret : corev1.Secret := example.importSecret "kind: [" "kind: Crd".
Definition emptyUnder (key : string) : corev1.Secret :=
  {| corev1.Name := "local-cluster-import"; corev1.Namespace := "local-cluster";
     corev1.Data := {[ key := EmptyString ]} |}.

(** The two works of [liveCluster] from [secret]. *)
Definition crdsWork : workv1.ManifestWork :=
  {| workv1.Name := "t1-crds"; workv1.Namespace := "t1";
     workv1.Labels := {[ "import.open-cluster-management.io/klusterlet-works" := "true" ]};
     workv1.Annotations := ∅;
     workv1.Manifests :=
       [ {| workv1.Raw :=
              "{" +:+ oneline.quoted "kind" +:+ ":" +:+ oneline.quoted "Crd" +:+ "}" |} ];
     workv1.DeleteOption_ := None |}.
Definition installWork : workv1.ManifestWork :=
  {| workv1.Name := "t1-klusterlet"; workv1.Namespace := "t1";
     workv1.Labels := {[ "import.open-cluster-management.io/klusterlet-works" := "true" ]};
     workv1.Annotations := ∅;
     workv1.Manifests :=
       [ {| workv1.Raw :=
              "{" +:+ oneline.quoted "kind" +:+ ":" +:+ oneline.quoted "Namespace" +:+ "}" |};
         {| workv1.Raw :=
              "{" +:+ oneline.quoted "kind" +:+ ":" +:+ oneline.quoted "Klusterlet" +:+ "}" |} ];
     workv1.DeleteOption_ :=
       Some {| workv1.PropagationPolicy := workv1.DeletePropagationPolicyTypeOrphan |} |}.

(** The list options [Reconcile] lists all the works of the cluster with. *)
Definition allWorks : client.ListOptions :=
  {| client.Namespace := "t1"; client.LabelSelector := ∅ |}.

(** The stored cluster registry clusters, by namespace and name. *)
Module registry.

Definition World : Type := gmap (string * string) clusterregistryv1alpha1.Cluster.

(** A client on the stored clusters: [Get] answers the cluster stored under
    the key or NotFound, [Create] stores the cluster under its namespace and
    name unless one is stored there. *)
Definition Get (key : types.NamespacedName)
    : Hub World (result clusterregistryv1alpha1.Cluster) :=
  gets (λ w, hub.found "cluster" (w !! (types.Namespace key, types.Name key))).

Definition Create (cr : clusterregistryv1alpha1.Cluster) : Hub World (option error) :=
  λ w,
    let key := (clusterregistryv1alpha1.Namespace cr, clusterregistryv1alpha1.Name cr) in
    match w !! key with
    | Some _ => (Some (StatusFailure "cluster already exists"), w)
    | None => (None, <[ key := cr ]> w)
    end.

Definition env (groupVersion : string)
    (setReference : hivev1.ClusterDeployment → clusterregistryv1alpha1.Cluster →
                    result clusterregistryv1alpha1.Cluster)
    : clusterdeployment.Env World := {|
  clusterdeployment.SchemeGroupVersion := groupVersion;
  clusterdeployment.SetControllerReference := setReference;
  clusterdeployment.Get := Get;
  clusterdeployment.Create := Create;
|}.

(** For the examples only: the reference to the deployment is set on a
    cluster that has no controller, or has this one. *)
Definition setReference (owner : hivev1.ClusterDeployment)
    (cr : clusterregistryv1alpha1.Cluster) : result clusterregistryv1alpha1.Cluster :=
  let owned :=
    {| clusterregistryv1alpha1.APIVersion := clusterregistryv1alpha1.APIVersion cr;
       clusterregistryv1alpha1.Kind := clusterregistryv1alpha1.Kind cr;
       clusterregistryv1alpha1.Name := clusterregistryv1alpha1.Name cr;
       clusterregistryv1alpha1.Namespace := clusterregistryv1alpha1.Namespace cr;
       clusterregistryv1alpha1.Controller := Some (hivev1.Name owner) |} in
  match clusterregistryv1alpha1.Controller cr with
  | None => Ok owned
  | Some other =>
      if bool_decide (other = hivev1.Name owner) then Ok owned
      else Failed (StatusFailure "cluster already owned by another controller")
  end.

Definition deployment : hivev1.ClusterDeployment :=
  {| hivev1.Name := "t1-deployment"; hivev1.Namespace := "t1";
     hivev1.ClusterName := "t1" |}.

(** The cluster made for [deployment], with its controller set. *)
Definition owned : clusterregistryv1alpha1.Cluster :=
  {| clusterregistryv1alpha1.APIVersion := "clusterregistry.k8s.io/v1alpha1";
     clusterregistryv1alpha1.Kind := "Cluster";
     clusterregistryv1alpha1.Name := "t1";
     clusterregistryv1alpha1.Namespace := "t1";
     clusterregistryv1alpha1.Controller := Some "t1-deployment" |}.

End registry.
End sample.
(** * Properties *)

(** ** Strings *)

#[local] Arguments String.append !_ _ / : simpl nomatch.

Section strings_facts.
Import strings.

Lemma length_app (s t : string) :
  String.length (s +:+ t) = String.length s + String.length t.
Proof. induction s as [|a s IH]; simpl; [done | by rewrite IH]. Qed.

Lemma prefix_empty (s : string) : String.prefix EmptyString s = true.
Proof. by destruct s. Qed.

Lemma prefix_app (p s r : string) :
  String.prefix p s = true → String.prefix p (s +:+ r) = true.
Proof.
  revert s; induction p as [|a p IH]; intros s; [by rewrite !prefix_empty|].
  destruct s as [|b s]; simpl; [done|].
  destruct (ascii_dec a b); [apply IH | done].
Qed.

Lemma prefix_self_app (p r : string) : String.prefix p (p +:+ r) = true.
Proof.
  induction p as [|a p IH]; simpl; [by destruct r |].
  by destruct (ascii_dec a a).
Qed.

(** Adding bytes after a string at least as long as [p] does not make [p]
    a prefix. *)
Lemma prefix_app_long (p s r : string) :
  String.length p ≤ String.length s →
  String.prefix p (s +:+ r) = String.prefix p s.
Proof.
  revert s; induction p as [|a p IH]; intros s; [by rewrite !prefix_empty|].
  destruct s as [|b s]; simpl; intros Hlen; [lia|].
  destruct (ascii_dec a b); [apply IH; lia | done].
Qed.

Lemma prefix_length (p s : string) :
  String.prefix p s = true → String.length p ≤ String.length s.
Proof.
  revert s; induction p as [|a p IH]; intros s; [simpl; lia|].
  destruct s as [|b s]; simpl; [done|].
  destruct (ascii_dec a b); [|done]. intros Hp. apply IH in Hp. lia.
Qed.

Lemma Index_unfold (s sep : string) :
  Index s sep =
    if String.prefix sep s then Some 0
    else match s with
         | EmptyString => None
         | String _ s' => S <$> Index s' sep
         end.
Proof. by destruct s. Qed.

(** A separator found at [m] lies within the string. *)
Lemma Index_bound (s sep : string) (m : nat) :
  Index s sep = Some m → m + String.length sep ≤ String.length s.
Proof.
  revert m; induction s as [|a s IH]; intros m; rewrite Index_unfold.
  - destruct (String.prefix sep EmptyString) eqn:Hp; [|done].
    intros [= <-]. by apply prefix_length in Hp.
  - destruct (String.prefix sep (String a s)) eqn:Hp.
    + intros [= <-]. by apply prefix_length in Hp.
    + destruct (Index s sep) as [m'|] eqn:Hi; simpl; [|done].
      intros [= <-]. specialize (IH m' eq_refl). lia.
Qed.

(** What follows the string does not move the first separator in it. *)
Lemma Index_app (s sep r : string) (m : nat) :
  Index s sep = Some m → Index (s +:+ r) sep = Some m.
Proof.
  revert m; induction s as [|a s IH]; intros m Hi; rewrite Index_unfold in Hi.
  - destruct (String.prefix sep EmptyString) eqn:Hp; [|done].
    injection Hi as <-. by rewrite Index_unfold, (prefix_app _ _ r Hp).
  - destruct (String.prefix sep (String a s)) eqn:Hp.
    + injection Hi as <-. by rewrite Index_unfold, (prefix_app _ _ r Hp).
    + destruct (Index s sep) as [m'|] eqn:Hi'; [|done].
      simpl in Hi. injection Hi as <-.
      pose proof (Index_bound _ _ _ Hi') as Hb.
      rewrite Index_unfold, prefix_app_long, Hp by (simpl; lia).
      simpl. by rewrite (IH m' eq_refl).
Qed.

(** In [d ++ sep ++ r] the first separator is the one that follows [d], if
    it is so in [d ++ sep]. *)
Lemma Index_joined (d sep r : string) :
  Index (d +:+ sep) sep = Some (String.length d) →
  Index (d +:+ sep +:+ r) sep = Some (String.length d).
Proof.
  intros Hi.
  assert (d +:+ sep +:+ r = (d +:+ sep) +:+ r) as ->.
  { clear. induction d as [|a d IH]; simpl; [done | by rewrite IH]. }
  by apply Index_app.
Qed.

(** ... and there is no separator in [d] itself. *)
Lemma Index_last (d sep : string) :
  Index (d +:+ sep) sep = Some (String.length d) →
  sep ≠ EmptyString →
  Index d sep = None.
Proof.
  intros Hi Hsep. destruct (Index d sep) as [m|] eqn:Hd; [|done].
  pose proof (Index_bound _ _ _ Hd) as Hb.
  rewrite (Index_app _ _ sep _ Hd) in Hi. injection Hi as ->.
  destruct sep; [done | simpl in Hb; lia].
Qed.

Lemma upto_app (d r : string) : upto (String.length d) (d +:+ r) = d.
Proof. induction d as [|a d IH]; simpl; [by destruct r | by rewrite IH]. Qed.

Lemma from_app (d r : string) : from (String.length d) (d +:+ r) = r.
Proof. induction d as [|a d IH]; simpl; [by destruct r | done]. Qed.

Lemma genSplit_eq (s : string) (c : ascii) (sep' : string) :
  genSplit s c sep' =
    match Index s (String c sep') with
    | None => [s]
    | Some m => upto m s :: genSplit (from (m + S (String.length sep')) s) c sep'
    end.
Proof.
  simp genSplit. unfold inspect.
  assert (∀ o (e : Index s (String c sep') = o),
            genSplit_unfold_clause_1 s c sep' (exist _ o e) =
            match o with
            | None => [s]
            | Some m => upto m s :: genSplit (from (m + S (String.length sep')) s) c sep'
            end) as Hclause.
  { intros [m|] e; by simp genSplit. }
  apply Hclause.
Qed.

(** Splitting what [Join] made gives the documents back, when the
    separators of the joined string are those [Join] put in. *)
Lemma Split_Join (docs : list string) (sep : string) :
  sep ≠ EmptyString →
  docs ≠ [] →
  Forall (λ d, Index (d +:+ sep) sep = Some (String.length d)) docs →
  Split (Join docs sep) sep = docs.
Proof.
  intros Hsep Hne Hdocs. destruct sep as [|c sep']; [done|]. simpl.
  induction Hdocs as [|d rest Hd Hrest IH]; [done|].
  rewrite genSplit_eq.
  destruct rest as [|d' rest].
  - simpl. by rewrite (Index_last _ _ Hd).
  - change (Join (d :: d' :: rest) (String c sep'))
      with (d +:+ String c sep' +:+ Join (d' :: rest) (String c sep')).
    rewrite (Index_joined _ _ _ Hd), upto_app.
    assert (from (String.length d + S (String.length sep'))
              (d +:+ String c sep' +:+ Join (d' :: rest) (String c sep'))
            = Join (d' :: rest) (String c sep')) as ->.
    { clear. induction d as [|a d IH]; simpl; [|done].
      apply (from_app sep'). }
    f_equal. by apply IH.
Qed.

End strings_facts.

(** ** The two klusterlet manifest works *)

Section builders_facts.
Context {table : constants.Table} {converter : yaml.Converter}.
Variable IsAPIExtensionV1Supported : string → bool.
Variable SplitYamls : string → list string.

(** The loop converts the documents in order and appends them. *)
Lemma appendManifests_converted (yamls jsons : list string)
    (manifests : list workv1.Manifest) :
  Forall2 (λ d j, yaml.YAMLToJSON d = Ok j) yamls jsons →
  appendManifests yamls manifests
  = Returns (manifests ++ map (λ j, {| workv1.Raw := j |}) jsons).
Proof.
  intros Hconv; revert manifests.
  induction Hconv as [|d j yamls jsons Hd _ IH]; intros manifests; simpl.
  - by rewrite app_nil_r.
  - rewrite Hd, IH. by rewrite <-app_assoc.
Qed.

(** The loop panics at the first document that does not convert. *)
Lemma appendManifests_panics (good : list string) (bad : string) (rest : list string)
    (err : error) (manifests : list workv1.Manifest) :
  Forall (λ d, ∃ j, yaml.YAMLToJSON d = Ok j) good →
  yaml.YAMLToJSON bad = Failed err →
  appendManifests (good ++ bad :: rest) manifests = Panics err.
Proof.
  intros Hgood Hbad; revert manifests.
  induction Hgood as [|d good [j Hd] _ IH]; intros manifests; simpl.
  - by rewrite Hbad.
  - by rewrite Hd, IH.
Qed.

(** C5 (as amended). When a document of the secret does not convert, the
    builders do not hand an error back: they panic with the error of the
    conversion. For the definitions work the document is the one under the
    key chosen for the cluster; for the install work it is the first of the
    split documents that does not convert. *)
Theorem malformed_document_panics
    (managedCluster : clusterv1.ManagedCluster) (importSecret : corev1.Secret)
    (bad : string) (err : error) :
  yaml.YAMLToJSON bad = Failed err →
  (secretData importSecret (crdsKey IsAPIExtensionV1Supported managedCluster) = bad →
   createKlusterletCRDsManifestWork IsAPIExtensionV1Supported managedCluster importSecret
   = Panics err)
  ∧ (∀ good rest,
       SplitYamls (secretData importSecret constants.ImportSecretImportYamlKey)
       = good ++ bad :: rest →
       Forall (λ d, ∃ j, yaml.YAMLToJSON d = Ok j) good →
       createKlusterletManifestWork SplitYamls managedCluster importSecret = Panics err).
Proof.
  intros Hbad; split.
  - intros Hdoc. unfold createKlusterletCRDsManifestWork. by rewrite Hdoc, Hbad.
  - intros good rest Hsplit Hgood. unfold createKlusterletManifestWork.
    by rewrite Hsplit, (appendManifests_panics _ _ _ _ _ Hgood Hbad).
Qed.

(** C7. From a secret whose install documents all convert, the install work
    is built, named [<cluster>-klusterlet], in the namespace of the
    cluster, with the klusterlet-works label and the Orphan delete option. *)
Theorem install_work_identity
    (managedCluster : clusterv1.ManagedCluster) (importSecret : corev1.Secret) :
  constants.KlusterletSuffix = "klusterlet" →
  Forall (λ d, ∃ j, yaml.YAMLToJSON d = Ok j)
         (SplitYamls (secretData importSecret constants.ImportSecretImportYamlKey)) →
  ∃ work,
    createKlusterletManifestWork SplitYamls managedCluster importSecret = Returns work
    ∧ workv1.Name work = clusterv1.Name managedCluster +:+ "-klusterlet"
    ∧ workv1.Namespace work = clusterv1.Name managedCluster
    ∧ workv1.Labels work = {[ constants.KlusterletWorksLabel := "true" ]}
    ∧ workv1.DeleteOption_ work
      = Some {| workv1.PropagationPolicy := workv1.DeletePropagationPolicyTypeOrphan |}.
Proof.
  intros Hsuffix Hdocs.
  assert (∃ jsons, Forall2 (λ d j, yaml.YAMLToJSON d = Ok j)
            (SplitYamls (secretData importSecret constants.ImportSecretImportYamlKey))
            jsons) as [jsons Hconv].
  { induction Hdocs as [|d docs [j Hd] _ [jsons IH]].
    - by exists [].
    - exists (j :: jsons). by constructor. }
  unfold createKlusterletManifestWork.
  rewrite (appendManifests_converted _ _ _ Hconv).
  eexists; split; [done|]. simpl.
  unfold Sprintf_s_s. by rewrite Hsuffix.
Qed.

End builders_facts.

Section split_facts.
Context {table : constants.Table} {converter : yaml.Converter}.

(** C6. The install work built from [N ≥ 1] documents joined by the
    separator, each of which converts, has the [N] conversions as its
    manifests, in the order of the documents. The documents are the pieces
    between the separators: in none of them followed by a separator does a
    separator start before the one that follows it. *)
Theorem install_work_manifests_follow_documents
    (managedCluster : clusterv1.ManagedCluster) (importSecret : corev1.Secret)
    (docs jsons : list string) :
  constants.YamlSperator ≠ EmptyString →
  docs ≠ [] →
  Forall (λ d, strings.Index (d +:+ constants.YamlSperator) constants.YamlSperator
               = Some (String.length d)) docs →
  Forall2 (λ d j, yaml.YAMLToJSON d = Ok j) docs jsons →
  secretData importSecret constants.ImportSecretImportYamlKey
  = strings.Join docs constants.YamlSperator →
  ∃ work,
    createKlusterletManifestWork hub.SplitYamls managedCluster importSecret
    = Returns work
    ∧ workv1.Manifests work = map (λ j, {| workv1.Raw := j |}) jsons
    ∧ length (workv1.Manifests work) = length docs.
Proof.
  intros Hsep Hne Hdocs Hconv Hdata.
  unfold createKlusterletManifestWork, hub.SplitYamls.
  rewrite Hdata, (Split_Join _ _ Hsep Hne Hdocs).
  rewrite (appendManifests_converted _ _ _ Hconv).
  eexists; split; [done|]. simpl. split; [done|].
  rewrite length_map. symmetry. by eapply Forall2_length.
Qed.

End split_facts.

(** ** The deletion pass, for any implementation of the helpers *)

Section deletion_facts.
Context {table : constants.Table} {W : Type}
        {calls : helpers.Calls W} {api : client.Client W}.
Import manifestwork.

Lemma bind_eq {A B : Type} (m : Hub W A) (f : A → Hub W B) (w : W) :
  (m ≫= f) w = let '(a, w') := m w in f a w'.
Proof. done. Qed.

Lemma not_empty (works : list workv1.ManifestWork) :
  works ≠ [] → bool_decide (length works = 0) = false.
Proof. intros Hne. apply bool_decide_eq_false. by destruct works. Qed.

(** The reachable pass up to the report on the addons. *)
Lemma deleteManifestWorks_reachable
    (cluster : clusterv1.ManagedCluster) (works : list workv1.ManifestWork)
    (w w1 : W) :
  works ≠ [] →
  helpers.IsClusterUnavailable cluster = false →
  helpers.DeleteManifestWorkWithSelector cluster works ignoreKlusterletAndAddons w
  = (None, w1) →
  deleteManifestWorks cluster works w =
    let '((noAddons, err), w2) :=
      helpers.NoManagedClusterAddons (clusterv1.Name cluster) w1 in
    match err with
    | Some _ => ((reconcile.zero, err), w2)
    | None =>
        if negb noAddons then
          (({| reconcile.Requeue := false;
               reconcile.RequeueAfter := 10 * time.Second |}, None), w2)
        else
          let '((noPending, err), w3) :=
            helpers.NoPendingManifestWorks (clusterv1.Name cluster) ignoreKlusterlet w2 in
          match err with
          | Some _ => ((reconcile.zero, err), w3)
          | None =>
              if negb noPending then ((reconcile.zero, None), w3)
              else
                let '(got, w4) :=
                  client.GetManifestWork (clusterv1.Name cluster)
                    (Sprintf_s_s (clusterv1.Name cluster) constants.KlusterletSuffix) w3 in
                match got with
                | Failed err =>
                    if errors.IsNotFound err then
                      let '(err, w5) :=
                        helpers.ForceDeleteManifestWork (clusterv1.Name cluster)
                          (Sprintf_s_s (clusterv1.Name cluster)
                             constants.KlusterletCRDsSuffix) w4 in
                      ((reconcile.zero, err), w5)
                    else ((reconcile.zero, Some err), w4)
                | Ok klusterletWork =>
                    let '(err, w5) :=
                      helpers.DeleteManifestWork (workv1.Namespace klusterletWork)
                        (workv1.Name klusterletWork) w4 in
                    ((reconcile.zero, err), w5)
                end
          end
    end.
Proof.
  intros Hne Hreach Hsel. unfold deleteManifestWorks.
  rewrite (not_empty _ Hne), Hreach, bind_eq, Hsel, bind_eq.
  destruct (helpers.NoManagedClusterAddons _ w1) as [[noAddons [e|]] w2]; [done|].
  destruct noAddons; simpl; [|done].
  rewrite bind_eq.
  destruct (helpers.NoPendingManifestWorks _ _ w2) as [[noPending [e|]] w3]; [done|].
  destruct noPending; simpl; [|done].
  rewrite bind_eq.
  destruct (client.GetManifestWork _ _ w3) as [[work|e] w4].
  - rewrite bind_eq. by destruct (helpers.DeleteManifestWork _ _ w4).
  - destruct (errors.IsNotFound e); [|done].
    rewrite bind_eq. by destruct (helpers.ForceDeleteManifestWork _ _ w4).
Qed.

(** The reachable pass ends with the error of the deletion of the works
    outside the selector, if there is one. *)
Lemma deleteManifestWorks_selector_error
    (cluster : clusterv1.ManagedCluster) (works : list workv1.ManifestWork)
    (w w1 : W) (err : error) :
  works ≠ [] →
  helpers.IsClusterUnavailable cluster = false →
  helpers.DeleteManifestWorkWithSelector cluster works ignoreKlusterletAndAddons w
  = (Some err, w1) →
  deleteManifestWorks cluster works w = ((reconcile.zero, Some err), w1).
Proof.
  intros Hne Hreach Hsel. unfold deleteManifestWorks.
  by rewrite (not_empty _ Hne), Hreach, bind_eq, Hsel.
Qed.

(** C8. On a reachable cluster with works, once the works outside the
    selector have been deleted and the addons are reported as not yet gone,
    the pass ends there: it leaves the hub as the report left it, asks to be
    run again after ten seconds, and returns no error. *)
Theorem deleteManifestWorks_waits_for_addons
    (cluster : clusterv1.ManagedCluster) (works : list workv1.ManifestWork)
    (w w1 w2 : W) :
  works ≠ [] →
  helpers.IsClusterUnavailable cluster = false →
  helpers.DeleteManifestWorkWithSelector cluster works ignoreKlusterletAndAddons w
  = (None, w1) →
  helpers.NoManagedClusterAddons (clusterv1.Name cluster) w1 = ((false, None), w2) →
  ∃ result,
    deleteManifestWorks cluster works w = ((result, None), w2)
    ∧ reconcile.RequeueAfter result = 10000000000%Z
    ∧ reconcile.Requeue result = false.
Proof.
  intros Hne Hreach Hsel Haddons.
  rewrite (deleteManifestWorks_reachable _ _ _ _ Hne Hreach Hsel), Haddons. simpl.
  by eexists.
Qed.

(** C9. When the request to delete the addons fails, the pass goes on to
    delete the manifest works, from the state the failed request left, and
    returns the aggregate of the error of the request followed by the error
    of the deletion of the works, if there is one. *)
Theorem deleteAddonsAndWorks_continues_after_addon_failure
    (cluster : clusterv1.ManagedCluster) (works : list workv1.ManifestWork)
    (w w1 : W) (addonsErr : error) :
  helpers.DeleteManagedClusterAddons cluster w = (Some addonsErr, w1) →
  ∃ result worksErr w2,
    deleteManifestWorks cluster works w1 = ((result, worksErr), w2)
    ∧ deleteAddonsAndWorks cluster works w
      = ((result,
          Some (Aggregate (addonsErr :: match worksErr with
                                        | Some e => [e]
                                        | None => []
                                        end))), w2).
Proof.
  intros Haddons. unfold deleteAddonsAndWorks.
  rewrite bind_eq, Haddons, bind_eq.
  destruct (deleteManifestWorks cluster works w1) as [[result [e|]] w2];
    by eexists _, _, _.
Qed.

End deletion_facts.

(** ** The helpers on the hub *)

Section hub_facts.
Context {table : constants.Table}.
Import hub.

Lemma send_eq (r : Request) (w : World) :
  send r w = (StatusFailure <$> refuses w r, sent r w).
Proof. done. Qed.

Lemma DeleteManifestWork_eq (namespace name : string) (w : World) :
  DeleteManifestWork namespace name w =
    match refuses w (request.DeleteManifestWork namespace name) with
    | Some msg => (Some (StatusFailure msg),
                   sent (request.DeleteManifestWork namespace name) w)
    | None => (None, withoutWork namespace name
                       (sent (request.DeleteManifestWork namespace name) w))
    end.
Proof.
  unfold DeleteManifestWork. rewrite bind_eq, send_eq.
  by destruct (refuses w _).
Qed.

Lemma ForceDeleteManifestWork_eq (namespace name : string) (w : World) :
  ForceDeleteManifestWork namespace name w =
    match refuses w (request.ForceDeleteManifestWork namespace name) with
    | Some msg => (Some (StatusFailure msg),
                   sent (request.ForceDeleteManifestWork namespace name) w)
    | None => (None, withoutWork namespace name
                       (sent (request.ForceDeleteManifestWork namespace name) w))
    end.
Proof.
  unfold ForceDeleteManifestWork. rewrite bind_eq, send_eq.
  by destruct (refuses w _).
Qed.

Lemma GetManifestWork_eq (namespace name : string) (w : World) :
  GetManifestWork namespace name w =
    (match refuses w (request.GetManifestWork namespace name) with
     | Some msg => Failed (StatusFailure msg)
     | None => found "manifestwork" (stored (namespace, name) <$> works w !! (namespace, name))
     end, sent (request.GetManifestWork namespace name) w).
Proof.
  unfold GetManifestWork. rewrite bind_eq, send_eq.
  by destruct (refuses w _).
Qed.

Lemma NoManagedClusterAddons_eq (clusterName : string) (w : World) :
  NoManagedClusterAddons clusterName w =
    (match refuses w (request.ListManagedClusterAddons clusterName) with
     | Some msg => (false, Some (StatusFailure msg))
     | None => (bool_decide (set_Forall (λ k, k.1 ≠ clusterName) (addons w)), None)
     end, sent (request.ListManagedClusterAddons clusterName) w).
Proof.
  unfold NoManagedClusterAddons. rewrite bind_eq, send_eq.
  by destruct (refuses w _).
Qed.

Lemma NoPendingManifestWorks_eq (clusterName : string)
    (ignoredSelector : string → workv1.ManifestWork → bool) (w : World) :
  NoPendingManifestWorks clusterName ignoredSelector w =
    (match refuses w (request.ListManifestWorks clusterName) with
     | Some msg => (false, Some (StatusFailure msg))
     | None => (forallb (ignoredSelector clusterName) (worksIn clusterName w), None)
     end, sent (request.ListManifestWorks clusterName) w).
Proof.
  unfold NoPendingManifestWorks. rewrite bind_eq, send_eq.
  by destruct (refuses w _).
Qed.

Lemma deletes_refl (w : World) : deletes w w [].
Proof. split; try done. by rewrite app_nil_r. Qed.

Lemma deletes_trans (w1 w2 w3 : World) (new1 new2 : list Request) :
  deletes w1 w2 new1 → deletes w2 w3 new2 → deletes w1 w3 (new1 ++ new2).
Proof.
  intros [] []; split; try congruence; [|by auto].
  rewrite app_assoc. congruence.
Qed.

Lemma deletes_sent (r : Request) (w : World) : deletes w (sent r w) [r].
Proof. by split. Qed.

Lemma deletes_withoutWork (namespace name : string) (w : World) :
  deletes w (withoutWork namespace name w) [].
Proof.
  split; simpl; try done; [by rewrite app_nil_r|].
  intros k Hk. destruct (decide ((namespace, name) = k)) as [<-|Hne].
  - apply lookup_delete_eq.
  - by rewrite lookup_delete_ne.
Qed.

(** The force path sends one force delete for each work it is given, in
    their order, and a work whose delete the hub does not refuse is gone. *)
Lemma forceDeleteEach_spec (manifestWorks : list workv1.ManifestWork)
    (errs : list error) (w : World) :
  ∃ errs' w',
    forceDeleteEach manifestWorks errs w = (errs', w')
    ∧ deletes w w'
        (map (λ item, request.ForceDeleteManifestWork
                        (workv1.Namespace item) (workv1.Name item)) manifestWorks)
    ∧ ∀ item, item ∈ manifestWorks →
        refuses w (request.ForceDeleteManifestWork
                     (workv1.Namespace item) (workv1.Name item)) = None →
        works w' !! (workv1.Namespace item, workv1.Name item) = None.
Proof.
  revert errs w; induction manifestWorks as [|item rest IH]; intros errs w.
  - exists errs, w. split; [done|]. split; [apply deletes_refl|].
    intros item Hin. by apply elem_of_nil in Hin.
  - simpl. rewrite bind_eq, ForceDeleteManifestWork_eq.
    set (r := request.ForceDeleteManifestWork (workv1.Namespace item) (workv1.Name item)).
    destruct (refuses w r) as [msg|] eqn:Hr.
    + destruct (IH (errs ++ [StatusFailure msg]) (sent r w))
        as (errs' & w' & Hrun & Hdel & Hgone).
      exists errs', w'. split; [done|]. split.
      * apply (deletes_trans _ _ _ [r] _ (deletes_sent r w) Hdel).
      * intros item' [->|Hin]%elem_of_cons Hnone; [fold r in Hnone; congruence|].
        by apply Hgone.
    + destruct (IH errs (withoutWork (workv1.Namespace item) (workv1.Name item) (sent r w)))
        as (errs' & w' & Hrun & Hdel & Hgone).
      exists errs', w'. split; [done|]. split.
      * eapply (deletes_trans _ _ _ [r] _); [|exact Hdel].
        rewrite <-(app_nil_r [r]).
        eapply deletes_trans; [apply deletes_sent | apply deletes_withoutWork].
      * intros item' [->|Hin]%elem_of_cons Hnone; [|by apply Hgone].
        apply (deletes_gone _ _ _ Hdel). simpl. apply lookup_delete_eq.
Qed.

End hub_facts.

(** ** The deletion pass on the hub *)

(** Unfolds the states of the hub named along a proof. *)
Ltac worlds := repeat match goal with x := _ : hub.World |- _ => subst x end.

Section deletion_on_the_hub.
Context {table : constants.Table}.
Import manifestwork.

(** C1. For a cluster that is unavailable and has works, the pass sends
    one force delete for each of the works, whatever its name, in their
    order, and sends nothing else; it asks for no requeue, and every work
    whose delete the hub does not refuse is gone from the hub. *)
Theorem unavailable_cluster_force_deletes_every_work
    (cluster : clusterv1.ManagedCluster) (works : list workv1.ManifestWork)
    (w : hub.World) :
  clusterv1.Reach cluster = clusterv1.Unavailable →
  works ≠ [] →
  ∃ err w',
    deleteManifestWorks cluster works w = ((reconcile.zero, err), w')
    ∧ hub.requests w' =
        hub.requests w
        ++ map (λ item, hub.request.ForceDeleteManifestWork
                          (workv1.Namespace item) (workv1.Name item)) works
    ∧ ∀ item, item ∈ works →
        hub.refuses w (hub.request.ForceDeleteManifestWork
                         (workv1.Namespace item) (workv1.Name item)) = None →
        hub.works w' !! (workv1.Namespace item, workv1.Name item) = None.
Proof.
  intros Hreach Hne. unfold deleteManifestWorks. rewrite (not_empty _ Hne).
  assert (helpers.IsClusterUnavailable cluster = true) as ->.
  { simpl. unfold hub.IsClusterUnavailable. by rewrite Hreach. }
  rewrite bind_eq.
  change (helpers.ForceDeleteAllManifestWorks works w)
    with (hub.ForceDeleteAllManifestWorks works w).
  unfold hub.ForceDeleteAllManifestWorks. rewrite bind_eq.
  destruct (forceDeleteEach_spec works [] w) as (errs & w' & -> & Hdel & Hgone).
  eexists _, _. split; [done|]. split; [apply Hdel | done].
Qed.

(** The same cluster through [deleteAddonsAndWorks], which calls
    [deleteManifestWorks]: the request to delete the addons is sent first,
    as on every pass, and the force deletes follow it. *)
Remark unavailable_cluster_pass_asks_for_the_addons_first
    (cluster : clusterv1.ManagedCluster) (works : list workv1.ManifestWork)
    (w : hub.World) :
  clusterv1.Reach cluster = clusterv1.Unavailable →
  works ≠ [] →
  ∃ r w',
    deleteAddonsAndWorks cluster works w = (r, w')
    ∧ hub.requests w' =
        hub.requests w
        ++ hub.request.DeleteManagedClusterAddons (clusterv1.Name cluster)
           :: map (λ item, hub.request.ForceDeleteManifestWork
                             (workv1.Namespace item) (workv1.Name item)) works.
Proof.
  intros Hreach Hne. unfold deleteAddonsAndWorks. rewrite bind_eq.
  change (helpers.DeleteManagedClusterAddons cluster w)
    with (hub.send (hub.request.DeleteManagedClusterAddons (clusterv1.Name cluster)) w).
  rewrite send_eq, bind_eq.
  set (w1 := hub.sent _ w).
  unfold deleteManifestWorks. rewrite (not_empty _ Hne).
  assert (helpers.IsClusterUnavailable cluster = true) as ->.
  { simpl. unfold hub.IsClusterUnavailable. by rewrite Hreach. }
  rewrite bind_eq.
  change (helpers.ForceDeleteAllManifestWorks works w1)
    with (hub.ForceDeleteAllManifestWorks works w1).
  unfold hub.ForceDeleteAllManifestWorks. rewrite bind_eq.
  destruct (forceDeleteEach_spec works [] w1) as (errs & w' & -> & Hdel & _).
  eexists _, _. split; [done|].
  rewrite (hub.deletes_requests _ _ _ Hdel). unfold w1. simpl.
  by rewrite <-app_assoc.
Qed.

(** The works [deleteManifestWorks] asks to delete first on a reachable
    cluster: those outside the selector that are not postponed. *)
Lemma deleteEachWithSelector_spec
    (cluster : clusterv1.ManagedCluster) (works : list workv1.ManifestWork)
    (selector : string → workv1.ManifestWork → bool) (errs : list error)
    (w : hub.World) :
  ∃ errs' w',
    hub.deleteEachWithSelector cluster works selector errs w = (errs', w')
    ∧ hub.deletes w w'
        (map (λ item, hub.request.DeleteManifestWork
                        (workv1.Namespace item) (workv1.Name item))
             (filter (λ item, selector (clusterv1.Name cluster) item = false
                              ∧ hub.postponed cluster item w = false) works))
    ∧ ∀ k, (∀ item, item ∈ works → selector (clusterv1.Name cluster) item = false →
            (workv1.Namespace item, workv1.Name item) ≠ k) →
           hub.works w' !! k = hub.works w !! k.
Proof.
  revert errs w; induction works as [|item rest IH]; intros errs w.
  { exists errs, w. split; [done|]. split; [apply deletes_refl|done]. }
  simpl hub.deleteEachWithSelector.
  destruct (selector (clusterv1.Name cluster) item) eqn:Hsel.
  { destruct (IH errs w) as (errs' & w' & Hrun & Hdel & Hframe).
    exists errs', w'. split; [done|]. split.
    - rewrite filter_cons_False by (intros [? _]; congruence). done.
    - intros k Hk. apply Hframe. intros item' Hin. apply Hk. by right. }
  rewrite bind_eq. unfold gets at 1.
  destruct (hub.postponed cluster item w) eqn:Hpost.
  { destruct (IH errs w) as (errs' & w' & Hrun & Hdel & Hframe).
    exists errs', w'. split; [done|]. split.
    - rewrite filter_cons_False by (intros [_ ?]; congruence). done.
    - intros k Hk. apply Hframe. intros item' Hin. apply Hk. by right. }
  rewrite bind_eq, DeleteManifestWork_eq.
  set (r := hub.request.DeleteManifestWork (workv1.Namespace item) (workv1.Name item)).
  rewrite filter_cons_True by done. simpl map.
  destruct (hub.refuses w r) as [msg|] eqn:Hr.
  - destruct (IH (errs ++ [StatusFailure msg]) (hub.sent r w))
      as (errs' & w' & Hrun & Hdel & Hframe).
    exists errs', w'. split; [done|]. split.
    + apply (deletes_trans _ _ _ [r] _ (deletes_sent r w) Hdel).
    + intros k Hk. rewrite Hframe; [done|].
      intros item' Hin. apply Hk. by right.
  - destruct (IH errs (hub.withoutWork (workv1.Namespace item) (workv1.Name item)
                         (hub.sent r w)))
      as (errs' & w' & Hrun & Hdel & Hframe).
    exists errs', w'. split; [done|]. split.
    + eapply (deletes_trans _ _ _ [r] _); [|exact Hdel].
      rewrite <-(app_nil_r [r]).
      eapply deletes_trans; [apply deletes_sent | apply deletes_withoutWork].
    + intros k Hk. rewrite Hframe.
      * simpl. apply lookup_delete_ne. apply Hk; [by left | done].
      * intros item' Hin. apply Hk. by right.
Qed.

(** What the selector holds for, in the words of the classification. *)
Lemma ignoreKlusterletAndAddons_Other (clusterName : string) (item : workv1.ManifestWork) :
  classify clusterName item = Other →
  ignoreKlusterletAndAddons clusterName item = hostedNamed clusterName item.
Proof.
  unfold classify, ignoreKlusterletAndAddons, hostedNamed, addonNamed.
  repeat case_bool_decide; try done.
  all: destruct (strings.HasPrefix (workv1.Name item)
                   (workv1.Namespace item +:+ "-klusterlet-addon")); simpl; try done.
  all: destruct (strings.HasPrefix (workv1.Name item) "addon-"); simpl; try done.
  all: destruct (strings.HasSuffix (workv1.Name item) "-deploy"); simpl; try done.
  all: by destruct (strings.HasSuffix (workv1.Name item) "-pre-delete").
Qed.

Lemma ignoreKlusterletAndAddons_false (clusterName : string) (item : workv1.ManifestWork) :
  ignoreKlusterletAndAddons clusterName item = false →
  workv1.Name item ≠ Sprintf_s_s clusterName constants.KlusterletSuffix
  ∧ workv1.Name item ≠ Sprintf_s_s clusterName constants.KlusterletCRDsSuffix.
Proof. unfold ignoreKlusterletAndAddons. by repeat case_bool_decide. Qed.

Lemma ignoreKlusterlet_ignored (clusterName : string) (item : workv1.ManifestWork) :
  ignoreKlusterlet clusterName item = true →
  ignoreKlusterletAndAddons clusterName item = true.
Proof.
  unfold ignoreKlusterlet, ignoreKlusterletAndAddons.
  by repeat case_bool_decide.
Qed.

Lemma deleteEachWithSelector_all_ignored
    (cluster : clusterv1.ManagedCluster) (works : list workv1.ManifestWork)
    (selector : string → workv1.ManifestWork → bool) (errs : list error)
    (w : hub.World) :
  Forall (λ item, selector (clusterv1.Name cluster) item = true) works →
  hub.deleteEachWithSelector cluster works selector errs w = (errs, w).
Proof.
  induction 1 as [|item rest Hitem _ IH]; [done|].
  simpl. by rewrite Hitem.
Qed.

Lemma filter_agree {A : Type} (P Q : A → Prop)
    `{∀ x, Decision (P x)} `{∀ x, Decision (Q x)} (l : list A) :
  Forall (λ x, P x ↔ Q x) l → filter P l = filter Q l.
Proof.
  induction 1 as [|x l Hx _ IH]; [done|].
  rewrite !filter_cons, IH. destruct (decide (P x)), (decide (Q x)); tauto.
Qed.

(** How a pass on a reachable cluster with works ends, after it has asked to
    delete the works outside the selector and left the hub in [w1]: it stops
    at one of its three questions to the hub, or it asks to delete the
    klusterlet work it found, or, not finding it, it asks to force delete
    the klusterlet crds work. *)
Lemma reachable_pass
    (cluster : clusterv1.ManagedCluster) (works : list workv1.ManifestWork)
    (w w' : hub.World) (r : reconcile.Result * option error) :
  works ≠ [] →
  clusterv1.Reach cluster = clusterv1.Available →
  deleteManifestWorks cluster works w = (r, w') →
  ∃ selErr w1,
    hub.DeleteManifestWorkWithSelector cluster works ignoreKlusterletAndAddons w
    = (selErr, w1)
    ∧ ((∃ tail,
          tail `prefix_of`
            [hub.request.ListManagedClusterAddons (clusterv1.Name cluster);
             hub.request.ListManifestWorks (clusterv1.Name cluster);
             hub.request.GetManifestWork (clusterv1.Name cluster)
               (Sprintf_s_s (clusterv1.Name cluster) constants.KlusterletSuffix)]
          ∧ hub.requests w' = hub.requests w1 ++ tail
          ∧ hub.works w' = hub.works w1)
       ∨ (is_Some (hub.works w1 !! (clusterv1.Name cluster,
                     Sprintf_s_s (clusterv1.Name cluster) constants.KlusterletSuffix))
          ∧ hub.requests w' =
              hub.requests w1
              ++ [hub.request.ListManagedClusterAddons (clusterv1.Name cluster);
                  hub.request.ListManifestWorks (clusterv1.Name cluster);
                  hub.request.GetManifestWork (clusterv1.Name cluster)
                    (Sprintf_s_s (clusterv1.Name cluster) constants.KlusterletSuffix);
                  hub.request.DeleteManifestWork (clusterv1.Name cluster)
                    (Sprintf_s_s (clusterv1.Name cluster) constants.KlusterletSuffix)]
          ∧ (hub.works w' = hub.works w1
             ∨ hub.works w' =
                 delete (clusterv1.Name cluster,
                         Sprintf_s_s (clusterv1.Name cluster) constants.KlusterletSuffix)
                        (hub.works w1)))
       ∨ (hub.works w1 !! (clusterv1.Name cluster,
            Sprintf_s_s (clusterv1.Name cluster) constants.KlusterletSuffix) = None
          ∧ hub.requests w' =
              hub.requests w1
              ++ [hub.request.ListManagedClusterAddons (clusterv1.Name cluster);
                  hub.request.ListManifestWorks (clusterv1.Name cluster);
                  hub.request.GetManifestWork (clusterv1.Name cluster)
                    (Sprintf_s_s (clusterv1.Name cluster) constants.KlusterletSuffix);
                  hub.request.ForceDeleteManifestWork (clusterv1.Name cluster)
                    (Sprintf_s_s (clusterv1.Name cluster) constants.KlusterletCRDsSuffix)]
          ∧ (hub.works w' = hub.works w1
             ∨ hub.works w' =
                 delete (clusterv1.Name cluster,
                         Sprintf_s_s (clusterv1.Name cluster) constants.KlusterletCRDsSuffix)
                        (hub.works w1)))).
Proof.
  intros Hne Hreach Hrun.
  assert (helpers.IsClusterUnavailable cluster = false) as Havail.
  { simpl. unfold hub.IsClusterUnavailable. by rewrite Hreach. }
  destruct (hub.DeleteManifestWorkWithSelector cluster works ignoreKlusterletAndAddons w)
    as [selErr w1] eqn:Hsel.
  exists selErr, w1. split; [done|].
  destruct selErr as [e|].
  { rewrite (deleteManifestWorks_selector_error _ _ _ _ _ Hne Havail Hsel) in Hrun.
    injection Hrun as <- <-. left. exists []. rewrite app_nil_r.
    split; [apply prefix_nil | done]. }
  rewrite (deleteManifestWorks_reachable _ _ _ _ Hne Havail Hsel) in Hrun.
  change (helpers.NoManagedClusterAddons (clusterv1.Name cluster) w1)
    with (hub.NoManagedClusterAddons (clusterv1.Name cluster) w1) in Hrun.
  rewrite NoManagedClusterAddons_eq in Hrun.
  set (c := clusterv1.Name cluster) in *.
  set (w2 := hub.sent (hub.request.ListManagedClusterAddons c) w1) in *.
  assert (∀ x (w0 : hub.World), (x, w0) = (r, w') → w0 = w') as Hw
    by (by intros x w0 [= _ ->]).
  destruct (hub.refuses w1 (hub.request.ListManagedClusterAddons c)).
  { simpl in Hrun. apply Hw in Hrun as <-; worlds. left. exists [hub.request.ListManagedClusterAddons c].
    split; [|done]. by apply prefix_cons, prefix_nil. }
  destruct (bool_decide _); cycle 1.
  { simpl in Hrun. apply Hw in Hrun as <-; worlds. left. exists [hub.request.ListManagedClusterAddons c].
    split; [|done]. by apply prefix_cons, prefix_nil. }
  cbv beta iota in Hrun. unfold negb in Hrun.
  change (helpers.NoPendingManifestWorks c ignoreKlusterlet w2)
    with (hub.NoPendingManifestWorks c ignoreKlusterlet w2) in Hrun.
  rewrite NoPendingManifestWorks_eq in Hrun.
  set (w3 := hub.sent (hub.request.ListManifestWorks c) w2) in *.
  destruct (hub.refuses w2 (hub.request.ListManifestWorks c)).
  { simpl in Hrun. apply Hw in Hrun as <-; worlds. left.
    exists [hub.request.ListManagedClusterAddons c; hub.request.ListManifestWorks c].
    split; [|by simpl; rewrite <-app_assoc]. by apply prefix_cons, prefix_cons, prefix_nil. }
  destruct (forallb _ _); cycle 1.
  { simpl in Hrun. apply Hw in Hrun as <-; worlds. left.
    exists [hub.request.ListManagedClusterAddons c; hub.request.ListManifestWorks c].
    split; [|by simpl; rewrite <-app_assoc]. by apply prefix_cons, prefix_cons, prefix_nil. }
  cbv beta iota in Hrun. unfold negb in Hrun.
  set (kl := Sprintf_s_s c constants.KlusterletSuffix) in *.
  change (client.GetManifestWork c kl w3) with (hub.GetManifestWork c kl w3) in Hrun.
  rewrite GetManifestWork_eq in Hrun.
  set (w4 := hub.sent (hub.request.GetManifestWork c kl) w3) in *.
  destruct (hub.refuses w3 (hub.request.GetManifestWork c kl)).
  { simpl in Hrun. apply Hw in Hrun as <-; worlds. left. eexists. split; [done|].
    by simpl; rewrite <-!app_assoc. }
  change (hub.works w3) with (hub.works w1) in Hrun.
  destruct (hub.works w1 !! (c, kl)) as [work|] eqn:Hkl;
    cbn [fmap option_fmap option_map hub.found errors.IsNotFound hub.stored
         workv1.Name workv1.Namespace fst snd] in Hrun.
  - right; left. split; [done|].
    change (helpers.DeleteManifestWork c kl w4) with (hub.DeleteManifestWork c kl w4) in Hrun.
    rewrite DeleteManifestWork_eq in Hrun.
    destruct (hub.refuses w4 (hub.request.DeleteManifestWork c kl));
      apply Hw in Hrun as <-; worlds; simpl; rewrite <-!app_assoc; auto.
  - right; right. split; [done|].
    set (crds := Sprintf_s_s c constants.KlusterletCRDsSuffix) in *.
    change (helpers.ForceDeleteManifestWork c crds w4)
      with (hub.ForceDeleteManifestWork c crds w4) in Hrun.
    rewrite ForceDeleteManifestWork_eq in Hrun.
    destruct (hub.refuses w4 (hub.request.ForceDeleteManifestWork c crds));
      apply Hw in Hrun as <-; worlds; simpl; rewrite <-!app_assoc; auto.
Qed.

(** What [DeleteManifestWorkWithSelector] does with the selector of
    [deleteManifestWorks]: its requests, and the works it cannot touch. *)
Lemma DeleteManifestWorkWithSelector_spec
    (cluster : clusterv1.ManagedCluster) (works : list workv1.ManifestWork)
    (w w1 : hub.World) (selErr : option error) :
  hub.DeleteManifestWorkWithSelector cluster works ignoreKlusterletAndAddons w
  = (selErr, w1) →
  hub.deletes w w1
    (map (λ item, hub.request.DeleteManifestWork
                    (workv1.Namespace item) (workv1.Name item))
         (filter (λ item, ignoreKlusterletAndAddons (clusterv1.Name cluster) item = false
                          ∧ hub.postponed cluster item w = false) works))
  ∧ ∀ namespace name,
      name = Sprintf_s_s (clusterv1.Name cluster) constants.KlusterletSuffix
      ∨ name = Sprintf_s_s (clusterv1.Name cluster) constants.KlusterletCRDsSuffix →
      hub.works w1 !! (namespace, name) = hub.works w !! (namespace, name).
Proof.
  unfold hub.DeleteManifestWorkWithSelector. rewrite bind_eq.
  destruct (deleteEachWithSelector_spec cluster works ignoreKlusterletAndAddons [] w)
    as (errs & w1' & -> & Hdel & Hframe).
  intros [= _ <-]. split; [done|].
  intros namespace name Hname. apply Hframe.
  intros item _ [Hkl Hcrds]%ignoreKlusterletAndAddons_false [= _ Heq].
  destruct Hname; congruence.
Qed.

(** C2 (as amended). On a reachable cluster whose works are all classified
    [Other], the pass begins by asking the hub to delete each of them that is
    not a Hosted mode work and is not postponed, in their order. *)
Theorem other_works_are_asked_to_be_deleted
    (cluster : clusterv1.ManagedCluster) (works : list workv1.ManifestWork)
    (w w' : hub.World) (r : reconcile.Result * option error) :
  clusterv1.Reach cluster = clusterv1.Available →
  Forall (λ item, classify (clusterv1.Name cluster) item = Other) works →
  deleteManifestWorks cluster works w = (r, w') →
  ∃ rest,
    hub.requests w' =
      hub.requests w
      ++ map (λ item, hub.request.DeleteManifestWork
                        (workv1.Namespace item) (workv1.Name item))
             (filter (λ item, hostedNamed (clusterv1.Name cluster) item = false
                              ∧ hub.postponed cluster item w = false) works)
      ++ rest.
Proof.
  intros Hreach Hother Hrun.
  destruct works as [|item0 works0] eqn:Hworks.
  { injection Hrun as _ <-. exists []. by rewrite filter_nil, !app_nil_r. }
  rewrite <-Hworks in *.
  assert (works ≠ []) as Hne by (by rewrite Hworks).
  destruct (reachable_pass _ _ _ _ _ Hne Hreach Hrun) as (selErr & w1 & Hsel & Hend).
  destruct (DeleteManifestWorkWithSelector_spec _ _ _ _ _ Hsel) as [Hdel _].
  assert (∃ rest, hub.requests w' = hub.requests w1 ++ rest) as [rest Hrest].
  { destruct Hend as [(tail & _ & Htail & _)|[(_ & Htail & _)|(_ & Htail & _)]]; eauto. }
  exists rest. rewrite Hrest, (hub.deletes_requests _ _ _ Hdel), <-app_assoc.
  do 3 f_equal. apply filter_agree.
  eapply Forall_impl; [exact Hother|]. intros item Hitem; simpl.
  by rewrite (ignoreKlusterletAndAddons_Other _ _ Hitem).
Qed.

Lemma Sprintf_s_s_inj (a b c : string) : Sprintf_s_s a b = Sprintf_s_s a c → b = c.
Proof.
  unfold Sprintf_s_s. intros Heq.
  apply (inj (String.app a)) in Heq. by injection Heq.
Qed.

(** C3. On a reachable cluster, the pass asks for the klusterlet crds work
    to be deleted, or the work goes from the hub during the pass, only when
    the klusterlet work is not on the hub, before the pass and after it. *)
Theorem crds_work_goes_after_klusterlet_work
    (cluster : clusterv1.ManagedCluster) (works : list workv1.ManifestWork)
    (w w' : hub.World) (r : reconcile.Result * option error) (new : list hub.Request) :
  constants.KlusterletSuffix ≠ constants.KlusterletCRDsSuffix →
  clusterv1.Reach cluster = clusterv1.Available →
  deleteManifestWorks cluster works w = (r, w') →
  hub.requests w' = hub.requests w ++ new →
  hub.request.DeleteManifestWork (clusterv1.Name cluster)
    (Sprintf_s_s (clusterv1.Name cluster) constants.KlusterletCRDsSuffix) ∈ new
  ∨ hub.request.ForceDeleteManifestWork (clusterv1.Name cluster)
      (Sprintf_s_s (clusterv1.Name cluster) constants.KlusterletCRDsSuffix) ∈ new
  ∨ (is_Some (hub.works w !! (clusterv1.Name cluster,
                Sprintf_s_s (clusterv1.Name cluster) constants.KlusterletCRDsSuffix))
     ∧ hub.works w' !! (clusterv1.Name cluster,
         Sprintf_s_s (clusterv1.Name cluster) constants.KlusterletCRDsSuffix) = None) →
  hub.works w !! (clusterv1.Name cluster,
    Sprintf_s_s (clusterv1.Name cluster) constants.KlusterletSuffix) = None
  ∧ hub.works w' !! (clusterv1.Name cluster,
      Sprintf_s_s (clusterv1.Name cluster) constants.KlusterletSuffix) = None.
Proof.
  intros Hsuffix Hreach Hrun Hnew Hcrds.
  set (c := clusterv1.Name cluster) in *.
  set (kl := Sprintf_s_s c constants.KlusterletSuffix) in *.
  set (crds := Sprintf_s_s c constants.KlusterletCRDsSuffix) in *.
  assert (kl ≠ crds) as Hnames by (by intros ?%Sprintf_s_s_inj).
  destruct works as [|item0 works0] eqn:Hworks.
  { injection Hrun as _ <-.
    assert (new = []) as -> by (by eapply (inj (app (hub.requests w))); rewrite app_nil_r).
    destruct Hcrds as [Hin|[Hin|[[x Hx] Hgone]]];
      [by apply elem_of_nil in Hin | by apply elem_of_nil in Hin | congruence]. }
  rewrite <-Hworks in *.
  assert (works ≠ []) as Hne by (by rewrite Hworks).
  destruct (reachable_pass _ _ _ _ _ Hne Hreach Hrun) as (selErr & w1 & Hsel & Hend).
  destruct (DeleteManifestWorkWithSelector_spec _ _ _ _ _ Hsel) as [Hdel Hframe].
  fold c kl crds in Hend, Hframe.
  pose proof (Hframe c kl (or_introl eq_refl)) as Hkl1.
  pose proof (Hframe c crds (or_intror eq_refl)) as Hcrds1.
  (* the requests for the works outside the selector do not name the crds work *)
  assert (∀ tail, hub.requests w' = hub.requests w1 ++ tail →
          hub.request.DeleteManifestWork c crds ∈ new
          ∨ hub.request.ForceDeleteManifestWork c crds ∈ new →
          hub.request.DeleteManifestWork c crds ∈ tail
          ∨ hub.request.ForceDeleteManifestWork c crds ∈ tail) as Hsplit.
  { intros tail Htail Hin.
    rewrite (hub.deletes_requests _ _ _ Hdel), <-app_assoc in Htail.
    rewrite Hnew in Htail. apply (inj (app (hub.requests w))) in Htail. subst new.
    destruct Hin as [Hin|Hin]; apply elem_of_app in Hin as [Hin|Hin]; auto.
    - apply list_elem_of_fmap in Hin as (item & [= _ Hname] & Hitem).
      apply list_elem_of_filter in Hitem as [[Hitem _] _].
      apply ignoreKlusterletAndAddons_false in Hitem as [_ Hitem].
      exfalso. apply Hitem. by rewrite <-Hname.
    - by apply list_elem_of_fmap in Hin as (item & [=] & _). }
  destruct Hend as [(tail & Hprefix & Htail & Hworks')
                   |[(Hfound & Htail & Hworks')|(Habsent & Htail & Hworks')]].
  - (* the pass stopped at a question *)
    exfalso. destruct Hcrds as [Hin|[Hin|[Hsome Hgone]]].
    + destruct (Hsplit _ Htail (or_introl Hin)) as [Hin'|Hin'];
        eapply elem_of_prefix in Hin'; try exact Hprefix;
        repeat (apply elem_of_cons in Hin' as [[=]|Hin']); by apply elem_of_nil in Hin'.
    + destruct (Hsplit _ Htail (or_intror Hin)) as [Hin'|Hin'];
        eapply elem_of_prefix in Hin'; try exact Hprefix;
        repeat (apply elem_of_cons in Hin' as [[=]|Hin']); by apply elem_of_nil in Hin'.
    + rewrite Hworks', Hcrds1 in Hgone. destruct Hsome; congruence.
  - (* the klusterlet work was found *)
    exfalso. destruct Hcrds as [Hin|[Hin|[Hsome Hgone]]].
    + destruct (Hsplit _ Htail (or_introl Hin)) as [Hin'|Hin'];
        repeat (apply elem_of_cons in Hin' as [[=]|Hin']);
        try (by apply elem_of_nil in Hin'); done.
    + destruct (Hsplit _ Htail (or_intror Hin)) as [Hin'|Hin'];
        repeat (apply elem_of_cons in Hin' as [[=]|Hin']);
        try (by apply elem_of_nil in Hin'); done.
    + destruct Hworks' as [Hworks'|Hworks']; rewrite Hworks' in Hgone.
      * rewrite Hcrds1 in Hgone. destruct Hsome; congruence.
      * rewrite lookup_delete_ne, Hcrds1 in Hgone by congruence.
        destruct Hsome; congruence.
  - (* the klusterlet work was not found *)
    split; [congruence|].
    destruct Hworks' as [->| ->]; [done|]. by rewrite lookup_delete_ne by congruence.
Qed.

Lemma forallb_Forall {A : Type} (f : A → bool) (l : list A) :
  Forall (λ x, f x = true) l → forallb f l = true.
Proof. induction 1 as [|x l Hx _ IH]; [done|]. simpl. by rewrite Hx, IH. Qed.

Lemma worksIn_stored (namespace name : string) (w : hub.World) :
  is_Some (hub.works w !! (namespace, name)) → hub.worksIn namespace w ≠ [].
Proof.
  intros [work Hwork] Hnil. unfold hub.worksIn in Hnil.
  apply fmap_nil_inv in Hnil.
  apply (filter_nil_not_elem_of _ _ ((namespace, name), work)) in Hnil; [|done].
  apply Hnil. by apply elem_of_map_to_list.
Qed.

(** C4. On a reachable cluster with no addon left, whose works on the hub
    are klusterlet works only, the klusterlet crds work being there and the
    klusterlet work not, the pass, once the hub has answered its three
    questions, asks for the klusterlet crds work to be force deleted; if
    the hub does not refuse, the work is gone and the pass returns no
    error. *)
Theorem crds_work_is_deleted_once_klusterlet_work_is_gone
    (cluster : clusterv1.ManagedCluster) (w : hub.World) :
  clusterv1.Reach cluster = clusterv1.Available →
  set_Forall (λ k, k.1 ≠ clusterv1.Name cluster) (hub.addons w) →
  Forall (λ item, ignoreKlusterlet (clusterv1.Name cluster) item = true)
         (hub.worksIn (clusterv1.Name cluster) w) →
  hub.works w !! (clusterv1.Name cluster,
    Sprintf_s_s (clusterv1.Name cluster) constants.KlusterletSuffix) = None →
  is_Some (hub.works w !! (clusterv1.Name cluster,
             Sprintf_s_s (clusterv1.Name cluster) constants.KlusterletCRDsSuffix)) →
  hub.refuses w (hub.request.ListManagedClusterAddons (clusterv1.Name cluster)) = None →
  hub.refuses w (hub.request.ListManifestWorks (clusterv1.Name cluster)) = None →
  hub.refuses w (hub.request.GetManifestWork (clusterv1.Name cluster)
                   (Sprintf_s_s (clusterv1.Name cluster) constants.KlusterletSuffix))
  = None →
  ∃ err w',
    deleteManifestWorks cluster (hub.worksIn (clusterv1.Name cluster) w) w
    = ((reconcile.zero, err), w')
    ∧ hub.requests w' =
        hub.requests w
        ++ [hub.request.ListManagedClusterAddons (clusterv1.Name cluster);
            hub.request.ListManifestWorks (clusterv1.Name cluster);
            hub.request.GetManifestWork (clusterv1.Name cluster)
              (Sprintf_s_s (clusterv1.Name cluster) constants.KlusterletSuffix);
            hub.request.ForceDeleteManifestWork (clusterv1.Name cluster)
              (Sprintf_s_s (clusterv1.Name cluster) constants.KlusterletCRDsSuffix)]
    ∧ (hub.refuses w (hub.request.ForceDeleteManifestWork (clusterv1.Name cluster)
                        (Sprintf_s_s (clusterv1.Name cluster)
                           constants.KlusterletCRDsSuffix)) = None →
       err = None
       ∧ hub.works w' !! (clusterv1.Name cluster,
           Sprintf_s_s (clusterv1.Name cluster) constants.KlusterletCRDsSuffix) = None).
Proof.
  intros Hreach Haddons Hworks Hkl Hcrds HrAddons HrList HrGet.
  set (c := clusterv1.Name cluster) in *.
  set (kl := Sprintf_s_s c constants.KlusterletSuffix) in *.
  set (crds := Sprintf_s_s c constants.KlusterletCRDsSuffix) in *.
  assert (helpers.IsClusterUnavailable cluster = false) as Havail.
  { simpl. unfold hub.IsClusterUnavailable. by rewrite Hreach. }
  assert (helpers.DeleteManifestWorkWithSelector cluster (hub.worksIn c w)
            ignoreKlusterletAndAddons w = (None, w)) as Hsel.
  { simpl. unfold hub.DeleteManifestWorkWithSelector.
    rewrite bind_eq, deleteEachWithSelector_all_ignored; [done|].
    eapply Forall_impl; [exact Hworks|]. apply ignoreKlusterlet_ignored. }
  rewrite (deleteManifestWorks_reachable _ _ _ _ (worksIn_stored _ _ _ Hcrds) Havail Hsel).
  fold c kl crds.
  change (helpers.NoManagedClusterAddons c w) with (hub.NoManagedClusterAddons c w).
  rewrite NoManagedClusterAddons_eq, HrAddons, (bool_decide_eq_true_2 _ Haddons).
  cbv beta iota. unfold negb.
  set (w2 := hub.sent (hub.request.ListManagedClusterAddons c) w).
  change (helpers.NoPendingManifestWorks c ignoreKlusterlet w2)
    with (hub.NoPendingManifestWorks c ignoreKlusterlet w2).
  rewrite NoPendingManifestWorks_eq.
  change (hub.refuses w2) with (hub.refuses w). rewrite HrList.
  change (hub.worksIn c w2) with (hub.worksIn c w).
  rewrite (forallb_Forall _ _ Hworks). cbv beta iota.
  set (w3 := hub.sent (hub.request.ListManifestWorks c) w2).
  change (client.GetManifestWork c kl w3) with (hub.GetManifestWork c kl w3).
  rewrite GetManifestWork_eq.
  change (hub.refuses w3) with (hub.refuses w). rewrite HrGet.
  change (hub.works w3) with (hub.works w). rewrite Hkl.
  cbn [fmap option_fmap option_map hub.found errors.IsNotFound].
  set (w4 := hub.sent (hub.request.GetManifestWork c kl) w3).
  change (helpers.ForceDeleteManifestWork c crds w4)
    with (hub.ForceDeleteManifestWork c crds w4).
  rewrite ForceDeleteManifestWork_eq.
  change (hub.refuses w4) with (hub.refuses w).
  destruct (hub.refuses w (hub.request.ForceDeleteManifestWork c crds)) as [msg|].
  - eexists _, _. split; [done|]. worlds. simpl. rewrite <-!app_assoc. by split.
  - eexists _, _. split; [done|]. worlds. simpl. rewrite <-!app_assoc.
    split; [done|]. intros _. split; [done|]. apply lookup_delete_eq.
Qed.

End deletion_on_the_hub.

(** ** The self managed cluster on the hub *)

Section self_managed_on_the_hub.
Context {table : constants.Table}.

Lemma GetManagedCluster_eq (name : string) (w : hub.World) :
  hub.GetManagedCluster name w =
    (match hub.refuses w (hub.request.GetManagedCluster name) with
     | Some msg => Failed (StatusFailure msg)
     | None => hub.found "managedcluster" (hub.clusters w !! name)
     end, hub.sent (hub.request.GetManagedCluster name) w).
Proof.
  unfold hub.GetManagedCluster. rewrite bind_eq, send_eq.
  by destruct (hub.refuses w _).
Qed.

Lemma GetSecret_eq (namespace name : string) (w : hub.World) :
  hub.GetSecret namespace name w =
    (match hub.refuses w (hub.request.GetSecret namespace name) with
     | Some msg => Failed (StatusFailure msg)
     | None => hub.found "secret" (hub.secrets w !! (namespace, name))
     end, hub.sent (hub.request.GetSecret namespace name) w).
Proof.
  unfold hub.GetSecret. rewrite bind_eq, send_eq.
  by destruct (hub.refuses w _).
Qed.

(** The list of the works with the klusterlet-works label, as [Reconcile]
    asks for it. *)
Lemma ListManifestWorks_klusterlet (name : string) (w : hub.World) :
  hub.ListManifestWorks
    {| client.Namespace := name;
       client.LabelSelector := {[ constants.KlusterletWorksLabel := "true" ]} |} w =
    (match hub.refuses w (hub.request.ListManifestWorks name) with
     | Some msg => Failed (StatusFailure msg)
     | None => Ok (hub.klusterletWorksIn name w)
     end, hub.sent (hub.request.ListManifestWorks name) w).
Proof.
  unfold hub.ListManifestWorks. rewrite bind_eq, send_eq. simpl.
  destruct (hub.refuses w _); [done|]. simpl. unfold gets, hub.klusterletWorksIn.
  do 2 f_equal. apply list_filter_iff. intros item.
  by rewrite map_Forall_singleton.
Qed.

(** C10. For a self managed cluster without an auto-import secret,
    [Reconcile] asks for the import only when exactly two works of the
    namespace carry the klusterlet-works label. With any other number of
    them, and the hub answering for the import secret and the list, it
    returns no error and no requeue. With two of them and the import secret
    there, it asks for the import. *)
Theorem self_managed_import_waits_for_two_klusterlet_works
    (name : string) (managedCluster : clusterv1.ManagedCluster) (selfManaged : string)
    (w w' : hub.World) (r : reconcile.Result * option error) (new : list hub.Request) :
  hub.refuses w (hub.request.GetManagedCluster name) = None →
  hub.clusters w !! name = Some managedCluster →
  clusterv1.Labels managedCluster !! constants.SelfManagedLabel = Some selfManaged →
  strings.EqualFold selfManaged "true" = true →
  hub.refuses w (hub.request.GetSecret name constants.AutoImportSecretName) = None →
  hub.secrets w !! (name, constants.AutoImportSecretName) = None →
  selfmanagedcluster.Reconcile name w = (r, w') →
  hub.requests w' = hub.requests w ++ new →
  ((∃ namespace, hub.request.ImportManagedCluster namespace ∈ new) →
   length (hub.klusterletWorksIn name w) = 2)
  ∧ (length (hub.klusterletWorksIn name w) ≠ 2 →
     hub.refuses w (hub.request.GetSecret name
                      (Sprintf_s_s name constants.ImportSecretNameSuffix)) = None →
     hub.refuses w (hub.request.ListManifestWorks name) = None →
     r = (reconcile.zero, None))
  ∧ (length (hub.klusterletWorksIn name w) = 2 →
     ∀ importSecret,
       hub.secrets w !! (name, Sprintf_s_s name constants.ImportSecretNameSuffix)
       = Some importSecret →
       hub.refuses w (hub.request.GetSecret name
                        (Sprintf_s_s name constants.ImportSecretNameSuffix)) = None →
       hub.refuses w (hub.request.ListManifestWorks name) = None →
       hub.request.ImportManagedCluster (corev1.Namespace importSecret) ∈ new).
Proof.
  intros HrCluster Hcluster Hlabel Hfold HrAuto Hauto Hrun Hnew.
  unfold selfmanagedcluster.Reconcile in Hrun.
  rewrite bind_eq in Hrun.
  change (client.GetManagedCluster name w) with (hub.GetManagedCluster name w) in Hrun.
  rewrite GetManagedCluster_eq, HrCluster, Hcluster in Hrun.
  cbn [hub.found] in Hrun. rewrite Hlabel, Hfold in Hrun. cbn [negb] in Hrun.
  set (w1 := hub.sent (hub.request.GetManagedCluster name) w) in *.
  rewrite bind_eq in Hrun.
  change (client.GetSecret name constants.AutoImportSecretName w1)
    with (hub.GetSecret name constants.AutoImportSecretName w1) in Hrun.
  rewrite GetSecret_eq in Hrun.
  change (hub.refuses w1) with (hub.refuses w) in Hrun.
  change (hub.secrets w1) with (hub.secrets w) in Hrun.
  rewrite HrAuto, Hauto in Hrun. cbn [hub.found errors.IsNotFound negb] in Hrun.
  set (w2 := hub.sent (hub.request.GetSecret name constants.AutoImportSecretName) w1) in *.
  set (importSecretName := Sprintf_s_s name constants.ImportSecretNameSuffix) in *.
  rewrite bind_eq in Hrun.
  change (client.GetSecret name importSecretName w2)
    with (hub.GetSecret name importSecretName w2) in Hrun.
  rewrite GetSecret_eq in Hrun.
  change (hub.refuses w2) with (hub.refuses w) in Hrun.
  change (hub.secrets w2) with (hub.secrets w) in Hrun.
  set (w3 := hub.sent (hub.request.GetSecret name importSecretName) w2) in *.
  assert (∀ tail, hub.requests w' = hub.requests w ++ tail → new = tail) as Hnew'.
  { intros tail Htail. rewrite Hnew in Htail. by apply (inj (app _)) in Htail. }
  assert (∀ tail, new = tail →
          (∀ namespace, hub.request.ImportManagedCluster namespace ∉ tail) →
          ¬ ∃ namespace, hub.request.ImportManagedCluster namespace ∈ new) as Hnone.
  { intros tail -> Htail [namespace Hin]. by apply (Htail namespace). }
  destruct (hub.refuses w (hub.request.GetSecret name importSecretName)) as [msg|].
  { injection Hrun as <- <-.
    assert (new = [hub.request.GetManagedCluster name;
                   hub.request.GetSecret name constants.AutoImportSecretName;
                   hub.request.GetSecret name importSecretName]) as Hreqs.
    { apply Hnew'. worlds. simpl. by rewrite <-!app_assoc. }
    split; [|done]. intros Himport. exfalso. revert Himport.
    apply (Hnone _ Hreqs). intros namespace Hin.
    repeat (apply elem_of_cons in Hin as [[=]|Hin]). by apply elem_of_nil in Hin. }
  destruct (hub.secrets w !! (name, importSecretName)) as [importSecret|];
    cbn [hub.found errors.IsNotFound] in Hrun; cycle 1.
  { injection Hrun as <- <-.
    assert (new = [hub.request.GetManagedCluster name;
                   hub.request.GetSecret name constants.AutoImportSecretName;
                   hub.request.GetSecret name importSecretName]) as Hreqs.
    { apply Hnew'. worlds. simpl. by rewrite <-!app_assoc. }
    split; [|done]. intros Himport. exfalso. revert Himport.
    apply (Hnone _ Hreqs). intros namespace Hin.
    repeat (apply elem_of_cons in Hin as [[=]|Hin]). by apply elem_of_nil in Hin. }
  rewrite bind_eq in Hrun.
  match type of Hrun with
  | context [client.ListManifestWorks ?opts w3] =>
      change (client.ListManifestWorks opts w3) with (hub.ListManifestWorks opts w3) in Hrun
  end.
  rewrite ListManifestWorks_klusterlet in Hrun.
  change (hub.refuses w3) with (hub.refuses w) in Hrun.
  change (hub.klusterletWorksIn name w3) with (hub.klusterletWorksIn name w) in Hrun.
  set (w4 := hub.sent (hub.request.ListManifestWorks name) w3) in *.
  destruct (hub.refuses w (hub.request.ListManifestWorks name)) as [msg|].
  { injection Hrun as <- <-.
    assert (new = [hub.request.GetManagedCluster name;
                   hub.request.GetSecret name constants.AutoImportSecretName;
                   hub.request.GetSecret name importSecretName;
                   hub.request.ListManifestWorks name]) as Hreqs.
    { apply Hnew'. worlds. simpl. by rewrite <-!app_assoc. }
    split; [|done]. intros Himport. exfalso. revert Himport.
    apply (Hnone _ Hreqs). intros namespace Hin.
    repeat (apply elem_of_cons in Hin as [[=]|Hin]). by apply elem_of_nil in Hin. }
  case_bool_decide as Hcount.
  { injection Hrun as <- <-.
    assert (new = [hub.request.GetManagedCluster name;
                   hub.request.GetSecret name constants.AutoImportSecretName;
                   hub.request.GetSecret name importSecretName;
                   hub.request.ListManifestWorks name]) as Hreqs.
    { apply Hnew'. worlds. simpl. by rewrite <-!app_assoc. }
    split; [|done]. intros Himport. exfalso. revert Himport.
    apply (Hnone _ Hreqs). intros namespace Hin.
    repeat (apply elem_of_cons in Hin as [[=]|Hin]). by apply elem_of_nil in Hin. }
  assert (length (hub.klusterletWorksIn name w) = 2) as Htwo
    by (destruct (decide (length (hub.klusterletWorksIn name w) = 2)); done).
  split; [done|]. split; [done|].
  intros _ importSecret' [= <-] _ _.
  rewrite bind_eq in Hrun.
  change (helpers.ImportManagedClusterFromSecret importSecret w4)
    with (hub.ImportManagedClusterFromSecret importSecret w4) in Hrun.
  unfold hub.ImportManagedClusterFromSecret in Hrun. rewrite send_eq in Hrun.
  set (w5 := hub.sent (hub.request.ImportManagedCluster (corev1.Namespace importSecret)) w4)
    in *.
  assert (∃ x condition,
            (x, hub.sent (hub.request.UpdateManagedClusterStatus name condition) w5)
            = (r, w')) as (x & condition & Hend).
  { destruct (StatusFailure <$> hub.refuses w4 _) as [e|];
      cbv beta iota zeta in Hrun; rewrite bind_eq in Hrun;
      match type of Hrun with
      | context [helpers.UpdateManagedClusterStatus name ?cond w5] =>
          change (helpers.UpdateManagedClusterStatus name cond w5)
            with (hub.send (hub.request.UpdateManagedClusterStatus name cond) w5) in Hrun;
          rewrite send_eq in Hrun; eexists _, cond; exact Hrun
      end. }
  injection Hend as _ <-.
  assert (new = [hub.request.GetManagedCluster name;
                 hub.request.GetSecret name constants.AutoImportSecretName;
                 hub.request.GetSecret name importSecretName;
                 hub.request.ListManifestWorks name;
                 hub.request.ImportManagedCluster (corev1.Namespace importSecret);
                 hub.request.UpdateManagedClusterStatus name condition]) as ->.
  { apply Hnew'. unfold w5, w4, w3, w2, w1, hub.sent.
    cbn [hub.requests]. by rewrite <-!app_assoc. }
  do 4 apply list_elem_of_further. apply list_elem_of_here.
Qed.

End self_managed_on_the_hub.

(** ** The theorems at work *)

Section at_work.
#[local] Existing Instance knownConstants.
#[local] Existing Instance oneline.converter.

(** C1 at work: a cluster out of reach with its two klusterlet works, an addon
    work and a work of somebody else. *)
Lemma unavailable_cluster_force_deletes_every_work_witness :
  ∃ err w',
    manifestwork.deleteManifestWorks (example.cluster "t1" clusterv1.Unavailable)
      example.fourWorks (example.hubOf example.fourWorks)
    = ((reconcile.zero, err), w')
    ∧ hub.requests w' =
        [hub.request.ForceDeleteManifestWork "t1" "t1-crds";
         hub.request.ForceDeleteManifestWork "t1" "t1-klusterlet";
         hub.request.ForceDeleteManifestWork "t1" "t1-klusterlet-addon-search";
         hub.request.ForceDeleteManifestWork "t1" "foo-other"]
    ∧ hub.works w' !! ("t1", "t1-crds") = None
    ∧ hub.works w' !! ("t1", "foo-other") = None.
Proof.
  destruct (unavailable_cluster_force_deletes_every_work (table := knownConstants)
              (example.cluster "t1" clusterv1.Unavailable)
              example.fourWorks (example.hubOf example.fourWorks))
    as (err & w' & Hrun & Hreqs & Hgone).
  - reflexivity.
  - discriminate.
  - exists err, w'. split; [exact Hrun|]. split; [exact Hreqs|]. split.
    + apply (Hgone (example.work "t1" "t1-crds")); [|reflexivity].
      apply list_elem_of_here.
    + apply (Hgone (example.work "t1" "foo-other")); [|reflexivity].
      do 3 apply list_elem_of_further. apply list_elem_of_here.
Defined.

(** C2 refuted: on a reachable cluster whose only work is classified
    [Other], the pass asks the hub to delete that work, and the work is
    gone. *)
Lemma other_work_is_deleted :
  clusterv1.Reach (example.cluster "t1" clusterv1.Available) = clusterv1.Available
  ∧ classify "t1" (example.work "t1" "foo-other") = Other
  ∧ hub.works (example.hubOf [example.work "t1" "foo-other"]) !! ("t1", "foo-other")
    = Some (example.work "t1" "foo-other")
  ∧ hub.requests
      (manifestwork.deleteManifestWorks (example.cluster "t1" clusterv1.Available)
         [example.work "t1" "foo-other"]
         (example.hubOf [example.work "t1" "foo-other"])).2
    = [hub.request.DeleteManifestWork "t1" "foo-other";
       hub.request.ListManagedClusterAddons "t1";
       hub.request.ListManifestWorks "t1";
       hub.request.GetManifestWork "t1" "t1-klusterlet";
       hub.request.ForceDeleteManifestWork "t1" "t1-crds"]
  ∧ hub.works
      (manifestwork.deleteManifestWorks (example.cluster "t1" clusterv1.Available)
         [example.work "t1" "foo-other"]
         (example.hubOf [example.work "t1" "foo-other"])).2 !! ("t1", "foo-other")
    = None.
Proof. repeat split; vm_compute; reflexivity. Qed.

(** C2 (as amended) at work: of two [Other] works, one of them a Hosted mode
    work, the pass first asks to delete the one that is not. *)
Lemma other_works_are_asked_to_be_deleted_witness :
  ∃ rest,
    hub.requests
      (manifestwork.deleteManifestWorks (example.cluster "t1" clusterv1.Available)
         example.otherWorks (example.hubOf example.otherWorks)).2
    = hub.requests (example.hubOf example.otherWorks)
      ++ map (λ item, hub.request.DeleteManifestWork
                        (workv1.Namespace item) (workv1.Name item))
             (filter (λ item, hostedNamed "t1" item = false
                              ∧ hub.postponed (example.cluster "t1" clusterv1.Available)
                                  item (example.hubOf example.otherWorks) = false)
                     example.otherWorks)
      ++ rest.
Proof.
  refine (other_works_are_asked_to_be_deleted (table := knownConstants)
            (example.cluster "t1" clusterv1.Available)
            example.otherWorks (example.hubOf example.otherWorks)
            (manifestwork.deleteManifestWorks (example.cluster "t1" clusterv1.Available)
               example.otherWorks (example.hubOf example.otherWorks)).2
            (manifestwork.deleteManifestWorks (example.cluster "t1" clusterv1.Available)
               example.otherWorks (example.hubOf example.otherWorks)).1
            _ _ _).
  - reflexivity.
  - unfold example.otherWorks.
    repeat (constructor; [vm_compute; reflexivity|]). constructor.
  - apply surjective_pairing.
Defined.

(** C3 at work: the pass that force deletes the klusterlet crds work runs on
    a hub without the klusterlet work. *)
Lemma crds_work_goes_after_klusterlet_work_witness :
  hub.works (example.hubOf [example.work "t1" "t1-crds"]) !! ("t1", "t1-klusterlet") = None
  ∧ hub.works
      (manifestwork.deleteManifestWorks (example.cluster "t1" clusterv1.Available)
         [example.work "t1" "t1-crds"]
         (example.hubOf [example.work "t1" "t1-crds"])).2 !! ("t1", "t1-klusterlet")
    = None.
Proof.
  refine (crds_work_goes_after_klusterlet_work (table := knownConstants)
            (example.cluster "t1" clusterv1.Available)
            [example.work "t1" "t1-crds"]
            (example.hubOf [example.work "t1" "t1-crds"])
            (manifestwork.deleteManifestWorks (example.cluster "t1" clusterv1.Available)
               [example.work "t1" "t1-crds"]
               (example.hubOf [example.work "t1" "t1-crds"])).2
            (manifestwork.deleteManifestWorks (example.cluster "t1" clusterv1.Available)
               [example.work "t1" "t1-crds"]
               (example.hubOf [example.work "t1" "t1-crds"])).1
            [hub.request.ListManagedClusterAddons "t1";
             hub.request.ListManifestWorks "t1";
             hub.request.GetManifestWork "t1" "t1-klusterlet";
             hub.request.ForceDeleteManifestWork "t1" "t1-crds"]
            _ _ _ _ _).
  - by vm_compute.
  - reflexivity.
  - apply surjective_pairing.
  - vm_compute. reflexivity.
  - right; left. do 3 apply list_elem_of_further. apply list_elem_of_here.
Defined.

(** C4 at work: the klusterlet crds work is the only work left. *)
Lemma crds_work_is_deleted_once_klusterlet_work_is_gone_witness :
  ∃ w',
    manifestwork.deleteManifestWorks (example.cluster "t1" clusterv1.Available)
      (hub.worksIn "t1" (example.hubOf [example.work "t1" "t1-crds"]))
      (example.hubOf [example.work "t1" "t1-crds"])
    = ((reconcile.zero, None), w')
    ∧ hub.requests w' =
        [hub.request.ListManagedClusterAddons "t1";
         hub.request.ListManifestWorks "t1";
         hub.request.GetManifestWork "t1" "t1-klusterlet";
         hub.request.ForceDeleteManifestWork "t1" "t1-crds"]
    ∧ hub.works w' !! ("t1", "t1-crds") = None.
Proof.
  destruct (crds_work_is_deleted_once_klusterlet_work_is_gone (table := knownConstants)
              (example.cluster "t1" clusterv1.Available)
              (example.hubOf [example.work "t1" "t1-crds"]))
    as (err & w' & Hrun & Hreqs & Hgone).
  - reflexivity.
  - compute_done.
  - compute_done.
  - vm_compute. reflexivity.
  - eexists. vm_compute. reflexivity.
  - reflexivity.
  - reflexivity.
  - reflexivity.
  - destruct (Hgone eq_refl) as [-> Hcrds].
    exists w'. split; [exact Hrun|]. split; [exact Hreqs|]. exact Hcrds.
Defined.

(** C5 refuted: with a second install document that is malformed, and with
    a malformed definitions document, the builders panic; they have no error
    to return. *)
Lemma malformed_document_aborts :
  createKlusterletManifestWork hub.SplitYamls
    (example.cluster "t1" clusterv1.Available)
    (example.importSecret
       ("kind: Namespace" +:+ newline +:+ "---" +:+ newline +:+ "kind: [")
       "kind: Crd")
  = Panics (StatusFailure "yaml: document not of the form key: Word")
  ∧ createKlusterletCRDsManifestWork (λ _, true)
      (example.cluster "t1" clusterv1.Available)
      (example.importSecret "kind: Namespace" "kind: [")
    = Panics (StatusFailure "yaml: document not of the form key: Word").
Proof. split; vm_compute; reflexivity. Qed.

(** C5 (as amended) at work: the malformed document is the definitions
    document and the only install document. *)
Lemma malformed_document_panics_witness :
  createKlusterletCRDsManifestWork (λ _, true)
    (example.cluster "t1" clusterv1.Available)
    (example.importSecret "kind: [" "kind: [")
  = Panics (StatusFailure "yaml: document not of the form key: Word")
  ∧ createKlusterletManifestWork hub.SplitYamls
      (example.cluster "t1" clusterv1.Available)
      (example.importSecret "kind: [" "kind: [")
    = Panics (StatusFailure "yaml: document not of the form key: Word").
Proof.
  destruct (malformed_document_panics
              (table := knownConstants) (converter := oneline.converter)
              (λ _, true) hub.SplitYamls
              (example.cluster "t1" clusterv1.Available)
              (example.importSecret "kind: [" "kind: [")
              "kind: [" (StatusFailure "yaml: document not of the form key: Word"))
    as [Hcrds Hinstall].
  - vm_compute. reflexivity.
  - split.
    + apply Hcrds. vm_compute. reflexivity.
    + apply (Hinstall [] []); [vm_compute; reflexivity | constructor].
Defined.

(** C6 at work: two documents. *)
Lemma install_work_manifests_follow_documents_witness :
  ∃ work,
    createKlusterletManifestWork hub.SplitYamls
      (example.cluster "t1" clusterv1.Available)
      (example.importSecret
         (strings.Join ["kind: Namespace"; "kind: Klusterlet"] constants.YamlSperator)
         "kind: Crd")
    = Returns work
    ∧ workv1.Manifests work
      = map (λ j, {| workv1.Raw := j |})
            ["{" +:+ oneline.quoted "kind" +:+ ":" +:+ oneline.quoted "Namespace" +:+ "}";
             "{" +:+ oneline.quoted "kind" +:+ ":" +:+ oneline.quoted "Klusterlet" +:+ "}"]
    ∧ length (workv1.Manifests work) = length ["kind: Namespace"; "kind: Klusterlet"].
Proof.
  refine (install_work_manifests_follow_documents
            (table := knownConstants) (converter := oneline.converter)
            (example.cluster "t1" clusterv1.Available)
            (example.importSecret
               (strings.Join ["kind: Namespace"; "kind: Klusterlet"] constants.YamlSperator)
               "kind: Crd")
            ["kind: Namespace"; "kind: Klusterlet"]
            ["{" +:+ oneline.quoted "kind" +:+ ":" +:+ oneline.quoted "Namespace" +:+ "}";
             "{" +:+ oneline.quoted "kind" +:+ ":" +:+ oneline.quoted "Klusterlet" +:+ "}"]
            _ _ _ _ _).
  - by vm_compute.
  - discriminate.
  - repeat constructor; vm_compute; reflexivity.
  - repeat constructor; vm_compute; reflexivity.
  - vm_compute. reflexivity.
Defined.

(** C7 at work. *)
Lemma install_work_identity_witness :
  ∃ work,
    createKlusterletManifestWork hub.SplitYamls
      (example.cluster "t1" clusterv1.Available)
      (example.importSecret "kind: Namespace" "kind: Crd")
    = Returns work
    ∧ workv1.Name work
      = clusterv1.Name (example.cluster "t1" clusterv1.Available) +:+ "-klusterlet"
    ∧ workv1.Namespace work = clusterv1.Name (example.cluster "t1" clusterv1.Available)
    ∧ workv1.Labels work = {[ constants.KlusterletWorksLabel := "true" ]}
    ∧ workv1.DeleteOption_ work
      = Some {| workv1.PropagationPolicy := workv1.DeletePropagationPolicyTypeOrphan |}.
Proof.
  refine (install_work_identity
            (table := knownConstants) (converter := oneline.converter)
            hub.SplitYamls
            (example.cluster "t1" clusterv1.Available)
            (example.importSecret "kind: Namespace" "kind: Crd") _ _).
  - reflexivity.
  - vm_compute. repeat constructor. by eexists.
Defined.

(** C8 at work: the work of somebody else is deleted, an addon of the
    cluster is still there, and the pass asks to be run again in ten
    seconds, with nothing done after the report on the addons. *)
Lemma deleteManifestWorks_waits_for_addons_witness :
  ∃ result,
    manifestwork.deleteManifestWorks (example.cluster "t1" clusterv1.Available)
      example.twoWorks (example.hubWithAddon example.twoWorks)
    = ((result, None),
       (hub.NoManagedClusterAddons "t1"
          (hub.DeleteManifestWorkWithSelector (example.cluster "t1" clusterv1.Available)
             example.twoWorks manifestwork.ignoreKlusterletAndAddons
             (example.hubWithAddon example.twoWorks)).2).2)
    ∧ reconcile.RequeueAfter result = 10000000000%Z
    ∧ reconcile.Requeue result = false.
Proof.
  refine (deleteManifestWorks_waits_for_addons
            (table := knownConstants) (W := hub.World) (calls := hub.calls) (api := hub.api)
            (example.cluster "t1" clusterv1.Available)
            example.twoWorks (example.hubWithAddon example.twoWorks)
            (hub.DeleteManifestWorkWithSelector (example.cluster "t1" clusterv1.Available)
               example.twoWorks manifestwork.ignoreKlusterletAndAddons
               (example.hubWithAddon example.twoWorks)).2
            (hub.NoManagedClusterAddons "t1"
               (hub.DeleteManifestWorkWithSelector (example.cluster "t1" clusterv1.Available)
                  example.twoWorks manifestwork.ignoreKlusterletAndAddons
                  (example.hubWithAddon example.twoWorks)).2).2
            _ _ _ _).
  - discriminate.
  - reflexivity.
  - vm_compute. reflexivity.
  - vm_compute. reflexivity.
Defined.

(** C9 at work: the hub refuses to delete the addons, and the work is
    deleted all the same. *)
Lemma deleteAddonsAndWorks_continues_after_addon_failure_witness :
  ∃ result worksErr w2,
    manifestwork.deleteManifestWorks (example.cluster "t1" clusterv1.Available)
      [example.work "t1" "foo-other"]
      (hub.sent (hub.request.DeleteManagedClusterAddons "t1")
         (example.hubRefusingAddons [example.work "t1" "foo-other"]))
    = ((result, worksErr), w2)
    ∧ manifestwork.deleteAddonsAndWorks (example.cluster "t1" clusterv1.Available)
        [example.work "t1" "foo-other"]
        (example.hubRefusingAddons [example.work "t1" "foo-other"])
      = ((result,
          Some (Aggregate (StatusFailure "addons: refused"
                           :: match worksErr with Some e => [e] | None => [] end))), w2).
Proof.
  refine (deleteAddonsAndWorks_continues_after_addon_failure
            (table := knownConstants) (W := hub.World) (calls := hub.calls) (api := hub.api)
            (example.cluster "t1" clusterv1.Available)
            [example.work "t1" "foo-other"]
            (example.hubRefusingAddons [example.work "t1" "foo-other"])
            (hub.sent (hub.request.DeleteManagedClusterAddons "t1")
               (example.hubRefusingAddons [example.work "t1" "foo-other"]))
            (StatusFailure "addons: refused") _).
  vm_compute. reflexivity.
Defined.

(** C10 at work: with the two klusterlet works and the import secret on the
    hub, [Reconcile] asks for the import. *)
Lemma self_managed_import_waits_for_two_klusterlet_works_witness :
  length (hub.klusterletWorksIn "local-cluster" example.selfManagedHub) = 2
  ∧ hub.request.ImportManagedCluster "local-cluster"
    ∈ hub.requests (selfmanagedcluster.Reconcile "local-cluster" example.selfManagedHub).2.
Proof.
  assert (length (hub.klusterletWorksIn "local-cluster" example.selfManagedHub) = 2)
    as Htwo by (vm_compute; reflexivity).
  split; [exact Htwo|].
  refine (proj2 (proj2
            (self_managed_import_waits_for_two_klusterlet_works
               (table := knownConstants)
               "local-cluster" example.selfManagedCluster "True" example.selfManagedHub
               (selfmanagedcluster.Reconcile "local-cluster" example.selfManagedHub).2
               (selfmanagedcluster.Reconcile "local-cluster" example.selfManagedHub).1
               (hub.requests
                  (selfmanagedcluster.Reconcile "local-cluster" example.selfManagedHub).2)
               _ _ _ _ _ _ _ _))
            Htwo example.selfManagedSecret _ _ _).
  - reflexivity.
  - vm_compute. reflexivity.
  - vm_compute. reflexivity.
  - vm_compute. reflexivity.
  - reflexivity.
  - vm_compute. reflexivity.
  - apply surjective_pairing.
  - reflexivity.
  - vm_compute. reflexivity.
  - reflexivity.
  - reflexivity.
Defined.

(** When the hub fails to read the import secret, [Reconcile] returns the
    failure before it counts the works, and asks for no import. *)
Example self_managed_import_secret_not_read :
  length (hub.klusterletWorksIn "local-cluster" example.selfManagedHubFailing) = 1
  ∧ (selfmanagedcluster.Reconcile "local-cluster" example.selfManagedHubFailing).1
    = (reconcile.zero, Some (StatusFailure "secrets: internal error"))
  ∧ hub.requests (selfmanagedcluster.Reconcile "local-cluster" example.selfManagedHubFailing).2
    = [hub.request.GetManagedCluster "local-cluster";
       hub.request.GetSecret "local-cluster" "auto-import-secret";
       hub.request.GetSecret "local-cluster" "local-cluster-import"].
Proof. repeat split; vm_compute; reflexivity. Qed.

End at_work.

(** * Further properties of the code *)

(** ** The builders of the two works *)

Section builders_more.
Context {table : constants.Table} {converter : yaml.Converter}.
Variable IsAPIExtensionV1Supported : string → bool.
Variable SplitYamls : string → list string.

(** The loop converts every document, or panics at the first one that does
    not convert. *)
Lemma appendManifests_cases (yamls : list string) (manifests : list workv1.Manifest) :
  (∃ jsons,
     Forall2 (λ d j, yaml.YAMLToJSON d = Ok j) yamls jsons
     ∧ appendManifests yamls manifests
       = Returns (manifests ++ map (λ j, {| workv1.Raw := j |}) jsons))
  ∨ (∃ good bad rest err,
       yamls = good ++ bad :: rest
       ∧ Forall (λ d, ∃ j, yaml.YAMLToJSON d = Ok j) good
       ∧ yaml.YAMLToJSON bad = Failed err
       ∧ appendManifests yamls manifests = Panics err).
Proof.
  revert manifests. induction yamls as [|d yamls IH]; intros manifests.
  - left. exists []. split; [constructor|]. simpl. by rewrite app_nil_r.
  - simpl. destruct (yaml.YAMLToJSON d) as [j|err] eqn:Hd.
    + destruct (IH (manifests ++ [{| workv1.Raw := j |}]))
        as [(jsons & Hconv & ->)|(good & bad & rest & err & -> & Hgood & Hbad & ->)].
      * left. exists (j :: jsons). split; [by constructor|].
        simpl. by rewrite <-app_assoc.
      * right. exists (d :: good), bad, rest, err.
        repeat split; [|done]. constructor; [by exists j|done].
    + right. by exists [], d, yamls, err.
Qed.

(** X1. The definitions work, when it is built, holds one manifest and no
    delete option. The manifest is the conversion of the v1 definitions for
    a cluster that reports no version or a version that supports them, and
    of the v1beta1 definitions otherwise. *)
Theorem definitions_work_follows_the_version
    (managedCluster : clusterv1.ManagedCluster) (importSecret : corev1.Secret)
    (work : workv1.ManifestWork) :
  createKlusterletCRDsManifestWork IsAPIExtensionV1Supported managedCluster importSecret
  = Returns work →
  ∃ json,
    yaml.YAMLToJSON
      (secretData importSecret
         (if bool_decide (clusterv1.KubernetesVersion managedCluster = EmptyString)
             || IsAPIExtensionV1Supported (clusterv1.KubernetesVersion managedCluster)
          then constants.ImportSecretCRDSV1YamlKey
          else constants.ImportSecretCRDSV1beta1YamlKey)) = Ok json
    ∧ workv1.Manifests work = [ {| workv1.Raw := json |} ]
    ∧ workv1.DeleteOption_ work = None
    ∧ workv1.Name work
      = Sprintf_s_s (clusterv1.Name managedCluster) constants.KlusterletCRDsSuffix
    ∧ workv1.Namespace work = clusterv1.Name managedCluster.
Proof.
  unfold createKlusterletCRDsManifestWork, crdsKey.
  assert ((if bool_decide (clusterv1.KubernetesVersion managedCluster ≠ EmptyString)
              && negb (IsAPIExtensionV1Supported (clusterv1.KubernetesVersion managedCluster))
           then constants.ImportSecretCRDSV1beta1YamlKey
           else constants.ImportSecretCRDSV1YamlKey)
          = (if bool_decide (clusterv1.KubernetesVersion managedCluster = EmptyString)
                || IsAPIExtensionV1Supported (clusterv1.KubernetesVersion managedCluster)
             then constants.ImportSecretCRDSV1YamlKey
             else constants.ImportSecretCRDSV1beta1YamlKey)) as ->.
  { do 2 case_bool_decide; try done;
      by destruct (IsAPIExtensionV1Supported _). }
  destruct (yaml.YAMLToJSON _) as [json|err]; [|done].
  intros [= <-]. by exists json.
Qed.

(** X2. The install work is built exactly when every document of the split
    converts, and the builder panics with an error exactly when that is the
    error of the first document that does not convert. *)
Theorem install_work_panics_at_the_first_bad_document
    (managedCluster : clusterv1.ManagedCluster) (importSecret : corev1.Secret) :
  let docs := SplitYamls (secretData importSecret constants.ImportSecretImportYamlKey) in
  ((∃ work, createKlusterletManifestWork SplitYamls managedCluster importSecret
            = Returns work)
   ↔ Forall (λ d, ∃ j, yaml.YAMLToJSON d = Ok j) docs)
  ∧ (∀ err,
       createKlusterletManifestWork SplitYamls managedCluster importSecret = Panics err
       ↔ ∃ good bad rest,
           docs = good ++ bad :: rest
           ∧ Forall (λ d, ∃ j, yaml.YAMLToJSON d = Ok j) good
           ∧ yaml.YAMLToJSON bad = Failed err).
Proof.
  intros docs. unfold createKlusterletManifestWork. fold docs. clearbody docs.
  destruct (appendManifests_cases docs [])
    as [(jsons & Hconv & Hrun)|(good & bad & rest & err & Hdocs & Hgood & Hbad & Hrun)];
    rewrite Hrun.
  - assert (Forall (λ d, ∃ j, yaml.YAMLToJSON d = Ok j) docs) as Hall.
    { clear Hrun. induction Hconv; constructor; [by eexists|done]. }
    split; [split; [done|by eexists]|].
    intros err; split; [done|].
    intros (good & bad & rest & Hdocs & _ & Hbad).
    rewrite Hdocs in Hall. apply Forall_app in Hall as [_ Hall].
    apply Forall_cons in Hall as [[j Hj] _]. congruence.
  - split.
    + split; [by intros [work ?]|].
      intros Hall. rewrite Hdocs in Hall. apply Forall_app in Hall as [_ Hall].
      apply Forall_cons in Hall as [[j Hj] _]. congruence.
    + intros err'; split.
      * intros [= <-]. by exists good, bad, rest.
      * intros (good' & bad' & rest' & Hdocs' & Hgood' & Hbad').
        pose proof (appendManifests_panics _ _ rest' _ [] Hgood' Hbad') as Hrun'.
        rewrite <-Hdocs', Hrun in Hrun'. by injection Hrun' as ->.
Qed.

(** X3. A key that the secret lacks is no error of its own: each builder
    does on such a secret what it does on one that holds the empty document
    under the key. *)
Theorem missing_key_reads_as_the_empty_document
    (managedCluster : clusterv1.ManagedCluster) (importSecret withEmpty : corev1.Secret)
    (key : string) :
  corev1.Data importSecret !! key = None →
  corev1.Data withEmpty !! key = Some EmptyString →
  (key = crdsKey IsAPIExtensionV1Supported managedCluster →
   createKlusterletCRDsManifestWork IsAPIExtensionV1Supported managedCluster importSecret
   = createKlusterletCRDsManifestWork IsAPIExtensionV1Supported managedCluster withEmpty)
  ∧ (key = constants.ImportSecretImportYamlKey →
     createKlusterletManifestWork SplitYamls managedCluster importSecret
     = createKlusterletManifestWork SplitYamls managedCluster withEmpty).
Proof.
  intros Hnone Hempty. split; intros ->.
  - unfold createKlusterletCRDsManifestWork, secretData. by rewrite Hnone, Hempty.
  - unfold createKlusterletManifestWork, secretData. by rewrite Hnone, Hempty.
Qed.

End builders_more.

(** ** The deletion pass, continued *)

(** Running a controller one call at a time. *)
Ltac run_step :=
  first
    [ rewrite bind_eq
    | match goal with
      | |- context [match ?x with _ => _ end] => destruct x eqn:?
      end ];
  simpl.

Ltac run_step_in H :=
  first
    [ rewrite bind_eq in H
    | match type of H with
      | context [match ?x with _ => _ end] => destruct x eqn:?
      end ];
  simpl in H.

Section deletion_more.
Context {table : constants.Table} {converter : yaml.Converter} {W : Type}
        {calls : helpers.Calls W} {api : client.Client W}.
Variable IsAPIExtensionV1Supported : string → bool.
Variable SplitYamls : string → list string.
Import manifestwork.

(** X4. The two works the builders make are klusterlet works for the
    deletion pass and for the self managed import: both selectors of the
    pass hold for them under the name of the cluster, they are in the
    namespace of the cluster, and they match the label selector the import
    lists the klusterlet works with. *)
Theorem built_works_are_the_klusterlet_works
    (managedCluster : clusterv1.ManagedCluster) (importSecret : corev1.Secret)
    (crdsWork klusterletWork : workv1.ManifestWork) :
  createKlusterletCRDsManifestWork IsAPIExtensionV1Supported managedCluster importSecret
  = Returns crdsWork →
  createKlusterletManifestWork SplitYamls managedCluster importSecret
  = Returns klusterletWork →
  Forall (λ work,
            ignoreKlusterlet (clusterv1.Name managedCluster) work = true
            ∧ ignoreKlusterletAndAddons (clusterv1.Name managedCluster) work = true
            ∧ workv1.Namespace work = clusterv1.Name managedCluster
            ∧ map_Forall (λ k v, workv1.Labels work !! k = Some v)
                ({[ constants.KlusterletWorksLabel := "true" ]} : gmap string string))
         [crdsWork; klusterletWork].
Proof.
  unfold createKlusterletCRDsManifestWork, createKlusterletManifestWork.
  destruct (yaml.YAMLToJSON _) as [json|]; [|done].
  destruct (appendManifests _ _) as [manifests|]; [|done].
  intros [= <-] [= <-].
  repeat constructor; simpl.
  all: try (apply ignoreKlusterlet_ignored).
  all: try (unfold ignoreKlusterlet; simpl; repeat case_bool_decide; done).
  all: rewrite map_Forall_singleton; by simplify_map_eq.
Qed.

(** The result of the pass: the zero result, or a rerun after ten seconds,
    which comes without an error, for a reachable cluster that has works. *)
Lemma deleteManifestWorks_result_cases
    (cluster : clusterv1.ManagedCluster) (works : list workv1.ManifestWork) (w : W) :
  ∃ result err w',
    deleteManifestWorks cluster works w = ((result, err), w')
    ∧ (result = reconcile.zero
       ∨ result = {| reconcile.Requeue := false;
                     reconcile.RequeueAfter := 10 * time.Second |}
         ∧ err = None ∧ works ≠ []
         ∧ helpers.IsClusterUnavailable cluster = false).
Proof.
  unfold deleteManifestWorks.
  case_bool_decide as Hlen; [eexists _, _, _; split; [done|by left]|].
  destruct (helpers.IsClusterUnavailable cluster) eqn:Hreach.
  { repeat run_step. eexists _, _, _; split; [done|by left]. }
  rewrite bind_eq.
  destruct (helpers.DeleteManifestWorkWithSelector _ _ _ w) as [[e|] w1].
  { eexists _, _, _; split; [done|by left]. }
  rewrite bind_eq.
  destruct (helpers.NoManagedClusterAddons _ w1) as [[noAddons [e|]] w2].
  { eexists _, _, _; split; [done|by left]. }
  destruct noAddons; simpl.
  - repeat run_step; eexists _, _, _; (split; [done|by left]).
  - eexists _, _, _; split; [done|]. right. repeat split.
    by intros ->.
Qed.

(** X5. The pass never sets [Requeue]. It asks for a rerun after ten
    seconds or after none; the ten seconds come without an error, and only
    for a reachable cluster that has works. Without works it does nothing,
    whatever the cluster. *)
Theorem deleteManifestWorks_requeue_discipline
    (cluster : clusterv1.ManagedCluster) (works : list workv1.ManifestWork) (w : W) :
  let run := deleteManifestWorks cluster works w in
  reconcile.Requeue run.1.1 = false
  ∧ (reconcile.RequeueAfter run.1.1 = 0%Z
     ∨ reconcile.RequeueAfter run.1.1 = 10000000000%Z
       ∧ run.1.2 = None ∧ works ≠ []
       ∧ helpers.IsClusterUnavailable cluster = false)
  ∧ (works = [] → run = ((reconcile.zero, None), w)).
Proof.
  intros run. subst run.
  destruct (deleteManifestWorks_result_cases cluster works w)
    as (result & err & w' & Hrun & [->|(-> & -> & Hne & Hreach)]).
  - rewrite Hrun. simpl. split; [done|]. split; [by left|].
    intros ->. by rewrite <-Hrun.
  - rewrite Hrun. simpl. split; [done|]. split; [by right|]. done.
Qed.

(** The pass of [deleteAddonsAndWorks], call by call. *)
Lemma deleteAddonsAndWorks_eq
    (cluster : clusterv1.ManagedCluster) (works : list workv1.ManifestWork) (w : W) :
  deleteAddonsAndWorks cluster works w =
    let '(addonsErr, w1) := helpers.DeleteManagedClusterAddons cluster w in
    let '((result, worksErr), w2) := deleteManifestWorks cluster works w1 in
    ((result, NewAggregate (option_list addonsErr ++ option_list worksErr)), w2).
Proof.
  unfold deleteAddonsAndWorks. rewrite bind_eq.
  destruct (helpers.DeleteManagedClusterAddons cluster w) as [addonsErr w1].
  rewrite bind_eq.
  destruct (deleteManifestWorks cluster works w1) as [[result worksErr] w2].
  by destruct addonsErr, worksErr.
Qed.

(** X6. [deleteAddonsAndWorks] always runs the deletion of the works after
    the request on the addons, hands its result on, and returns the
    aggregate of the errors of the two, in this order: no error exactly when
    neither of them failed. *)
Theorem deleteAddonsAndWorks_aggregates_both_errors
    (cluster : clusterv1.ManagedCluster) (works : list workv1.ManifestWork) (w : W) :
  ∃ addonsErr w1 result worksErr w2 err,
    helpers.DeleteManagedClusterAddons cluster w = (addonsErr, w1)
    ∧ deleteManifestWorks cluster works w1 = ((result, worksErr), w2)
    ∧ deleteAddonsAndWorks cluster works w = ((result, err), w2)
    ∧ err = NewAggregate (option_list addonsErr ++ option_list worksErr)
    ∧ (err = None ↔ addonsErr = None ∧ worksErr = None).
Proof.
  rewrite deleteAddonsAndWorks_eq.
  destruct (helpers.DeleteManagedClusterAddons cluster w)
    as [addonsErr w1] eqn:Haddons.
  destruct (deleteManifestWorks cluster works w1)
    as [[result worksErr] w2] eqn:Hworks.
  exists addonsErr, w1, result, worksErr, w2,
    (NewAggregate (option_list addonsErr ++ option_list worksErr)).
  do 4 (split; [done|]).
  destruct addonsErr, worksErr; simpl; split; try done; by intros [??].
Qed.

(** The result of [deleteAddonsAndWorks] is that of the pass. *)
Lemma deleteAddonsAndWorks_result_cases
    (cluster : clusterv1.ManagedCluster) (works : list workv1.ManifestWork) (w : W) :
  ∃ result err w',
    deleteAddonsAndWorks cluster works w = ((result, err), w')
    ∧ (result = reconcile.zero
       ∨ result = {| reconcile.Requeue := false;
                     reconcile.RequeueAfter := 10 * time.Second |}
         ∧ helpers.IsClusterUnavailable cluster = false).
Proof.
  rewrite deleteAddonsAndWorks_eq.
  destruct (helpers.DeleteManagedClusterAddons cluster w) as [addonsErr w1].
  destruct (deleteManifestWorks_result_cases cluster works w1)
    as (result & err & w' & -> & Hcases).
  eexists _, _, _. split; [done|]. destruct Hcases as [->|(-> & _ & _ & ?)]; auto.
Qed.

End deletion_more.

(** ** [Reconcile] of package [manifestwork], for any implementation of the helpers *)

Section reconcile_facts.
Context {table : constants.Table} {converter : yaml.Converter} {W : Type}
        {calls : helpers.Calls W} {api : client.Client W}
        {env : manifestworkcontroller.Env W}.
Import manifestworkcontroller.

(** [Reconcile] once the cluster is read and found in the Default mode, its
    works are listed and the finalizer is settled. *)
Lemma Reconcile_listed
    (name : string) (managedCluster : clusterv1.ManagedCluster)
    (manifestWorks : list workv1.ManifestWork) (w w1 w2 w3 : W) :
  client.GetManagedCluster name w = (Ok managedCluster, w1) →
  DetermineKlusterletMode managedCluster = KlusterletDeployModeDefault →
  client.ListManifestWorks
    {| client.Namespace := name; client.LabelSelector := ∅ |} w1
  = (Ok manifestWorks, w2) →
  AssertManifestWorkFinalizer managedCluster (length manifestWorks) w2 = (None, w3) →
  Reconcile name w =
    match clusterv1.DeletionTimestamp managedCluster with
    | Some _ =>
        let '(r, w') := manifestwork.deleteAddonsAndWorks managedCluster manifestWorks w3 in
        (Returns r, w')
    | None =>
        let '(got, w4) :=
          client.GetSecret name (Sprintf_s_s name constants.ImportSecretNameSuffix) w3 in
        match got with
        | Failed err =>
            (Returns (reconcile.zero, if errors.IsNotFound err then None else Some err), w4)
        | Ok importSecret =>
            match ValidateImportSecret importSecret with
            | Some err => (Returns (reconcile.zero, Some err), w4)
            | None =>
                match createKlusterletCRDsManifestWork IsAPIExtensionV1Supported
                        managedCluster importSecret with
                | Panics err => (Panics err, w4)
                | Returns crdsWork =>
                    match createKlusterletManifestWork SplitYamls
                            managedCluster importSecret with
                    | Panics err => (Panics err, w4)
                    | Returns klusterletWork =>
                        let '(err, w5) :=
                          ApplyResources managedCluster [crdsWork; klusterletWork] w4 in
                        (Returns (reconcile.zero, err), w5)
                    end
                end
            end
        end
    end.
Proof.
  intros Hget Hmode Hlist Hassert. unfold Reconcile.
  rewrite bind_eq, Hget.
  rewrite (bool_decide_eq_false_2 _ (λ Hne, Hne Hmode)).
  rewrite bind_eq, Hlist, bind_eq, Hassert.
  destruct (clusterv1.DeletionTimestamp managedCluster).
  - rewrite bind_eq. by destruct (manifestwork.deleteAddonsAndWorks _ _ w3).
  - rewrite bind_eq. destruct (client.GetSecret _ _ w3) as [[importSecret|err] w4].
    + destruct (ValidateImportSecret importSecret); [done|].
      destruct (createKlusterletCRDsManifestWork _ _ _); [|done].
      destruct (createKlusterletManifestWork _ _ _); [|done].
      rewrite bind_eq. by destruct (ApplyResources _ _ w4) as [[e|] w5].
    + by destruct (errors.IsNotFound err).
Qed.

(** X7. For a cluster that is being deleted, [Reconcile] settles the
    finalizer with the number of all the works of the namespace and then
    does what [deleteAddonsAndWorks] does on these works: it returns its
    result and its error, and reads no import secret. *)
Theorem Reconcile_of_a_deleting_cluster_deletes
    (name : string) (managedCluster : clusterv1.ManagedCluster) (deleted : Z)
    (manifestWorks : list workv1.ManifestWork) (w w1 w2 w3 : W) :
  client.GetManagedCluster name w = (Ok managedCluster, w1) →
  DetermineKlusterletMode managedCluster = KlusterletDeployModeDefault →
  client.ListManifestWorks
    {| client.Namespace := name; client.LabelSelector := ∅ |} w1
  = (Ok manifestWorks, w2) →
  AssertManifestWorkFinalizer managedCluster (length manifestWorks) w2 = (None, w3) →
  clusterv1.DeletionTimestamp managedCluster = Some deleted →
  ∃ r w',
    manifestwork.deleteAddonsAndWorks managedCluster manifestWorks w3 = (r, w')
    ∧ Reconcile name w = (Returns r, w').
Proof.
  intros Hget Hmode Hlist Hassert Hdeleting.
  rewrite (Reconcile_listed _ _ _ _ _ _ _ Hget Hmode Hlist Hassert), Hdeleting.
  destruct (manifestwork.deleteAddonsAndWorks _ _ w3) as [r w']. by exists r, w'.
Qed.

(** X8. [Reconcile] panics only on a cluster that is not being deleted and
    whose import secret was read and found valid, with the error one of the
    two builders panics with on them; it stops where the read of the secret
    left the hub, with nothing applied. *)
Theorem Reconcile_panics_only_in_the_builders
    (name : string) (w w' : W) (err : error) :
  Reconcile name w = (Panics err, w') →
  ∃ managedCluster importSecret w1 w3,
    client.GetManagedCluster name w = (Ok managedCluster, w1)
    ∧ clusterv1.DeletionTimestamp managedCluster = None
    ∧ client.GetSecret name (Sprintf_s_s name constants.ImportSecretNameSuffix) w3
      = (Ok importSecret, w')
    ∧ ValidateImportSecret importSecret = None
    ∧ (createKlusterletCRDsManifestWork IsAPIExtensionV1Supported
         managedCluster importSecret = Panics err
       ∨ createKlusterletManifestWork SplitYamls managedCluster importSecret
         = Panics err).
Proof.
  unfold Reconcile. intros Hrun.
  rewrite bind_eq in Hrun.
  destruct (client.GetManagedCluster name w) as [[managedCluster|e] w1] eqn:Hget;
    [|by destruct (errors.IsNotFound e)].
  case_bool_decide; [done|].
  rewrite bind_eq in Hrun.
  destruct (client.ListManifestWorks _ w1) as [[manifestWorks|e] w2]; [|done].
  rewrite bind_eq in Hrun.
  destruct (AssertManifestWorkFinalizer _ _ w2) as [[e|] w3]; [done|].
  destruct (clusterv1.DeletionTimestamp managedCluster) eqn:Hlive.
  { rewrite bind_eq in Hrun.
    by destruct (manifestwork.deleteAddonsAndWorks _ _ w3). }
  rewrite bind_eq in Hrun.
  destruct (client.GetSecret _ _ w3) as [[importSecret|e] w4] eqn:Hsecret;
    [|by destruct (errors.IsNotFound e)].
  destruct (ValidateImportSecret importSecret) eqn:Hvalid; [done|].
  destruct (createKlusterletCRDsManifestWork _ _ _) as [crdsWork|e] eqn:Hcrds.
  - destruct (createKlusterletManifestWork _ _ _) as [klusterletWork|e] eqn:Hinstall.
    + rewrite bind_eq in Hrun. by destruct (ApplyResources _ _ w4) as [[e|] w5].
    + injection Hrun as -> ->. exists managedCluster, importSecret, w1, w3.
      repeat split; auto.
  - injection Hrun as -> ->. exists managedCluster, importSecret, w1, w3.
      repeat split; auto.
Qed.

(** X9. For a cluster that is not being deleted and whose import secret is
    valid and holds documents that all convert, [Reconcile] applies exactly
    two works, the definitions work and then the install work, each named
    after the cluster with its suffix, and returns the error of the
    application, if any, with no requeue. *)
Theorem Reconcile_applies_the_two_works
    (name : string) (managedCluster : clusterv1.ManagedCluster)
    (manifestWorks : list workv1.ManifestWork) (importSecret : corev1.Secret)
    (w w1 w2 w3 w4 : W) :
  client.GetManagedCluster name w = (Ok managedCluster, w1) →
  DetermineKlusterletMode managedCluster = KlusterletDeployModeDefault →
  client.ListManifestWorks
    {| client.Namespace := name; client.LabelSelector := ∅ |} w1
  = (Ok manifestWorks, w2) →
  AssertManifestWorkFinalizer managedCluster (length manifestWorks) w2 = (None, w3) →
  clusterv1.DeletionTimestamp managedCluster = None →
  client.GetSecret name (Sprintf_s_s name constants.ImportSecretNameSuffix) w3
  = (Ok importSecret, w4) →
  ValidateImportSecret importSecret = None →
  (∃ json, yaml.YAMLToJSON
             (secretData importSecret
                (crdsKey IsAPIExtensionV1Supported managedCluster)) = Ok json) →
  Forall (λ d, ∃ j, yaml.YAMLToJSON d = Ok j)
         (SplitYamls (secretData importSecret constants.ImportSecretImportYamlKey)) →
  ∃ crdsWork klusterletWork err w5,
    ApplyResources managedCluster [crdsWork; klusterletWork] w4 = (err, w5)
    ∧ Reconcile name w = (Returns (reconcile.zero, err), w5)
    ∧ createKlusterletCRDsManifestWork IsAPIExtensionV1Supported
        managedCluster importSecret = Returns crdsWork
    ∧ createKlusterletManifestWork SplitYamls managedCluster importSecret
      = Returns klusterletWork
    ∧ workv1.Name crdsWork
      = Sprintf_s_s (clusterv1.Name managedCluster) constants.KlusterletCRDsSuffix
    ∧ workv1.Name klusterletWork
      = Sprintf_s_s (clusterv1.Name managedCluster) constants.KlusterletSuffix.
Proof.
  intros Hget Hmode Hlist Hassert Hlive Hsecret Hvalid [json Hcrds] Hdocs.
  rewrite (Reconcile_listed _ _ _ _ _ _ _ Hget Hmode Hlist Hassert), Hlive,
    Hsecret, Hvalid.
  unfold createKlusterletCRDsManifestWork, createKlusterletManifestWork.
  rewrite Hcrds.
  destruct (appendManifests_cases
              (SplitYamls (secretData importSecret constants.ImportSecretImportYamlKey)) [])
    as [(jsons & _ & ->)|(good & bad & rest & e & Hsplit & _ & Hbad & _)].
  - destruct (ApplyResources _ _ w4) as [err w5] eqn:Happly.
    eexists _, _, err, w5. split; [exact Happly|]. done.
  - rewrite Hsplit in Hdocs. apply Forall_app in Hdocs as [_ Hdocs].
    apply Forall_cons in Hdocs as [[j Hj] _]. congruence.
Qed.

(** X10. An object that is not there is no error for [Reconcile]: when the
    cluster is not found, and when the import secret of a cluster that is
    not being deleted is not found, it returns no error and no requeue, and
    leaves the hub as the read left it. Any other error of these reads is
    returned as it is. *)
Theorem Reconcile_takes_absent_objects_for_no_error
    (name : string) (w : W) :
  (∀ err w1,
     client.GetManagedCluster name w = (Failed err, w1) →
     Reconcile name w
     = (Returns (reconcile.zero, if errors.IsNotFound err then None else Some err), w1))
  ∧ (∀ managedCluster manifestWorks err w1 w2 w3 w4,
       client.GetManagedCluster name w = (Ok managedCluster, w1) →
       DetermineKlusterletMode managedCluster = KlusterletDeployModeDefault →
       client.ListManifestWorks
         {| client.Namespace := name; client.LabelSelector := ∅ |} w1
       = (Ok manifestWorks, w2) →
       AssertManifestWorkFinalizer managedCluster (length manifestWorks) w2
       = (None, w3) →
       clusterv1.DeletionTimestamp managedCluster = None →
       client.GetSecret name (Sprintf_s_s name constants.ImportSecretNameSuffix) w3
       = (Failed err, w4) →
       Reconcile name w
       = (Returns (reconcile.zero, if errors.IsNotFound err then None else Some err), w4)).
Proof.
  split.
  - intros err w1 Hget. unfold Reconcile. rewrite bind_eq, Hget.
    by destruct (errors.IsNotFound err).
  - intros managedCluster manifestWorks err w1 w2 w3 w4
      Hget Hmode Hlist Hassert Hlive Hsecret.
    by rewrite (Reconcile_listed _ _ _ _ _ _ _ Hget Hmode Hlist Hassert), Hlive, Hsecret.
Qed.

(** X11. [Reconcile] never sets [Requeue], and asks for a rerun after ten
    seconds or after none. The ten seconds are asked for only for a
    reachable cluster in the Default mode that is being deleted. *)
Theorem Reconcile_requeue_discipline
    (name : string) (w w' : W) (result : reconcile.Result) (err : option error) :
  Reconcile name w = (Returns (result, err), w') →
  reconcile.Requeue result = false
  ∧ (reconcile.RequeueAfter result = 0%Z
     ∨ reconcile.RequeueAfter result = 10000000000%Z
       ∧ ∃ managedCluster deleted w1,
           client.GetManagedCluster name w = (Ok managedCluster, w1)
           ∧ clusterv1.DeletionTimestamp managedCluster = Some deleted
           ∧ DetermineKlusterletMode managedCluster = KlusterletDeployModeDefault
           ∧ helpers.IsClusterUnavailable managedCluster = false).
Proof.
  unfold Reconcile. intros Hrun.
  rewrite bind_eq in Hrun.
  destruct (client.GetManagedCluster name w) as [[managedCluster|e] w1] eqn:Hget.
  2:{ destruct (errors.IsNotFound e); injection Hrun as <- _ _; auto. }
  case_bool_decide as Hmode; [injection Hrun as <- _ _; auto|].
  rewrite bind_eq in Hrun.
  destruct (client.ListManifestWorks _ w1) as [[manifestWorks|e] w2].
  2:{ injection Hrun as <- _ _; auto. }
  rewrite bind_eq in Hrun.
  destruct (AssertManifestWorkFinalizer _ _ w2) as [[e|] w3].
  { injection Hrun as <- _ _; auto. }
  destruct (clusterv1.DeletionTimestamp managedCluster) as [deleted|] eqn:Hdeleting.
  { rewrite bind_eq in Hrun.
    destruct (deleteAddonsAndWorks_result_cases managedCluster manifestWorks w3)
      as (r & e & w5 & Hpass & Hcases).
    rewrite Hpass in Hrun. injection Hrun as <- _ _.
    destruct Hcases as [->|[-> Hreach]]; [auto|].
    split; [done|]. right. split; [done|].
    by exists managedCluster, deleted, w1. }
  rewrite bind_eq in Hrun.
  destruct (client.GetSecret _ _ w3) as [[importSecret|e] w4].
  2:{ destruct (errors.IsNotFound e); injection Hrun as <- _ _; auto. }
  destruct (ValidateImportSecret importSecret); [injection Hrun as <- _ _; auto|].
  destruct (createKlusterletCRDsManifestWork _ _ _); [|done].
  destruct (createKlusterletManifestWork _ _ _); [|done].
  rewrite bind_eq in Hrun.
  destruct (ApplyResources _ _ w4) as [[e|] w5]; injection Hrun as <- _ _; auto.
Qed.

End reconcile_facts.

(** ** [Reconcile] of package [selfmanagedcluster], for any implementation of the helpers *)

Section self_managed_facts.
Context {table : constants.Table} {W : Type}
        {calls : helpers.Calls W} {api : client.Client W}.
Import selfmanagedcluster.

(** X12. The self managed import never asks for a requeue: whatever the
    hub answers, the result of [Reconcile] is the zero result. *)
Theorem self_managed_Reconcile_never_requeues (name : string) (w : W) :
  (Reconcile name w).1.1 = reconcile.zero.
Proof.
  unfold Reconcile. by repeat run_step.
Qed.

(** X13. A cluster is left alone, with no error, when it has no self
    managed label, when the label is not [true] in any case of the letters,
    and when its namespace holds an auto-import secret: [Reconcile] stops
    at the read that tells it, the import secret is not read and nothing is
    imported. *)
Theorem self_managed_import_is_skipped
    (name : string) (managedCluster : clusterv1.ManagedCluster) (w w1 : W) :
  client.GetManagedCluster name w = (Ok managedCluster, w1) →
  (clusterv1.Labels managedCluster !! constants.SelfManagedLabel = None →
   Reconcile name w = ((reconcile.zero, None), w1))
  ∧ (∀ selfManaged,
       clusterv1.Labels managedCluster !! constants.SelfManagedLabel = Some selfManaged →
       strings.EqualFold selfManaged "true" = false →
       Reconcile name w = ((reconcile.zero, None), w1))
  ∧ (∀ selfManaged autoImportSecret w2,
       clusterv1.Labels managedCluster !! constants.SelfManagedLabel = Some selfManaged →
       strings.EqualFold selfManaged "true" = true →
       client.GetSecret name constants.AutoImportSecretName w1
       = (Ok autoImportSecret, w2) →
       Reconcile name w = ((reconcile.zero, None), w2)).
Proof.
  intros Hget. unfold Reconcile. rewrite bind_eq, Hget. repeat split.
  - by intros ->.
  - intros selfManaged -> Hfold. by rewrite Hfold.
  - intros selfManaged autoImportSecret w2 -> Hfold Hauto.
    rewrite Hfold. cbn [negb]. by rewrite bind_eq, Hauto.
Qed.


End self_managed_facts.

(** ** Package [clusterdeployment] *)

Section clusterdeployment_facts.
Import clusterdeployment.

(** X15. [createClusterRegistryCluster] returns a cluster only after it has
    set the deployment as its controller and created it: the cluster it
    returns is the new cluster with the reference set, and the hub is as its
    creation left it. When the reference cannot be set, nothing is created:
    the error is returned and the hub is untouched. *)
Theorem createClusterRegistryCluster_creates_an_owned_cluster
    {W : Type} {env : Env W} (clusterDeployment : hivev1.ClusterDeployment) (w : W) :
  (∀ cr w',
     createClusterRegistryCluster clusterDeployment w = (Ok cr, w') →
     SetControllerReference clusterDeployment
       (newClusterRegistryCluster clusterDeployment) = Ok cr
     ∧ Create cr w = (None, w'))
  ∧ (∀ err,
       SetControllerReference clusterDeployment
         (newClusterRegistryCluster clusterDeployment) = Failed err →
       createClusterRegistryCluster clusterDeployment w = (Failed err, w)).
Proof.
  unfold createClusterRegistryCluster. split.
  - intros cr w' Hrun.
    destruct (SetControllerReference _ _) as [owned|err]; [|done].
    rewrite bind_eq in Hrun.
    destruct (Create owned w) as [[err|] w1] eqn:Hcreate; [done|].
    by injection Hrun as -> ->.
  - by intros err ->.
Qed.

(** X16. On a store of clusters, with a way of setting the reference that
    keeps the name and the namespace of the cluster: the cluster that
    [createClusterRegistryCluster] returns is the one
    [getClusterRegistryCluster] then finds for the same deployment, and it is
    named after the cluster of the deployment, in the namespace of that
    name; and after [getClusterRegistryCluster] has found none, the creation
    does not fail once the reference is set. *)
Theorem created_cluster_is_found_again
    (groupVersion : string)
    (setReference : hivev1.ClusterDeployment → clusterregistryv1alpha1.Cluster →
                    result clusterregistryv1alpha1.Cluster)
    (clusterDeployment : hivev1.ClusterDeployment) (w : sample.registry.World) :
  (∀ owner cr owned,
     setReference owner cr = Ok owned →
     clusterregistryv1alpha1.Name owned = clusterregistryv1alpha1.Name cr
     ∧ clusterregistryv1alpha1.Namespace owned = clusterregistryv1alpha1.Namespace cr) →
  let env := sample.registry.env groupVersion setReference in
  (∀ cr w',
     createClusterRegistryCluster clusterDeployment w = (Ok cr, w') →
     getClusterRegistryCluster clusterDeployment w' = (Ok cr, w')
     ∧ clusterregistryv1alpha1.Name cr = hivev1.ClusterName clusterDeployment
     ∧ clusterregistryv1alpha1.Namespace cr = hivev1.ClusterName clusterDeployment)
  ∧ (∀ err owned,
       getClusterRegistryCluster clusterDeployment w = (Failed err, w) →
       setReference clusterDeployment (newClusterRegistryCluster clusterDeployment)
       = Ok owned →
       ∃ w', createClusterRegistryCluster clusterDeployment w = (Ok owned, w')).
Proof.
  intros Hkeeps env. split.
  - intros cr w' Hrun. unfold createClusterRegistryCluster in Hrun. simpl in Hrun.
    destruct (setReference _ _) as [owned|err] eqn:Hset; [|done].
    destruct (Hkeeps _ _ _ Hset) as [Hname Hnamespace]. simpl in Hname, Hnamespace.
    rewrite bind_eq in Hrun. unfold sample.registry.Create in Hrun.
    rewrite Hname, Hnamespace in Hrun.
    destruct (w !! _) eqn:Hfree; [done|].
    injection Hrun as -> <-.
    split; [|done].
    unfold getClusterRegistryCluster. rewrite bind_eq. simpl.
    unfold sample.registry.Get, gets. simpl.
    unfold sample.registry.World in *.
    by rewrite lookup_insert_eq.
  - intros err owned Hget Hset.
    unfold getClusterRegistryCluster in Hget. rewrite bind_eq in Hget. simpl in Hget.
    unfold sample.registry.Get, gets in Hget. simpl in Hget.
    destruct (w !! _) eqn:Hfree; [done|].
    destruct (Hkeeps _ _ _ Hset) as [Hname Hnamespace]. simpl in Hname, Hnamespace.
    unfold createClusterRegistryCluster. simpl. rewrite Hset, bind_eq.
    unfold sample.registry.Create. rewrite Hname, Hnamespace, Hfree.
    by eexists.
Qed.

End clusterdeployment_facts.

(** ** The helpers of the tests *)

(** X17. [assertFinalizers] reports no error exactly when the object has
    the expected finalizers, in their order, a [nil] slice and an empty one
    being the same. *)
Theorem assertFinalizers_compares_the_finalizers
    (actual finalizers : option (list string)) :
  assertFinalizers actual finalizers = false
  ↔ default [] actual = default [] finalizers.
Proof.
  unfold assertFinalizers, DeepEqual, len.
  destruct actual as [[|a actual]|], finalizers as [[|f finalizers]|]; simpl;
    try done; case_bool_decide; simpl; split; congruence.
Qed.

(** ** The two selectors of the pass, and the clusters of other modes *)

Section selectors.
Context {table : constants.Table}.
Import manifestwork.

(** X18. The works that the first stage of the pass spares and that the
    last stage waits for are the works of the Hosted mode and the addon
    works: those that are not named as a klusterlet work of the cluster and
    are named as a Hosted work of the cluster, or with the addon prefix of
    their own namespace, or [addon-...-deploy] or [addon-...-pre-delete]. *)
Theorem spared_works_that_hold_the_pass_back
    (clusterName : string) (work : workv1.ManifestWork) :
  ignoreKlusterletAndAddons clusterName work = true
  ∧ ignoreKlusterlet clusterName work = false
  ↔ (workv1.Name work ≠ Sprintf_s_s clusterName constants.KlusterletSuffix
     ∧ workv1.Name work ≠ Sprintf_s_s clusterName constants.KlusterletCRDsSuffix)
    ∧ (workv1.Name work
       = Sprintf_s_s clusterName constants.HostedKlusterletManifestworkSuffix
       ∨ workv1.Name work
         = Sprintf_s_s clusterName constants.HostedManagedKubeconfigManifestworkSuffix
       ∨ strings.HasPrefix (workv1.Name work)
           (workv1.Namespace work +:+ "-klusterlet-addon") = true
       ∨ strings.HasPrefix (workv1.Name work) "addon-" = true
         ∧ (strings.HasSuffix (workv1.Name work) "-deploy" = true
            ∨ strings.HasSuffix (workv1.Name work) "-pre-delete" = true)).
Proof.
  unfold ignoreKlusterletAndAddons, ignoreKlusterlet.
  destruct (strings.HasPrefix (workv1.Name work)
              (workv1.Namespace work +:+ "-klusterlet-addon")).
  all: destruct (strings.HasPrefix (workv1.Name work) "addon-").
  all: destruct (strings.HasSuffix (workv1.Name work) "-deploy").
  all: destruct (strings.HasSuffix (workv1.Name work) "-pre-delete").
  all: repeat case_bool_decide; simpl; intuition congruence.
Qed.

End selectors.

Section reconcile_more.
Context {table : constants.Table} {converter : yaml.Converter} {W : Type}
        {calls : helpers.Calls W} {api : client.Client W}
        {env : manifestworkcontroller.Env W}.
Import manifestworkcontroller.

(** X19. A cluster whose klusterlet is not in the Default mode is left
    alone, also when it is being deleted: [Reconcile] stops after the read
    of the cluster, with no error and no requeue; it lists no works and
    settles no finalizer. *)
Theorem Reconcile_leaves_other_modes_alone
    (name : string) (managedCluster : clusterv1.ManagedCluster) (w w1 : W) :
  client.GetManagedCluster name w = (Ok managedCluster, w1) →
  DetermineKlusterletMode managedCluster ≠ KlusterletDeployModeDefault →
  Reconcile name w = (Returns (reconcile.zero, None), w1).
Proof.
  intros Hget Hmode. unfold Reconcile.
  by rewrite bind_eq, Hget, (bool_decide_eq_true_2 _ Hmode).
Qed.

End reconcile_more.

(** ** The further properties at work *)

Section more_at_work.
#[local] Existing Instance knownConstants.
#[local] Existing Instance oneline.converter.

(** X1 at work: a cluster that reports no version gets the v1 definitions,
    also when no version is said to support them. *)
Lemma definitions_work_follows_the_version_witness :
  ∃ json,
    oneline.YAMLToJSON (secretData sample.secret "crdsv1.yaml") = Ok json
    ∧ workv1.Manifests sample.crdsWork = [ {| workv1.Raw := json |} ]
    ∧ workv1.DeleteOption_ sample.crdsWork = None
    ∧ workv1.Name sample.crdsWork = "t1-crds"
    ∧ workv1.Namespace sample.crdsWork = "t1".
Proof.
  refine (definitions_work_follows_the_version
            (table := knownConstants) (converter := oneline.converter)
            (λ _, false) sample.liveCluster sample.secret sample.crdsWork _).
  vm_compute. reflexivity.
Defined.

(** X3 at work: a secret without data and one with the empty document. *)
Lemma missing_key_reads_as_the_empty_document_witness :
  createKlusterletCRDsManifestWork (λ _, true) sample.liveCluster example.selfManagedSecret
  = createKlusterletCRDsManifestWork (λ _, true) sample.liveCluster
      (sample.emptyUnder "crdsv1.yaml").
Proof.
  refine (proj1 (missing_key_reads_as_the_empty_document
                   (table := knownConstants) (converter := oneline.converter)
                   (λ _, true) hub.SplitYamls sample.liveCluster
                   example.selfManagedSecret (sample.emptyUnder "crdsv1.yaml")
                   "crdsv1.yaml" _ _) _).
  - vm_compute. reflexivity.
  - vm_compute. reflexivity.
  - vm_compute. reflexivity.
Defined.

(** X4 at work. *)
Lemma built_works_are_the_klusterlet_works_witness :
  Forall (λ work,
            manifestwork.ignoreKlusterlet "t1" work = true
            ∧ manifestwork.ignoreKlusterletAndAddons "t1" work = true
            ∧ workv1.Namespace work = "t1"
            ∧ map_Forall (λ k v, workv1.Labels work !! k = Some v)
                ({[ constants.KlusterletWorksLabel := "true" ]} : gmap string string))
         [sample.crdsWork; sample.installWork].
Proof.
  refine (built_works_are_the_klusterlet_works
            (table := knownConstants) (converter := oneline.converter)
            (λ _, true) hub.SplitYamls sample.liveCluster sample.secret
            sample.crdsWork sample.installWork _ _).
  - vm_compute. reflexivity.
  - vm_compute. reflexivity.
Defined.

(** X7 at work: the cluster is being deleted. *)
Lemma Reconcile_of_a_deleting_cluster_deletes_witness :
  ∃ r w',
    manifestwork.deleteAddonsAndWorks (example.cluster "t1" clusterv1.Available)
      (hub.worksIn "t1" (sample.hubWith (example.cluster "t1" clusterv1.Available)
                           sample.secret ∅))
      (hub.sent (hub.request.ListManifestWorks "t1")
         (hub.sent (hub.request.GetManagedCluster "t1")
            (sample.hubWith (example.cluster "t1" clusterv1.Available) sample.secret ∅)))
    = (r, w')
    ∧ manifestworkcontroller.Reconcile (env := sample.env "Default") "t1"
        (sample.hubWith (example.cluster "t1" clusterv1.Available) sample.secret ∅)
      = (Returns r, w').
Proof.
  refine (Reconcile_of_a_deleting_cluster_deletes
            (table := knownConstants) (converter := oneline.converter)
            (W := hub.World) (calls := hub.calls) (api := hub.api) (env := sample.env "Default")
            "t1" (example.cluster "t1" clusterv1.Available) 0
            (hub.worksIn "t1" (sample.hubWith (example.cluster "t1" clusterv1.Available)
                                 sample.secret ∅))
            (sample.hubWith (example.cluster "t1" clusterv1.Available) sample.secret ∅)
            (hub.sent (hub.request.GetManagedCluster "t1")
               (sample.hubWith (example.cluster "t1" clusterv1.Available) sample.secret ∅))
            (hub.sent (hub.request.ListManifestWorks "t1")
               (hub.sent (hub.request.GetManagedCluster "t1")
                  (sample.hubWith (example.cluster "t1" clusterv1.Available)
                     sample.secret ∅)))
            (hub.sent (hub.request.ListManifestWorks "t1")
               (hub.sent (hub.request.GetManagedCluster "t1")
                  (sample.hubWith (example.cluster "t1" clusterv1.Available)
                     sample.secret ∅)))
            _ _ _ _ _).
  - vm_compute. reflexivity.
  - reflexivity.
  - vm_compute. reflexivity.
  - reflexivity.
  - reflexivity.
Defined.

(** X8 at work: the install document of the secret is malformed. *)
Lemma Reconcile_panics_only_in_the_builders_witness :
  ∃ managedCluster importSecret w1 w3,
    hub.GetManagedCluster "t1" (sample.hubWith sample.liveCluster sample.badSecret ∅)
    = (Ok managedCluster, w1)
    ∧ clusterv1.DeletionTimestamp managedCluster = None
    ∧ hub.GetSecret "t1" "t1-import" w3
      = (Ok importSecret,
         (manifestworkcontroller.Reconcile (env := sample.env "Default") "t1"
            (sample.hubWith sample.liveCluster sample.badSecret ∅)).2)
    ∧ manifestworkcontroller.ValidateImportSecret (Env := sample.env "Default") importSecret = None
    ∧ (createKlusterletCRDsManifestWork
         (manifestworkcontroller.IsAPIExtensionV1Supported (Env := sample.env "Default"))
         managedCluster importSecret
       = Panics (StatusFailure "yaml: document not of the form key: Word")
       ∨ createKlusterletManifestWork
           (manifestworkcontroller.SplitYamls (Env := sample.env "Default"))
           managedCluster importSecret
         = Panics (StatusFailure "yaml: document not of the form key: Word")).
Proof.
  refine (Reconcile_panics_only_in_the_builders
            (table := knownConstants) (converter := oneline.converter)
            (W := hub.World) (calls := hub.calls) (api := hub.api) (env := sample.env "Default")
            "t1" (sample.hubWith sample.liveCluster sample.badSecret ∅)
            (manifestworkcontroller.Reconcile (env := sample.env "Default") "t1"
               (sample.hubWith sample.liveCluster sample.badSecret ∅)).2
            (StatusFailure "yaml: document not of the form key: Word") _).
  vm_compute. reflexivity.
Defined.

(** X9 at work: the two works of the secret are applied. *)
Lemma Reconcile_applies_the_two_works_witness :
  ∃ crdsWork klusterletWork err w5,
    manifestworkcontroller.ApplyResources (Env := sample.env "Default") sample.liveCluster
      [crdsWork; klusterletWork]
      (hub.sent (hub.request.GetSecret "t1" "t1-import")
         (hub.sent (hub.request.ListManifestWorks "t1")
            (hub.sent (hub.request.GetManagedCluster "t1")
               (sample.hubWith sample.liveCluster sample.secret ∅))))
    = (err, w5)
    ∧ manifestworkcontroller.Reconcile (env := sample.env "Default") "t1"
        (sample.hubWith sample.liveCluster sample.secret ∅)
      = (Returns (reconcile.zero, err), w5)
    ∧ createKlusterletCRDsManifestWork
        (manifestworkcontroller.IsAPIExtensionV1Supported (Env := sample.env "Default"))
        sample.liveCluster sample.secret = Returns crdsWork
    ∧ createKlusterletManifestWork
        (manifestworkcontroller.SplitYamls (Env := sample.env "Default"))
        sample.liveCluster sample.secret = Returns klusterletWork
    ∧ workv1.Name crdsWork = "t1-crds"
    ∧ workv1.Name klusterletWork = "t1-klusterlet".
Proof.
  refine (Reconcile_applies_the_two_works
            (table := knownConstants) (converter := oneline.converter)
            (W := hub.World) (calls := hub.calls) (api := hub.api) (env := sample.env "Default")
            "t1" sample.liveCluster
            (hub.worksIn "t1" (sample.hubWith sample.liveCluster sample.secret ∅))
            sample.secret
            (sample.hubWith sample.liveCluster sample.secret ∅)
            (hub.sent (hub.request.GetManagedCluster "t1")
               (sample.hubWith sample.liveCluster sample.secret ∅))
            (hub.sent (hub.request.ListManifestWorks "t1")
               (hub.sent (hub.request.GetManagedCluster "t1")
                  (sample.hubWith sample.liveCluster sample.secret ∅)))
            (hub.sent (hub.request.ListManifestWorks "t1")
               (hub.sent (hub.request.GetManagedCluster "t1")
                  (sample.hubWith sample.liveCluster sample.secret ∅)))
            (hub.sent (hub.request.GetSecret "t1" "t1-import")
               (hub.sent (hub.request.ListManifestWorks "t1")
                  (hub.sent (hub.request.GetManagedCluster "t1")
                     (sample.hubWith sample.liveCluster sample.secret ∅))))
            _ _ _ _ _ _ _ _ _).
  - vm_compute. reflexivity.
  - reflexivity.
  - vm_compute. reflexivity.
  - reflexivity.
  - reflexivity.
  - vm_compute. reflexivity.
  - reflexivity.
  - eexists. vm_compute. reflexivity.
  - vm_compute. repeat constructor; by eexists.
Defined.

(** X10 at work: the hub stores no cluster of the name. *)
Lemma Reconcile_takes_absent_objects_for_no_error_witness :
  manifestworkcontroller.Reconcile (env := sample.env "Default") "t1" (example.hubOf [])
  = (Returns (reconcile.zero, None),
     hub.sent (hub.request.GetManagedCluster "t1") (example.hubOf [])).
Proof.
  refine (proj1 (Reconcile_takes_absent_objects_for_no_error
                   (table := knownConstants) (converter := oneline.converter)
                   (W := hub.World) (calls := hub.calls) (api := hub.api)
                   (env := sample.env "Default") "t1" (example.hubOf []))
            (StatusNotFound "managedcluster not found")
            (hub.sent (hub.request.GetManagedCluster "t1") (example.hubOf [])) _).
  vm_compute. reflexivity.
Defined.

(** X11 at work: the cluster is being deleted and one of its addons is
    still there, so that the rerun after ten seconds is asked for. *)
Lemma Reconcile_requeue_discipline_witness :
  reconcile.RequeueAfter
    {| reconcile.Requeue := false; reconcile.RequeueAfter := 10000000000 |}
  = 10000000000%Z
  ∧ ∃ managedCluster deleted w1,
      hub.GetManagedCluster "t1"
        (sample.hubWith (example.cluster "t1" clusterv1.Available) sample.secret
           {[ ("t1", "work-manager") ]})
      = (Ok managedCluster, w1)
      ∧ clusterv1.DeletionTimestamp managedCluster = Some deleted
      ∧ manifestworkcontroller.DetermineKlusterletMode (Env := sample.env "Default") managedCluster
        = manifestworkcontroller.KlusterletDeployModeDefault (Env := sample.env "Default")
      ∧ hub.IsClusterUnavailable managedCluster = false.
Proof.
  destruct (Reconcile_requeue_discipline
              (table := knownConstants) (converter := oneline.converter)
              (W := hub.World) (calls := hub.calls) (api := hub.api) (env := sample.env "Default")
              "t1"
              (sample.hubWith (example.cluster "t1" clusterv1.Available) sample.secret
                 {[ ("t1", "work-manager") ]})
              (manifestworkcontroller.Reconcile (env := sample.env "Default") "t1"
                 (sample.hubWith (example.cluster "t1" clusterv1.Available) sample.secret
                    {[ ("t1", "work-manager") ]})).2
              {| reconcile.Requeue := false; reconcile.RequeueAfter := 10000000000 |}
              None)
    as [_ [Hnone|Hten]].
  - vm_compute. reflexivity.
  - discriminate Hnone.
  - exact Hten.
Defined.

(** X13 at work: a cluster without the self managed label. *)
Lemma self_managed_import_is_skipped_witness :
  selfmanagedcluster.Reconcile "t1" (sample.hubWith sample.liveCluster sample.secret ∅)
  = ((reconcile.zero, None),
     hub.sent (hub.request.GetManagedCluster "t1")
       (sample.hubWith sample.liveCluster sample.secret ∅)).
Proof.
  refine (proj1 (self_managed_import_is_skipped
                   (table := knownConstants)
                   (W := hub.World) (calls := hub.calls) (api := hub.api)
                   "t1" sample.liveCluster
                   (sample.hubWith sample.liveCluster sample.secret ∅)
                   (hub.sent (hub.request.GetManagedCluster "t1")
                      (sample.hubWith sample.liveCluster sample.secret ∅)) _) _).
  - vm_compute. reflexivity.
  - vm_compute. reflexivity.
Defined.


(** X15 at work: the cluster of the deployment is created on a store that
    holds none. *)
Lemma createClusterRegistryCluster_creates_an_owned_cluster_witness :
  sample.registry.setReference sample.registry.deployment
    (clusterdeployment.newClusterRegistryCluster
       (env := sample.registry.env "clusterregistry.k8s.io/v1alpha1"
                 sample.registry.setReference)
       sample.registry.deployment)
  = Ok sample.registry.owned
  ∧ sample.registry.Create sample.registry.owned ∅
    = (None, {[ ("t1", "t1") := sample.registry.owned ]}).
Proof.
  refine (proj1 (createClusterRegistryCluster_creates_an_owned_cluster
                   (W := sample.registry.World)
                   (env := sample.registry.env "clusterregistry.k8s.io/v1alpha1"
                             sample.registry.setReference)
                   sample.registry.deployment ∅)
            sample.registry.owned {[ ("t1", "t1") := sample.registry.owned ]} _).
  vm_compute. reflexivity.
Defined.

(** X16 at work. *)
Lemma created_cluster_is_found_again_witness :
  clusterdeployment.getClusterRegistryCluster
    (env := sample.registry.env "clusterregistry.k8s.io/v1alpha1"
              sample.registry.setReference)
    sample.registry.deployment {[ ("t1", "t1") := sample.registry.owned ]}
  = (Ok sample.registry.owned, {[ ("t1", "t1") := sample.registry.owned ]})
  ∧ clusterregistryv1alpha1.Name sample.registry.owned = "t1"
  ∧ clusterregistryv1alpha1.Namespace sample.registry.owned = "t1".
Proof.
  refine (proj1 (created_cluster_is_found_again
                   "clusterregistry.k8s.io/v1alpha1" sample.registry.setReference
                   sample.registry.deployment ∅ _)
            sample.registry.owned {[ ("t1", "t1") := sample.registry.owned ]} _).
  - intros owner cr owned. unfold sample.registry.setReference.
    destruct (clusterregistryv1alpha1.Controller cr) as [other|].
    + destruct (bool_decide (other = hivev1.Name owner)); [|discriminate].
      intros Hset. injection Hset as <-. split; reflexivity.
    + intros Hset. injection Hset as <-. split; reflexivity.
  - vm_compute. reflexivity.
Defined.

(** X18 at work: an addon work of the cluster. *)
Lemma spared_works_that_hold_the_pass_back_witness :
  manifestwork.ignoreKlusterletAndAddons "t1"
    (example.work "t1" "t1-klusterlet-addon-search") = true
  ∧ manifestwork.ignoreKlusterlet "t1"
      (example.work "t1" "t1-klusterlet-addon-search") = false.
Proof.
  refine (proj2 (spared_works_that_hold_the_pass_back
                   (table := knownConstants) "t1"
                   (example.work "t1" "t1-klusterlet-addon-search")) _).
  split; [split; discriminate|].
  right. right. left. vm_compute. reflexivity.
Defined.

(** X19 at work: a cluster in the Hosted mode that is being deleted. *)
Lemma Reconcile_leaves_other_modes_alone_witness :
  manifestworkcontroller.Reconcile (env := sample.env "Hosted") "t1"
    (sample.hubWith (example.cluster "t1" clusterv1.Available) sample.secret ∅)
  = (Returns (reconcile.zero, None),
     hub.sent (hub.request.GetManagedCluster "t1")
       (sample.hubWith (example.cluster "t1" clusterv1.Available) sample.secret ∅)).
Proof.
  refine (Reconcile_leaves_other_modes_alone
            (table := knownConstants) (converter := oneline.converter)
            (W := hub.World) (calls := hub.calls) (api := hub.api)
            (env := sample.env "Hosted")
            "t1" (example.cluster "t1" clusterv1.Available)
            (sample.hubWith (example.cluster "t1" clusterv1.Available) sample.secret ∅)
            (hub.sent (hub.request.GetManagedCluster "t1")
               (sample.hubWith (example.cluster "t1" clusterv1.Available)
                  sample.secret ∅)) _ _).
  - vm_compute. reflexivity.
  - discriminate.
Defined.

End more_at_work.
